(** * EModelRunner: the hoc stimuli creator of [create_hoc_tools.py]

    A shallow embedding of the class [HocStimuliCreator]
    (emodelrunner/create_hoc_tools.py) and the properties of the hoc text
    it assembles.

    Python values are the JSON-like values a protocol file holds.  The
    class only looks values up, compares them with string constants and
    formats them into text; it performs no arithmetic on them.  A float is
    therefore carried as the text [repr] prints for it.  The methods mutate
    [self] and may raise: they are written in a state-and-error monad over
    the record of the instance attributes. *)

From Stdlib Require Import String Ascii List ZArith QArith Lia Bool DecimalString.
Import ListNotations.

Close Scope Q_scope.

Local Open Scope string_scope.
Local Open Scope list_scope.

(** ** Python values *)

#[warnings="-register-all"]
Inductive value : Type :=
| VNone
| VBool (b : bool)
| VInt (n : Z)
| VFloat (repr : string)
| VStr (s : string)
| VList (l : list value)
| VDict (d : list (string * value)).

(** A dict keeps its insertion order: an association list, read at the
    first binding of a key. *)
Definition dict : Type := list (string * value).

Inductive exn : Type :=
| KeyError (key : value)
| TypeError
| IndexError.

Inductive result (A : Type) : Type :=
| Ok (a : A)
| Raise (e : exn).

Arguments Ok {A} a.
Arguments Raise {A} e.

(** ** Text helpers *)

Definition nl : string := String "010"%char EmptyString.
Definition dquote : string := String "034"%char EmptyString.

Fixpoint spaces (n : nat) : string :=
  match n with
  | O => EmptyString
  | S k => String " "%char (spaces k)
  end.

(** One line of a triple-quoted template, at its column. *)
Definition col (n : nat) (text : string) : string := (spaces n ++ text)%string.

(** A triple-quoted template, line by line: the lines are joined by a
    newline; the template starts with a newline (first line empty) and
    ends with the indentation in front of the closing quotes. *)
Definition template (lines : list string) : string := String.concat nl lines.

Definition str_of_nat (n : nat) : string := NilZero.string_of_uint (Nat.to_uint n).
Definition str_of_Z (n : Z) : string := NilZero.string_of_int (Z.to_int n).

(** ** Python primitives on values *)

Fixpoint dict_get (d : dict) (k : string) : option value :=
  match d with
  | [] => None
  | (k', v) :: rest => if String.eqb k' k then Some v else dict_get rest k
  end.

(** [v[k]] for a string key [k]. *)
Definition getitem (v : value) (k : string) : result value :=
  match v with
  | VDict d =>
      match dict_get d k with
      | Some x => Ok x
      | None => Raise (KeyError (VStr k))
      end
  | _ => Raise TypeError
  end.

(** [v[0]]. *)
Definition getitem0 (v : value) : result value :=
  match v with
  | VList (x :: _) => Ok x
  | VList [] => Raise IndexError
  | VStr (String c _) => Ok (VStr (String c EmptyString))
  | VStr EmptyString => Raise IndexError
  | VDict _ => Raise (KeyError (VInt 0))
  | _ => Raise TypeError
  end.

(** [v == s] for a string constant [s]. *)
Definition eq_str (v : value) (s : string) : bool :=
  match v with
  | VStr t => String.eqb t s
  | _ => false
  end.

(** [sub in s] on strings. *)
Fixpoint str_contains (sub s : string) : bool :=
  if prefix sub s then true
  else match s with
       | EmptyString => false
       | String _ s' => str_contains sub s'
       end.

(** [k in v] for a string constant [k]. *)
Definition contains (k : string) (v : value) : result bool :=
  match v with
  | VDict d => Ok (match dict_get d k with Some _ => true | None => false end)
  | VList l => Ok (existsb (fun x => eq_str x k) l)
  | VStr s => Ok (str_contains k s)
  | _ => Raise TypeError
  end.

(** The elements a [for] loop visits. *)
Definition iter (v : value) : result (list value) :=
  match v with
  | VList l => Ok l
  | VDict d => Ok (map (fun kv => VStr (fst kv)) d)
  | VStr s => Ok (map (fun c => VStr (String c EmptyString)) (list_ascii_of_string s))
  | _ => Raise TypeError
  end.

(** [isinstance(v, dict)]. *)
Definition is_dict (v : value) : bool :=
  match v with
  | VDict _ => true
  | _ => false
  end.

(** [s.split(sep)] for a non-empty separator: the text is cut at the
    leftmost occurrences of [sep] that do not overlap.  [skip] counts the
    characters of a separator still to be passed over, [cur] is the piece
    being read. *)
Fixpoint split_from (sep : string) (skip : nat) (cur s : string) : list string :=
  match s with
  | EmptyString => [cur]
  | String c s' =>
      match skip with
      | S k => split_from sep k cur s'
      | O =>
          if prefix sep s
          then cur :: split_from sep (String.length sep - 1) EmptyString s'
          else split_from sep 0 (cur ++ String c EmptyString) s'
      end
  end.

Definition str_split (sep s : string) : list string := split_from sep 0 EmptyString s.

(** [v in l] for a list [l] of strings. *)
Definition in_str_list (v : value) (l : list string) : bool :=
  match v with
  | VStr s => existsb (String.eqb s) l
  | _ => false
  end.

(** ** The instance attributes *)

Record HocStimuliCreator : Type := mkHocStimuliCreator {
  apical_point_isec : Z;
  n_stims : nat;
  max_steps : nat;
  reset_step_stimuli : string;
  init_step_stimuli : string;
  stims_hoc : string;
  save_recs : string;
  extra_recs_vars : string;
  extra_recs : string
}.

Definition set_n_stims (n : nat) (self : HocStimuliCreator) : HocStimuliCreator :=
  mkHocStimuliCreator (apical_point_isec self) n (max_steps self)
    (reset_step_stimuli self) (init_step_stimuli self) (stims_hoc self)
    (save_recs self) (extra_recs_vars self) (extra_recs self).

Definition set_max_steps (n : nat) (self : HocStimuliCreator) : HocStimuliCreator :=
  mkHocStimuliCreator (apical_point_isec self) (n_stims self) n
    (reset_step_stimuli self) (init_step_stimuli self) (stims_hoc self)
    (save_recs self) (extra_recs_vars self) (extra_recs self).

Definition add_reset_step_stimuli (t : string) (self : HocStimuliCreator) : HocStimuliCreator :=
  mkHocStimuliCreator (apical_point_isec self) (n_stims self) (max_steps self)
    (reset_step_stimuli self ++ t) (init_step_stimuli self) (stims_hoc self)
    (save_recs self) (extra_recs_vars self) (extra_recs self).

Definition add_init_step_stimuli (t : string) (self : HocStimuliCreator) : HocStimuliCreator :=
  mkHocStimuliCreator (apical_point_isec self) (n_stims self) (max_steps self)
    (reset_step_stimuli self) (init_step_stimuli self ++ t) (stims_hoc self)
    (save_recs self) (extra_recs_vars self) (extra_recs self).

Definition add_stims_hoc (t : string) (self : HocStimuliCreator) : HocStimuliCreator :=
  mkHocStimuliCreator (apical_point_isec self) (n_stims self) (max_steps self)
    (reset_step_stimuli self) (init_step_stimuli self) (stims_hoc self ++ t)
    (save_recs self) (extra_recs_vars self) (extra_recs self).

Definition add_save_recs (t : string) (self : HocStimuliCreator) : HocStimuliCreator :=
  mkHocStimuliCreator (apical_point_isec self) (n_stims self) (max_steps self)
    (reset_step_stimuli self) (init_step_stimuli self) (stims_hoc self)
    (save_recs self ++ t) (extra_recs_vars self) (extra_recs self).

Definition add_extra_recs_vars (t : string) (self : HocStimuliCreator) : HocStimuliCreator :=
  mkHocStimuliCreator (apical_point_isec self) (n_stims self) (max_steps self)
    (reset_step_stimuli self) (init_step_stimuli self) (stims_hoc self)
    (save_recs self) (extra_recs_vars self ++ t) (extra_recs self).

Definition add_extra_recs_text (t : string) (self : HocStimuliCreator) : HocStimuliCreator :=
  mkHocStimuliCreator (apical_point_isec self) (n_stims self) (max_steps self)
    (reset_step_stimuli self) (init_step_stimuli self) (stims_hoc self)
    (save_recs self) (extra_recs_vars self) (extra_recs self ++ t).

(** ** Methods: state and exceptions *)

Definition M (A : Type) : Type := HocStimuliCreator -> result (A * HocStimuliCreator).

Definition ret {A : Type} (a : A) : M A := fun self => Ok (a, self).

Definition bind {A B : Type} (m : M A) (f : A -> M B) : M B :=
  fun self =>
    match m self with
    | Ok (a, self') => f a self'
    | Raise e => Raise e
    end.

Definition lift {A : Type} (r : result A) : M A :=
  fun self =>
    match r with
    | Ok a => Ok (a, self)
    | Raise e => Raise e
    end.

Definition gets {A : Type} (f : HocStimuliCreator -> A) : M A :=
  fun self => Ok (f self, self).

Definition modify (f : HocStimuliCreator -> HocStimuliCreator) : M unit :=
  fun self => Ok (tt, f self).

Declare Scope hoc_scope.
Delimit Scope hoc_scope with hoc.
Notation "x <- m ;; k" := (bind m (fun x => k))
  (at level 61, m at next level, right associativity) : hoc_scope.
Notation "m ;; k" := (bind m (fun _ => k))
  (at level 61, right associativity) : hoc_scope.
Local Open Scope hoc_scope.

Fixpoint for_each {A : Type} (l : list A) (body : A -> M unit) : M unit :=
  match l with
  | [] => ret tt
  | x :: rest => body x ;; for_each rest body
  end.

(** ** Sample inputs *)

(** A stand-in for [repr] on containers, for the inputs below, none of
    which has a container formatted. *)
Definition no_repr (v : value) : string := "<container>".

(** The ramp of the specification: delay 10, duration 20, amplitudes 0.1
    to 0.5, total duration 50. *)
Definition ramp_example : value :=
  VDict [("type", VStr "RampProtocol");
         ("stimuli",
          VDict [("ramp",
                  VDict [("ramp_delay", VInt 10);
                         ("ramp_duration", VInt 20);
                         ("ramp_amplitude_start", VFloat "0.1");
                         ("ramp_amplitude_end", VFloat "0.5");
                         ("totduration", VInt 50)])])].

Definition vecstim_example : value :=
  VDict [("type", VStr "Vecstim");
         ("stimuli",
          VDict [("syn_start", VInt 50); ("syn_stop", VInt 3000);
                 ("syn_stim_seed", VInt 3)])].

Definition netstim_example : value :=
  VDict [("type", VStr "Netstim");
         ("stimuli",
          VDict [("syn_start", VInt 50); ("syn_stop", VInt 3000);
                 ("syn_interval", VInt 100); ("syn_nmb_of_spikes", VInt 5);
                 ("syn_noise", VInt 0)])].

Definition rec_example (name : string) : value :=
  VDict [("name", VStr name); ("seclist_name", VStr "apical"); ("var", VStr "v");
         ("type", VStr "somadistance"); ("somadistance", VInt 100)].

Definition step_entry (delay duration : Z) (amp : string) : value :=
  VDict [("delay", VInt delay); ("amp", VFloat amp); ("duration", VInt duration);
         ("totduration", VInt 3000)].

(** A StepProtocol with two step entries and one with a single record. *)
Definition two_steps_example : value :=
  VDict [("type", VStr "StepProtocol");
         ("stimuli", VDict [("step", VList [step_entry 700 2000 "0.2";
                                            step_entry 100 50 "1.5"])])].

Definition one_step_example : value :=
  VDict [("type", VStr "StepProtocol");
         ("stimuli", VDict [("step", step_entry 700 2000 "0.3")])].

Definition steps_example : dict :=
  [("Step_two", two_steps_example); ("Step_one", one_step_example)].

(** A protocol of each kind: with synapses off the Vecstim one is not run. *)
Definition mixed_example : dict :=
  [("Step_two", two_steps_example); ("Vecstim", vecstim_example); ("Ramp", ramp_example)].

(** A synapse protocol with the fields of both kinds of stimulus. *)
Definition synapse_example : value :=
  VDict [("stimuli",
          VDict [("syn_start", VInt 50); ("syn_stop", VInt 3000);
                 ("syn_stim_seed", VInt 3); ("syn_interval", VInt 100);
                 ("syn_nmb_of_spikes", VInt 5); ("syn_noise", VInt 0)])].

(** A Vecstim protocol that declares an extra recording. *)
Definition vecstim_rec_example : dict :=
  [("type", VStr "Vecstim");
   ("stimuli", VDict [("syn_start", VInt 50); ("syn_stop", VInt 3000);
                      ("syn_stim_seed", VInt 3)]);
   ("extra_recordings", VList [rec_example "dend1"])].

(** A step protocol with an extra recording. *)
Definition step_rec_example : value :=
  VDict [("type", VStr "StepProtocol");
         ("stimuli", VDict [("step", step_entry 700 2000 "0.3")]);
         ("extra_recordings", VList [rec_example "dend1"])].

(** A StepProtocol whose stimuli have no [step] key. *)
Definition step_without_step : dict :=
  [("type", VStr "StepProtocol"); ("stimuli", VDict [])].


(** A protocol without type whose extra recording has no name. *)
Definition untyped_bad_rec : value :=
  VDict [("extra_recordings", VList [VDict []])].


(** A protocol whose two extra recordings have the same name [a, b]. *)
Definition same_name_twice : value :=
  VDict [("extra_recordings", VList [rec_example "a, b"; rec_example "a, b"])].

(** ** The class *)

Section Creator.

(** [repr] of a list or a dict, which is what formatting a container
    prints.  No method formats a container on purpose; the function is a
    parameter of the development. *)
Variable py_repr : value -> string.

(** What an f-string or [str.format] substitutes for [{v}]. *)
Definition py_format (v : value) : string :=
  match v with
  | VNone => "None"
  | VBool true => "True"
  | VBool false => "False"
  | VInt n => str_of_Z n
  | VFloat r => r
  | VStr s => s
  | VList _ => py_repr v
  | VDict _ => py_repr v
  end.

(** *** add_extra_recs *)

Definition nrnseclistcomp_hoc (name seclist_name sec_index var comp_x : string) : string :=
  template [
    EmptyString;
    col 24 (name ++ " = new Vector()");
    col 24 ("cell." ++ seclist_name ++ "[" ++ sec_index ++ "] " ++ name
            ++ ".record(&" ++ var ++ "(" ++ comp_x ++ "), 0.1)");
    col 20 EmptyString ].

Definition somadistance_hoc (name seclist_name somadistance var : string) : string :=
  template [
    EmptyString;
    col 24 (name ++ " = new Vector()");
    col 24 ("secref = find_isec_at_soma_distance(cell." ++ seclist_name ++ ", "
            ++ somadistance ++ ")");
    col 24 ("comp_x = find_comp_x_at_soma_distance(secref, " ++ somadistance ++ ")");
    EmptyString;
    col 24 ("secref.sec " ++ name ++ ".record(&" ++ var ++ "(comp_x), 0.1)");
    col 20 EmptyString ].

Definition somadistanceapic_hoc (name apical somadistance var : string) : string :=
  template [
    EmptyString;
    col 24 (name ++ " = new Vector()");
    col 24 ("apical_branch = get_apical_branch(" ++ apical ++ ")");
    col 24 ("secref = find_isec_at_soma_distance(apical_branch, " ++ somadistance ++ ")");
    col 24 ("comp_x = find_comp_x_at_soma_distance(secref, " ++ somadistance ++ ")");
    EmptyString;
    col 24 ("secref.sec " ++ name ++ ".record(&" ++ var ++ "(comp_x), 0.1)");
    col 20 EmptyString ].

(** The body of the loop of [add_extra_recs]. *)
Definition add_extra_rec (extra_rec : value) : M unit :=
  name <- lift (getitem extra_rec "name") ;;
  seclist_name <- lift (getitem extra_rec "seclist_name") ;;
  var <- lift (getitem extra_rec "var") ;;
  vars <- gets extra_recs_vars ;;
  if negb (in_str_list name (str_split ", " vars)) then
    modify (add_extra_recs_vars (", " ++ py_format name)) ;;
    type <- lift (getitem extra_rec "type") ;;
    if eq_str type "nrnseclistcomp" then
      sec_index <- lift (getitem extra_rec "sec_index") ;;
      comp_x <- lift (getitem extra_rec "comp_x") ;;
      modify (add_extra_recs_text
                (nrnseclistcomp_hoc (py_format name) (py_format seclist_name)
                   (py_format sec_index) (py_format var) (py_format comp_x)))
    else if eq_str type "somadistance" then
      somadistance <- lift (getitem extra_rec "somadistance") ;;
      modify (add_extra_recs_text
                (somadistance_hoc (py_format name) (py_format seclist_name)
                   (py_format somadistance) (py_format var)))
    else if eq_str type "somadistanceapic" then
      somadistance <- lift (getitem extra_rec "somadistance") ;;
      apical <- gets apical_point_isec ;;
      modify (add_extra_recs_text
                (somadistanceapic_hoc (py_format name) (str_of_Z apical)
                   (py_format somadistance) (py_format var)))
    else ret tt
  else ret tt.

Definition add_extra_recs (extra_recs : value) : M unit :=
  l <- lift (iter extra_recs) ;;
  for_each l add_extra_rec.

(** *** add_save_recordings_hoc *)

Definition save_soma_hoc (n_stims mtype prot_name : string) : string :=
  template [
    EmptyString;
    col 12 ("if (stim_number == " ++ n_stims ++ ") {");
    col 16 ("sprint(fpath.s, " ++ dquote ++ "hoc_recordings/" ++ mtype ++ "."
            ++ prot_name ++ ".soma.v.dat" ++ dquote ++ ")");
    col 16 "timevoltage = new Matrix(time.size(), 2)";
    col 16 "timevoltage.setcol(0, time)";
    col 16 "timevoltage.setcol(1, voltage)";
    col 16 "write_output_file(fpath, timevoltage)";
    col 8 EmptyString ].

Definition save_extra_hoc (mtype prot_name name var : string) : string :=
  template [
    EmptyString;
    col 20 ("sprint(fpath.s, " ++ dquote ++ "hoc_recordings/" ++ mtype ++ "."
            ++ prot_name ++ "." ++ name ++ "." ++ var ++ ".dat" ++ dquote ++ ")");
    col 20 "timevoltage = new Matrix(time.size(), 2)";
    col 20 "timevoltage.setcol(0, time)";
    col 20 ("timevoltage.setcol(1, " ++ name ++ ")");
    col 20 "write_output_file(fpath, timevoltage)";
    col 16 EmptyString ].

Definition block_end_hoc : string :=
  template [ EmptyString; col 12 "}"; col 8 EmptyString ].

(** The body of the loop over the extra recordings of a protocol. *)
Definition save_extra_rec (mtype : value) (prot_name : string) (extra_rec : value) : M unit :=
  var <- lift (getitem extra_rec "var") ;;
  name <- lift (getitem extra_rec "name") ;;
  modify (add_save_recs
            (save_extra_hoc (py_format mtype) prot_name (py_format name) (py_format var))).

Definition add_save_recordings_hoc (mtype : value) (prot_name : string) (prot : value)
  : M unit :=
  n <- gets n_stims ;;
  modify (add_save_recs (save_soma_hoc (str_of_nat n) (py_format mtype) prot_name)) ;;
  has_extra <- lift (contains "extra_recordings" prot) ;;
  (if has_extra then
     recs <- lift (getitem prot "extra_recordings") ;;
     l <- lift (iter recs) ;;
     for_each l (save_extra_rec mtype prot_name)
   else ret tt) ;;
  modify (add_save_recs block_end_hoc).

(** *** get_step_hoc *)

Definition holding_hoc (duration delay amp : string) : string :=
  template [
    EmptyString;
    col 16 "holding_stimulus = new IClamp(0.5)";
    col 16 ("holding_stimulus.dur = " ++ duration);
    col 16 ("holding_stimulus.del = " ++ delay);
    col 16 ("holding_stimulus.amp = " ++ amp);
    EmptyString;
    col 16 "cell.soma holding_stimulus";
    col 12 EmptyString ].

(** The holding stimulus, which [get_step_hoc] and [get_ramp_hoc] both
    start with: the text to start from. *)
Definition get_holding_hoc (prot : value) : result string :=
  match getitem prot "stimuli" with
  | Raise e => Raise e
  | Ok stimuli =>
      match contains "holding" stimuli with
      | Raise e => Raise e
      | Ok false => Ok EmptyString
      | Ok true =>
          match getitem stimuli "holding" with
          | Raise e => Raise e
          | Ok hold =>
              match getitem hold "duration" with
              | Raise e => Raise e
              | Ok duration =>
                  match getitem hold "delay" with
                  | Raise e => Raise e
                  | Ok delay =>
                      match getitem hold "amp" with
                      | Raise e => Raise e
                      | Ok amp =>
                          Ok (holding_hoc (py_format duration) (py_format delay)
                                (py_format amp))
                      end
                  end
              end
          end
      end
  end.

Definition step_hoc_text (i duration delay amp : string) : string :=
  template [
    EmptyString;
    col 16 ("step_stimulus_" ++ i ++ " = new IClamp(0.5)");
    col 16 ("step_stimulus_" ++ i ++ ".dur = " ++ duration);
    col 16 ("step_stimulus_" ++ i ++ ".del = " ++ delay);
    col 16 ("step_stimulus_" ++ i ++ ".amp = " ++ amp);
    EmptyString;
    col 16 ("cell.soma step_stimulus_" ++ i);
    col 12 EmptyString ].

(** The loop [for i, step in enumerate(step_definitions)], from index [i]
    on, with the text built so far. *)
Fixpoint step_loop (i : nat) (steps : list value) (step_hoc : string) : M string :=
  match steps with
  | [] => ret step_hoc
  | step :: rest =>
      m <- gets max_steps ;;
      (if Nat.ltb m (i + 1) then modify (set_max_steps (i + 1)) else ret tt) ;;
      duration <- lift (getitem step "duration") ;;
      delay <- lift (getitem step "delay") ;;
      amp <- lift (getitem step "amp") ;;
      step_loop (S i) rest
        (step_hoc ++ step_hoc_text (str_of_nat i) (py_format duration) (py_format delay)
                       (py_format amp))
  end.

Definition get_step_hoc (prot : value) : M string :=
  step_hoc <- lift (get_holding_hoc prot) ;;
  stimuli <- lift (getitem prot "stimuli") ;;
  step <- lift (getitem stimuli "step") ;;
  let step_definitions := if is_dict step then VList [step] else step in
  steps <- lift (iter step_definitions) ;;
  step_hoc <- step_loop 0 steps step_hoc ;;
  first <- lift (getitem0 step_definitions) ;;
  totduration <- lift (getitem first "totduration") ;;
  ret (step_hoc ++ "tstop=" ++ py_format totduration)%string.

(** *** get_ramp_hoc *)

Definition ramp_vectors_hoc
  (delay amplitude_start duration amplitude_end total_duration : string) : string :=
  template [
    EmptyString;
    col 12 "ramp_times = new Vector()";
    col 12 "ramp_amps = new Vector()";
    EmptyString;
    col 12 "ramp_times.append(0.0)";
    col 12 "ramp_amps.append(0.0)";
    EmptyString;
    col 12 ("ramp_times.append(" ++ delay ++ ")");
    col 12 "ramp_amps.append(0.0)";
    EmptyString;
    col 12 ("ramp_times.append(" ++ delay ++ ")");
    col 12 ("ramp_amps.append(" ++ amplitude_start ++ ")");
    EmptyString;
    col 12 ("ramp_times.append(" ++ delay ++ " + " ++ duration ++ ")");
    col 12 ("ramp_amps.append(" ++ amplitude_end ++ ")");
    EmptyString;
    col 12 ("ramp_times.append(" ++ delay ++ " + " ++ duration ++ ")");
    col 12 "ramp_amps.append(0.0)";
    EmptyString;
    col 12 ("ramp_times.append(" ++ total_duration ++ ")");
    col 12 "ramp_amps.append(0.0)";
    col 8 EmptyString ].

Definition ramp_stimulus_hoc (total_duration : string) : string :=
  template [
    EmptyString;
    col 12 "ramp_stimulus = new IClamp(0.5)";
    col 12 ("ramp_stimulus.dur = " ++ total_duration);
    EmptyString;
    col 12 "ramp_amps.play(&ramp_stimulus.amp, ramp_times, 1)";
    EmptyString;
    col 12 "cell.soma ramp_stimulus";
    col 8 EmptyString ].

(** A static method: no attribute is read or written. *)
Definition get_ramp_hoc (prot : value) : result string :=
  match get_holding_hoc prot with
  | Raise e => Raise e
  | Ok ramp_hoc =>
  match getitem prot "stimuli" with
  | Raise e => Raise e
  | Ok stimuli =>
  match getitem stimuli "ramp" with
  | Raise e => Raise e
  | Ok ramp_definition =>
  match getitem ramp_definition "ramp_delay" with
  | Raise e => Raise e
  | Ok delay =>
  match getitem ramp_definition "ramp_amplitude_start" with
  | Raise e => Raise e
  | Ok amplitude_start =>
  match getitem ramp_definition "ramp_duration" with
  | Raise e => Raise e
  | Ok duration =>
  match getitem ramp_definition "ramp_amplitude_end" with
  | Raise e => Raise e
  | Ok amplitude_end =>
  match getitem ramp_definition "totduration" with
  | Raise e => Raise e
  | Ok total_duration =>
      Ok (ramp_hoc
          ++ ramp_vectors_hoc (py_format delay) (py_format amplitude_start)
               (py_format duration) (py_format amplitude_end) (py_format total_duration)
          ++ ramp_stimulus_hoc (py_format total_duration)
          ++ "tstop=" ++ py_format total_duration)%string
  end end end end end end end end.

(** *** get_vecstim_hoc and get_netstim_hoc *)

(** The template [({mode},{t0},{tf},{itv},{n_spike},{noise},{seed})]. *)
Definition netcons_args_hoc (mode t0 tf itv n_spike noise seed : string) : string :=
  "(" ++ mode ++ "," ++ t0 ++ "," ++ tf ++ "," ++ itv ++ "," ++ n_spike ++ ","
  ++ noise ++ "," ++ seed ++ ")".

Definition get_vecstim_hoc (prot : value) : result string :=
  match getitem prot "stimuli" with
  | Raise e => Raise e
  | Ok stim =>
  match getitem stim "syn_stop" with
  | Raise e => Raise e
  | Ok tstop =>
  let vecstim_hoc := ("tstop=" ++ py_format tstop ++ nl)%string in
  let hoc_synapse_creation := "cell.synapses.create_netcons " in
  match getitem stim "syn_start" with
  | Raise e => Raise e
  | Ok t0 =>
  match getitem stim "syn_stop" with
  | Raise e => Raise e
  | Ok tf =>
  match getitem stim "syn_stim_seed" with
  | Raise e => Raise e
  | Ok seed =>
      Ok (vecstim_hoc ++ hoc_synapse_creation
          ++ netcons_args_hoc (py_format (VInt 0)) (py_format t0) (py_format tf)
               (py_format (VInt 0)) (py_format (VInt 0)) (py_format (VInt 0))
               (py_format seed))%string
  end end end end end.

Definition get_netstim_hoc (prot : value) : result string :=
  match getitem prot "stimuli" with
  | Raise e => Raise e
  | Ok stim =>
  match getitem stim "syn_stop" with
  | Raise e => Raise e
  | Ok tstop =>
  let netstim_hoc := ("tstop=" ++ py_format tstop ++ nl)%string in
  let hoc_synapse_creation := "cell.synapses.create_netcons" in
  match getitem stim "syn_start" with
  | Raise e => Raise e
  | Ok t0 =>
  match getitem stim "syn_stop" with
  | Raise e => Raise e
  | Ok tf =>
  match getitem stim "syn_interval" with
  | Raise e => Raise e
  | Ok itv =>
  match getitem stim "syn_nmb_of_spikes" with
  | Raise e => Raise e
  | Ok n_spike =>
  match getitem stim "syn_noise" with
  | Raise e => Raise e
  | Ok noise =>
      Ok (netstim_hoc ++ hoc_synapse_creation
          ++ netcons_args_hoc (py_format (VInt 1)) (py_format t0) (py_format tf)
               (py_format itv) (py_format n_spike) (py_format noise)
               (py_format (VInt 0)))%string
  end end end end end end end.

(** *** get_stim_hoc *)

Definition stim_if_hoc (n_stims : string) : string :=
  template [
    EmptyString;
    col 12 ("if (stim_number == " ++ n_stims ++ ") {");
    col 8 EmptyString ].

Definition get_stim_hoc (fct : value -> M string) (prot : value) : M string :=
  n <- gets n_stims ;;
  let stim_hoc := stim_if_hoc (str_of_nat n) in
  body <- fct prot ;;
  ret (stim_hoc ++ body ++ block_end_hoc)%string.

(** *** get_reset_step and get_init_step *)

Definition reset_step_hoc (i : string) : string :=
  template [
    EmptyString;
    col 16 ("step_stimulus_" ++ i ++ " = new IClamp(0.5)");
    col 16 ("step_stimulus_" ++ i ++ ".dur = 0.0");
    col 16 ("step_stimulus_" ++ i ++ ".del = 0.0");
    col 16 ("step_stimulus_" ++ i ++ ".amp = 0.0");
    EmptyString;
    col 16 ("cell.soma step_stimulus_" ++ i);
    col 12 EmptyString ].

Definition init_step_hoc (i : string) : string :=
  template [
    EmptyString;
    col 16 ("objref step_stimulus_" ++ i);
    col 12 EmptyString ].

Definition get_reset_step : M unit :=
  m <- gets max_steps ;;
  for_each (seq 0 (Nat.max m 1))
    (fun i => modify (add_reset_step_stimuli (reset_step_hoc (str_of_nat i)))).

Definition get_init_step : M unit :=
  m <- gets max_steps ;;
  for_each (seq 0 (Nat.max m 1))
    (fun i => modify (add_init_step_stimuli (init_step_hoc (str_of_nat i)))).

(** *** __init__ *)

(** The test ["type" in prot and prot["type"] == t]. *)
Definition type_is (prot : value) (t : string) : result bool :=
  match contains "type" prot with
  | Raise e => Raise e
  | Ok false => Ok false
  | Ok true =>
      match getitem prot "type" with
      | Raise e => Raise e
      | Ok type => Ok (eq_str type t)
      end
  end.

(** The four statements every branch of the dispatch runs, with the
    method [fct] of its protocol type. *)
Definition run_branch (fct : value -> M string) (mtype : value) (prot_name : string)
  (prot : value) : M unit :=
  modify (fun self => set_n_stims (n_stims self + 1) self) ;;
  hoc <- get_stim_hoc fct prot ;;
  modify (add_stims_hoc hoc) ;;
  add_save_recordings_hoc mtype prot_name prot.

(** The body of the loop over [prot_definitions.items()]. *)
Definition init_body (mtype : value) (add_synapses : bool) (item : string * value)
  : M unit :=
  let prot_name := fst item in
  let prot := snd item in
  has_extra <- lift (contains "extra_recordings" prot) ;;
  (if has_extra then
     recs <- lift (getitem prot "extra_recordings") ;;
     add_extra_recs recs
   else ret tt) ;;
  is_step <- lift (type_is prot "StepProtocol") ;;
  if is_step then run_branch get_step_hoc mtype prot_name prot
  else
    is_ramp <- lift (type_is prot "RampProtocol") ;;
    if is_ramp then run_branch (fun p => lift (get_ramp_hoc p)) mtype prot_name prot
    else
      is_vecstim <- lift (type_is prot "Vecstim") ;;
      if is_vecstim && add_synapses
      then run_branch (fun p => lift (get_vecstim_hoc p)) mtype prot_name prot
      else
        is_netstim <- lift (type_is prot "Netstim") ;;
        if is_netstim && add_synapses
        then run_branch (fun p => lift (get_netstim_hoc p)) mtype prot_name prot
        else ret tt.

Definition init_loop (prot_definitions : dict) (mtype : value) (add_synapses : bool)
  : M unit :=
  for_each prot_definitions (init_body mtype add_synapses).

Definition initial (apical_point_isec : Z) : HocStimuliCreator :=
  mkHocStimuliCreator apical_point_isec 0 0 EmptyString EmptyString EmptyString
    EmptyString EmptyString EmptyString.

(** [HocStimuliCreator(prot_definitions, mtype, add_synapses,
    apical_point_isec)]: the instance, or the exception [__init__] lets
    through. *)
Definition new_HocStimuliCreator (prot_definitions : dict) (mtype : value)
  (add_synapses : bool) (apical_point_isec : Z) : result HocStimuliCreator :=
  match (init_loop prot_definitions mtype add_synapses ;;
         get_reset_step ;;
         get_init_step) (initial apical_point_isec) with
  | Ok (_, self) => Ok self
  | Raise e => Raise e
  end.

(** ** Reading the generated text

    The definitions below are not part of the class: they name what the
    properties speak about. *)

(** The file a recording is written to. *)
Definition soma_path (mtype prot_name : string) : string :=
  "hoc_recordings/" ++ mtype ++ "." ++ prot_name ++ ".soma.v.dat".

Definition extra_path (mtype prot_name recording_name var : string) : string :=
  "hoc_recordings/" ++ mtype ++ "." ++ prot_name ++ "." ++ recording_name ++ "."
  ++ var ++ ".dat".

(** The five statements that write the vector [trace] to the file [path],
    each on a line of its own at column [c]. *)
Definition write_trace_hoc (c : nat) (path trace : string) : string :=
  nl ++ col c ("sprint(fpath.s, " ++ dquote ++ path ++ dquote ++ ")")
  ++ nl ++ col c "timevoltage = new Matrix(time.size(), 2)"
  ++ nl ++ col c "timevoltage.setcol(0, time)"
  ++ nl ++ col c ("timevoltage.setcol(1, " ++ trace ++ ")")
  ++ nl ++ col c "write_output_file(fpath, timevoltage)".

(** The [name] and the [var] of the entries of an [extra_recordings] list. *)
Definition rec_names (extra_rec : value) (nv : value * value) : Prop :=
  getitem extra_rec "name" = Ok (fst nv) /\ getitem extra_rec "var" = Ok (snd nv).

(** The two statements that append one point of the ramp, after a blank
    line: first its time, then its amplitude. *)
Definition append_point_hoc (point : string * string) : string :=
  nl ++ col 12 ("ramp_times.append(" ++ fst point ++ ")")
  ++ nl ++ col 12 ("ramp_amps.append(" ++ snd point ++ ")")
  ++ nl.

(** The points of the ramp, as the hoc expressions appended. *)
Definition ramp_points (delay amplitude_start duration amplitude_end total_duration : string)
  : list (string * string) :=
  [ ("0.0", "0.0");
    (delay, "0.0");
    (delay, amplitude_start);
    (delay ++ " + " ++ duration, amplitude_end);
    (delay ++ " + " ++ duration, "0.0");
    (total_duration, "0.0") ]%string.

(** The seven positional fields of the synapse directive. *)
Definition netcons_fields (mode t0 tf itv n_spike noise seed : string) : string :=
  "(" ++ String.concat "," [mode; t0; tf; itv; n_spike; noise; seed] ++ ")".

(** The [extra_recordings] of a protocol as [add_save_recordings_hoc] and
    [__init__] read them: none when the key is absent. *)
Definition extra_recordings_of (prot : value) : result (list value) :=
  match contains "extra_recordings" prot with
  | Raise e => Raise e
  | Ok false => Ok []
  | Ok true =>
      match getitem prot "extra_recordings" with
      | Raise e => Raise e
      | Ok recs => iter recs
      end
  end.

(** The number a hoc expression made of decimal literals and [+] denotes,
    to read the points of a ramp as numbers. *)
Definition digit_of (c : ascii) : option Z :=
  let n := nat_of_ascii c in
  if (48 <=? n)%nat && (n <=? 57)%nat then Some (Z.of_nat (n - 48)) else None.

Fixpoint literal_from (s : string) (num : Z) (den : positive) (frac : bool) : option Q :=
  match s with
  | EmptyString => Some (Qred (num # den)%Q)
  | String c s' =>
      if Ascii.eqb c "."%char
      then (if frac then None else literal_from s' num den true)
      else match digit_of c with
           | Some d => literal_from s' (10 * num + d) (if frac then 10 * den else den)%positive frac
           | None => None
           end
  end.

Definition hoc_literal (s : string) : option Q :=
  match s with
  | EmptyString => None
  | _ => literal_from s 0 1 false
  end.

Definition hoc_value (e : string) : option Q :=
  fold_left
    (fun acc lit =>
       match acc, hoc_literal lit with
       | Some a, Some b => Some (Qred (a + b)%Q)
       | _, _ => None
       end)
    (str_split " + " e) (Some (0 # 1)%Q).

Definition point_value (point : string * string) : option Q * option Q :=
  (hoc_value (fst point), hoc_value (snd point)).

(** What [add_save_recordings_hoc] appends for a protocol whose extra
    recordings have the names and variables [entries]. *)
Definition save_block (n : nat) (mtype : value) (prot_name : string)
  (entries : list (value * value)) : string :=
  save_soma_hoc (str_of_nat n) (py_format mtype) prot_name
  ++ String.concat EmptyString
       (map (fun nv => save_extra_hoc (py_format mtype) prot_name
                         (py_format (fst nv)) (py_format (snd nv)))
          entries)
  ++ block_end_hoc.


(** [a] and [b] differ at most in the two attributes of the extra
    recordings. *)
Definition same_stimuli (a b : HocStimuliCreator) : Prop :=
  apical_point_isec a = apical_point_isec b
  /\ n_stims a = n_stims b
  /\ max_steps a = max_steps b
  /\ reset_step_stimuli a = reset_step_stimuli b
  /\ init_step_stimuli a = init_step_stimuli b
  /\ stims_hoc a = stims_hoc b
  /\ save_recs a = save_recs b.

(** The protocol has the type [t]: the test of a branch of the dispatch holds. *)
Definition has_type (prot : value) (t : string) : bool :=
  match type_is prot t with
  | Ok b => b
  | Raise _ => false
  end.

(** The protocols the dispatch runs: StepProtocol and RampProtocol, and
    Vecstim and Netstim when synapses are added. *)
Definition dispatchable (add_synapses : bool) (prot : value) : bool :=
  has_type prot "StepProtocol"
  || has_type prot "RampProtocol"
  || (add_synapses && (has_type prot "Vecstim" || has_type prot "Netstim")).

(** The number of step entries of a protocol: one for a single record. *)
Definition step_entries (prot : value) : nat :=
  match getitem prot "stimuli" with
  | Ok stimuli =>
      match getitem stimuli "step" with
      | Ok (VDict _) => 1
      | Ok (VList l) => List.length l
      | _ => 0
      end
  | Raise _ => 0
  end.

(** What the extra recordings of a protocol do to the instance, first
    thing in the body of the loop of [__init__]. *)
Definition register_extra_recs (prot : value) : M unit :=
  has_extra <- lift (contains "extra_recordings" prot) ;;
  if has_extra then
    recs <- lift (getitem prot "extra_recordings") ;;
    add_extra_recs recs
  else ret tt.

(** The dispatch on the type of the protocol, which the body of the loop
    of [__init__] runs after the extra recordings. *)
Definition dispatch (mtype : value) (add_synapses : bool) (prot_name : string)
  (prot : value) : M unit :=
  is_step <- lift (type_is prot "StepProtocol") ;;
  if is_step then run_branch get_step_hoc mtype prot_name prot
  else
    is_ramp <- lift (type_is prot "RampProtocol") ;;
    if is_ramp then run_branch (fun p => lift (get_ramp_hoc p)) mtype prot_name prot
    else
      is_vecstim <- lift (type_is prot "Vecstim") ;;
      if is_vecstim && add_synapses
      then run_branch (fun p => lift (get_vecstim_hoc p)) mtype prot_name prot
      else
        is_netstim <- lift (type_is prot "Netstim") ;;
        if is_netstim && add_synapses
        then run_branch (fun p => lift (get_netstim_hoc p)) mtype prot_name prot
        else ret tt.

(** The method the dispatch calls for a protocol. *)
Definition method_of (prot : value) : value -> M string :=
  if has_type prot "StepProtocol" then get_step_hoc
  else if has_type prot "RampProtocol" then (fun p => lift (get_ramp_hoc p))
  else if has_type prot "Vecstim" then (fun p => lift (get_vecstim_hoc p))
  else (fun p => lift (get_netstim_hoc p)).

(** [body] is the stimulus text the method of the protocol returns. *)
Definition stimulus_of (prot : value) (body : string) : Prop :=
  exists self self', method_of prot prot self = Ok (body, self').

(** The conditional block [get_stim_hoc] wraps a stimulus in. *)
Definition stim_block (n : nat) (body : string) : string :=
  stim_if_hoc (str_of_nat n) ++ body ++ block_end_hoc.

(** A method of a protocol type changes [max_steps] at most. *)
Definition keeps_but_max_steps (fct : value -> M string) : Prop :=
  forall prot self body self',
    fct prot self = Ok (body, self') -> self' = set_max_steps (max_steps self') self.


(** A dispatched protocol as the two scripts show it: the index of its
    guard, its name, the text of its stimulus and the names and variables
    of its extra recordings. *)
Record block : Type := mkBlock {
  guard : nat;
  block_name : string;
  block_body : string;
  block_entries : list (value * value)
}.

(** The stimulus script and the script saving the recordings that a list
    of blocks stands for: each block is guarded by its index in both. *)
Definition stims_of_blocks (blocks : list block) : string :=
  String.concat EmptyString
    (map (fun b => stim_block (guard b) (block_body b)) blocks).

Definition saves_of_blocks (mtype : value) (blocks : list block) : string :=
  String.concat EmptyString
    (map (fun b => save_block (guard b) mtype (block_name b) (block_entries b)) blocks).

(** The block [b] is the one of the protocol [item]. *)
Definition block_of (item : string * value) (b : block) : Prop :=
  block_name b = fst item
  /\ stimulus_of (snd item) (block_body b)
  /\ exists l, extra_recordings_of (snd item) = Ok l
               /\ Forall2 rec_names l (block_entries b).

Definition dispatchable_items (add_synapses : bool) (prot_definitions : dict) : dict :=
  filter (fun item => dispatchable add_synapses (snd item)) prot_definitions.

Definition step_protocols (prot_definitions : dict) : dict :=
  filter (fun item => has_type (snd item) "StepProtocol") prot_definitions.

(** The number of places of [s] where [needle] starts. *)
Fixpoint count_occ_str (needle s : string) : nat :=
  (if prefix needle s then 1 else 0)
  + match s with
    | EmptyString => 0
    | String _ s' => count_occ_str needle s'
    end.

(** The text [get_init_step] and [get_reset_step] produce for [n] objects. *)
Definition init_steps_hoc (n : nat) : string :=
  String.concat EmptyString (map (fun i => init_step_hoc (str_of_nat i)) (seq 0 n)).

Definition reset_steps_hoc (n : nat) : string :=
  String.concat EmptyString (map (fun i => reset_step_hoc (str_of_nat i)) (seq 0 n)).

Definition is_digit (c : ascii) : bool :=
  let n := nat_of_ascii c in (48 <=? n)%nat && (n <=? 57)%nat.

(** A protocol that passes none of the four tests of the dispatch. *)
Definition inert (add_synapses : bool) (d : dict) : Prop :=
  match dict_get d "type" with
  | None => True
  | Some ty =>
      eq_str ty "StepProtocol" = false
      /\ eq_str ty "RampProtocol" = false
      /\ (add_synapses = false
          \/ (eq_str ty "Vecstim" = false /\ eq_str ty "Netstim" = false))
  end.


(** The name [n] passes the test of [add_extra_recs]: it is one of the
    pieces the variable list splits into. *)
Definition in_vars (n : string) (self : HocStimuliCreator) : bool :=
  in_str_list (VStr n) (str_split ", " (extra_recs_vars self)).

(** [later a b]: the instance gets from [a] to [b] by statements of
    [__init__], each an entry of some [extra_recordings] going through the
    loop of [add_extra_recs], or a protocol going through the dispatch. *)
Inductive later (a : HocStimuliCreator) : HocStimuliCreator -> Prop :=
| later_refl : later a a
| later_extra_rec (b c : HocStimuliCreator) (extra_rec : value) :
    later a b -> add_extra_rec extra_rec b = Ok (tt, c) -> later a c
| later_dispatch (b c : HocStimuliCreator) (mtype : value) (add_synapses : bool)
    (prot_name : string) (prot : value) :
    later a b -> dispatch mtype add_synapses prot_name prot b = Ok (tt, c) -> later a c.

(** *** Reading the step stimuli *)

(** The [duration], [delay] and [amp] of a step entry. *)
Definition step_fields (step : value) (f : value * value * value) : Prop :=
  getitem step "duration" = Ok (fst (fst f))
  /\ getitem step "delay" = Ok (snd (fst f))
  /\ getitem step "amp" = Ok (snd f).

(** The step entries of a [step] value: a single record counts as one entry. *)
Definition steps_of (step : value) : option (list value) :=
  match step with
  | VDict _ => Some [step]
  | VList l => Some l
  | _ => None
  end.

(** The text of the step stimuli numbered from [i] on. *)
Definition steps_text (i : nat) (fields : list (value * value * value)) : string :=
  String.concat EmptyString
    (map (fun kf =>
            step_hoc_text (str_of_nat (fst kf)) (py_format (fst (fst (snd kf))))
              (py_format (snd (fst (snd kf)))) (py_format (snd (snd kf))))
       (combine (seq i (List.length fields)) fields)).

(** *** Reading the variable list *)

(** The names of [names] that are not in [seen] and did not come before
    in [names], in the order of their first occurrence. *)
Fixpoint first_seen (seen names : list string) : list string :=
  match names with
  | [] => []
  | n :: rest =>
      if existsb (String.eqb n) seen then first_seen seen rest
      else n :: first_seen (seen ++ [n]) rest
  end.

(** The variable list of the names: [, n1, n2, ...]. *)
Definition vars_of (names : list string) : string :=
  String.concat EmptyString (map (fun n => ", " ++ n)%string names).

(** An entry named by the string [n], which has no [", "] in it. *)
Definition rec_name (extra_rec : value) (n : string) : Prop :=
  getitem extra_rec "name" = Ok (VStr n) /\ str_contains ", " n = false.

(** *** Comparing two instances *)

(** [a] and [b] differ at most in the script that saves the recordings. *)
Definition same_but_save_recs (a b : HocStimuliCreator) : Prop :=
  apical_point_isec a = apical_point_isec b
  /\ n_stims a = n_stims b
  /\ max_steps a = max_steps b
  /\ reset_step_stimuli a = reset_step_stimuli b
  /\ init_step_stimuli a = init_step_stimuli b
  /\ stims_hoc a = stims_hoc b
  /\ extra_recs_vars a = extra_recs_vars b
  /\ extra_recs a = extra_recs b.

(** [a] and [b] agree on the extra recordings and on the step objects. *)
Definition same_registry (a b : HocStimuliCreator) : Prop :=
  apical_point_isec a = apical_point_isec b
  /\ max_steps a = max_steps b
  /\ reset_step_stimuli a = reset_step_stimuli b
  /\ init_step_stimuli a = init_step_stimuli b
  /\ extra_recs_vars a = extra_recs_vars b
  /\ extra_recs a = extra_recs b.

(** What [max_steps] becomes when the method of the protocol has run. *)
Definition max_steps_after (prot : value) (m : nat) : nat :=
  if has_type prot "StepProtocol" then Nat.max m (step_entries prot) else m.

(** The instance after a branch of the dispatch has run on [self], for
    the stimulus text [body] and the extra recordings [entries] of the
    protocol. *)
Definition branch_result (mtype : value) (prot_name : string) (prot : value)
  (body : string) (entries : list (value * value)) (self : HocStimuliCreator)
  : HocStimuliCreator :=
  add_save_recs (save_block (n_stims self + 1) mtype prot_name entries)
    (add_stims_hoc (stim_block (n_stims self + 1) body)
       (set_max_steps (max_steps_after prot (max_steps self))
          (set_n_stims (n_stims self + 1) self))).

(** A method of a protocol type returns the same text in every state and
    sets [max_steps] as [g] says. *)
Definition uniform (fct : value -> M string) (g : value -> nat -> nat) : Prop :=
  forall prot self text self',
    fct prot self = Ok (text, self') ->
    forall other,
      fct prot other = Ok (text, set_max_steps (g prot (max_steps other)) other).

(** [b] holds what [a] held and more: each script of [b] starts with
    the script of [a], and the counts are not below. *)
Definition grows (a b : HocStimuliCreator) : Prop :=
  apical_point_isec b = apical_point_isec a
  /\ n_stims a <= n_stims b
  /\ max_steps a <= max_steps b
  /\ reset_step_stimuli b = reset_step_stimuli a
  /\ init_step_stimuli b = init_step_stimuli a
  /\ (exists more, stims_hoc b = (stims_hoc a ++ more)%string)
  /\ (exists more, save_recs b = (save_recs a ++ more)%string)
  /\ (exists more, extra_recs_vars b = (extra_recs_vars a ++ more)%string)
  /\ (exists more, extra_recs b = (extra_recs a ++ more)%string).

(** *** Reading the scripts line by line

    The text of the scripts as a reader of the generated file sees it,
    written out line by line. *)

(** The line that opens the block of the stimulus number [n], and the
    lines that close a block. *)
Definition guard_hoc (n : nat) : string :=
  nl ++ col 12 ("if (stim_number == " ++ str_of_nat n ++ ") {").

Definition end_of_block_hoc : string :=
  nl ++ col 12 "}" ++ nl ++ col 8 EmptyString.

(** The block of the stimulus number [n] in the stimulus script. *)
Definition guarded_stimulus (n : nat) (body : string) : string :=
  guard_hoc n ++ nl ++ col 8 EmptyString ++ body ++ end_of_block_hoc.

(** The block of the stimulus number [n] in the script that saves the
    recordings: the voltage of the soma, then every extra recording. *)
Definition guarded_save (n : nat) (mtype : value) (prot_name : string)
  (entries : list (value * value)) : string :=
  guard_hoc n
  ++ write_trace_hoc 16 (soma_path (py_format mtype) prot_name) "voltage"
  ++ nl ++ col 8 EmptyString
  ++ String.concat EmptyString
       (map (fun nv =>
               write_trace_hoc 20
                 (extra_path (py_format mtype) prot_name (py_format (fst nv))
                    (py_format (snd nv)))
                 (py_format (fst nv))
               ++ nl ++ col 16 EmptyString)%string
          entries)
  ++ end_of_block_hoc.

(** The declaration of the step object number [i]. *)
Definition step_object_declared (i : nat) : string :=
  nl ++ col 16 ("objref step_stimulus_" ++ str_of_nat i)
  ++ nl ++ col 12 EmptyString.

(** The step object number [i] as a current clamp in the middle of the
    soma, with the duration [duration], the delay [delay] and the
    amplitude [amp]. *)
Definition step_object_hoc (i : nat) (duration delay amp : string) : string :=
  nl ++ col 16 ("step_stimulus_" ++ str_of_nat i ++ " = new IClamp(0.5)")
  ++ nl ++ col 16 ("step_stimulus_" ++ str_of_nat i ++ ".dur = " ++ duration)
  ++ nl ++ col 16 ("step_stimulus_" ++ str_of_nat i ++ ".del = " ++ delay)
  ++ nl ++ col 16 ("step_stimulus_" ++ str_of_nat i ++ ".amp = " ++ amp)
  ++ nl
  ++ nl ++ col 16 ("cell.soma step_stimulus_" ++ str_of_nat i)
  ++ nl ++ col 12 EmptyString.

(** The step object number [i] reset: duration, delay and amplitude 0.0. *)
Definition step_object_reset (i : nat) : string :=
  step_object_hoc i "0.0" "0.0" "0.0".

(** The holding stimulus. *)
Definition holding_stimulus_hoc (duration delay amp : string) : string :=
  nl ++ col 16 "holding_stimulus = new IClamp(0.5)"
  ++ nl ++ col 16 ("holding_stimulus.dur = " ++ duration)
  ++ nl ++ col 16 ("holding_stimulus.del = " ++ delay)
  ++ nl ++ col 16 ("holding_stimulus.amp = " ++ amp)
  ++ nl
  ++ nl ++ col 16 "cell.soma holding_stimulus"
  ++ nl ++ col 12 EmptyString.

(** The text a protocol starts with for its [stimuli]: the holding
    stimulus of the record under [holding], nothing without this key. *)
Definition holding_text_of (stimuli : value) (hold_text : string) : Prop :=
  (contains "holding" stimuli = Ok false /\ hold_text = EmptyString)
  \/ (contains "holding" stimuli = Ok true
      /\ exists hold duration delay amp,
           getitem stimuli "holding" = Ok hold
           /\ getitem hold "duration" = Ok duration
           /\ getitem hold "delay" = Ok delay
           /\ getitem hold "amp" = Ok amp
           /\ hold_text = holding_stimulus_hoc (py_format duration) (py_format delay)
                            (py_format amp)).

(** The step objects numbered from [i] on, one for each entry of
    [fields]. *)
Definition step_objects_hoc (i : nat) (fields : list (value * value * value)) : string :=
  String.concat EmptyString
    (map (fun kf =>
            step_object_hoc (fst kf) (py_format (fst (fst (snd kf))))
              (py_format (snd (fst (snd kf)))) (py_format (snd (snd kf))))
       (combine (seq i (List.length fields)) fields)).

(** *** Reading the declarations of the extra recordings *)

(** The vector of the recording [name] is created. *)
Definition vector_declared_hoc (name : string) : string :=
  nl ++ col 24 (name ++ " = new Vector()").

(** The vector [name] records [var] at [where_]. *)
Definition vector_attached_hoc (where_ name var x : string) : string :=
  nl ++ col 24 (where_ ++ " " ++ name ++ ".record(&" ++ var ++ "(" ++ x ++ "), 0.1)").

(** The fragment of a recording at the compartment [comp_x] of the section
    [sec_index] of a section list. *)
Definition section_recording_hoc (name seclist_name sec_index var comp_x : string)
  : string :=
  vector_declared_hoc name
  ++ vector_attached_hoc ("cell." ++ seclist_name ++ "[" ++ sec_index ++ "]") name var
       comp_x
  ++ nl ++ col 20 EmptyString.

(** The fragment of a recording at a distance of the soma, on the section
    list [sections]. *)
Definition distance_recording_hoc (name sections somadistance var : string) : string :=
  nl ++ col 24 ("secref = find_isec_at_soma_distance(" ++ sections ++ ", "
                ++ somadistance ++ ")")
  ++ nl ++ col 24 ("comp_x = find_comp_x_at_soma_distance(secref, " ++ somadistance ++ ")")
  ++ nl
  ++ vector_attached_hoc "secref.sec" name var "comp_x"
  ++ nl ++ col 20 EmptyString.

(** [text] is the fragment that declares and attaches the recording
    [extra_rec], which has one of the three types, on a cell whose apical
    point is in the section [apical]. *)
Definition declares (apical : Z) (extra_rec : value) (text : string) : Prop :=
  exists name seclist_name var type,
    getitem extra_rec "name" = Ok name
    /\ getitem extra_rec "seclist_name" = Ok seclist_name
    /\ getitem extra_rec "var" = Ok var
    /\ getitem extra_rec "type" = Ok (VStr type)
    /\ ((type = "nrnseclistcomp"
         /\ exists sec_index comp_x,
              getitem extra_rec "sec_index" = Ok sec_index
              /\ getitem extra_rec "comp_x" = Ok comp_x
              /\ text = section_recording_hoc (py_format name) (py_format seclist_name)
                          (py_format sec_index) (py_format var) (py_format comp_x))
        \/ (type = "somadistance"
            /\ exists somadistance,
                 getitem extra_rec "somadistance" = Ok somadistance
                 /\ text = (vector_declared_hoc (py_format name)
                            ++ distance_recording_hoc (py_format name)
                                 ("cell." ++ py_format seclist_name)
                                 (py_format somadistance) (py_format var))%string)
        \/ (type = "somadistanceapic"
            /\ exists somadistance,
                 getitem extra_rec "somadistance" = Ok somadistance
                 /\ text = (vector_declared_hoc (py_format name)
                            ++ nl ++ col 24 ("apical_branch = get_apical_branch("
                                             ++ str_of_Z apical ++ ")")
                            ++ distance_recording_hoc (py_format name) "apical_branch"
                                 (py_format somadistance) (py_format var))%string)).

(** [named_so_far a names b]: the instance gets from [a] to [b] by
    statements of [__init__], each an entry of some [extra_recordings]
    going through the loop of [add_extra_recs], or a protocol going
    through the dispatch; [names] are the names of these entries, in
    order, each a string without [", "]. *)
Inductive named_so_far (a : HocStimuliCreator)
  : list string -> HocStimuliCreator -> Prop :=
| named_none : named_so_far a [] a
| named_extra_rec (names : list string) (b c : HocStimuliCreator) (extra_rec : value)
    (n : string) :
    named_so_far a names b -> rec_name extra_rec n ->
    add_extra_rec extra_rec b = Ok (tt, c) -> named_so_far a (names ++ [n]) c
| named_dispatch (names : list string) (b c : HocStimuliCreator) (mtype : value)
    (add_synapses : bool) (prot_name : string) (prot : value) :
    named_so_far a names b ->
    dispatch mtype add_synapses prot_name prot b = Ok (tt, c) -> named_so_far a names c.

(** *** Reading what a protocol requires *)




End Creator.

(** ** The functions of the module *)

(** *** create_hoc: the ignored global parameters

    [del d[k]] and [d[k] = v] on a dict. *)
Fixpoint dict_del (d : dict) (k : string) : dict :=
  match d with
  | [] => []
  | (k', v) :: rest =>
      if String.eqb k' k then dict_del rest k else (k', v) :: dict_del rest k
  end.

Fixpoint dict_set (d : dict) (k : string) (v : value) : dict :=
  match d with
  | [] => [(k, v)]
  | (k', v') :: rest =>
      if String.eqb k' k then (k', v) :: rest else (k', v') :: dict_set rest k v
  end.

(** The loop of [create_hoc] over [ignored_globals]: a global parameter
    named there is moved from [global_params] to [ignored_global_params].
    The pair is the two dicts after the loop. *)
Fixpoint move_ignored_globals (ignored_globals : list string)
  (global_params ignored_global_params : dict) : dict * dict :=
  match ignored_globals with
  | [] => (global_params, ignored_global_params)
  | ignored_global :: rest =>
      match dict_get global_params ignored_global with
      | Some v =>
          move_ignored_globals rest (dict_del global_params ignored_global)
            (dict_set ignored_global_params ignored_global v)
      | None => move_ignored_globals rest global_params ignored_global_params
      end
  end.

(** *** create_simul_hoc *)

Section CreateSimulHoc.

Variable py_repr : value -> string.

(** The template file and jinja2 are outside the module: [load_template]
    stands for joining the path, reading the file and building the
    [jinja2.Template], [render] for [template.render] on its keyword
    arguments; either may raise an error of its own, of type [external]. *)
Variable template : Type.
Variable external : Type.
Variable load_template : string -> string -> external + template.
Variable render : template -> list (string * value) -> external + string.

Inductive outcome (A : Type) : Type :=
| Returns (a : A)
| Raises (e : exn)
| Fails (e : external).

Arguments Returns {A} a.
Arguments Raises {A} e.
Arguments Fails {A} e.

Definition create_simul_hoc (template_dir template_filename : string)
  (add_synapses : bool) (hoc_paths constants_args : value) (protocol_definitions : dict)
  (apical_point_isec : Z) : outcome (string * nat) :=
  match getitem hoc_paths "syn_dir_for_hoc" with
  | Raise e => Raises e
  | Ok syn_dir =>
  match getitem hoc_paths "syn_hoc_filename" with
  | Raise e => Raises e
  | Ok syn_hoc_file =>
  match getitem hoc_paths "hoc_filename" with
  | Raise e => Raises e
  | Ok hoc_file =>
  match getitem constants_args "mtype" with
  | Raise e => Raises e
  | Ok mtype =>
  match new_HocStimuliCreator py_repr protocol_definitions mtype add_synapses
          apical_point_isec with
  | Raise e => Raises e
  | Ok hoc_stim_creator =>
  match load_template template_dir template_filename with
  | inl e => Fails e
  | inr tpl =>
  match getitem constants_args "celsius" with
  | Raise e => Raises e
  | Ok celsius =>
  match getitem constants_args "v_init" with
  | Raise e => Raises e
  | Ok v_init =>
  match getitem constants_args "dt" with
  | Raise e => Raises e
  | Ok dt =>
  match getitem constants_args "emodel" with
  | Raise e => Raises e
  | Ok emodel =>
  match getitem constants_args "gid" with
  | Raise e => Raises e
  | Ok gid =>
  match getitem constants_args "morph_path" with
  | Raise e => Raises e
  | Ok morph_path =>
  match render tpl
          [("hoc_file", hoc_file);
           ("add_synapses", VBool add_synapses);
           ("syn_dir", syn_dir);
           ("syn_hoc_file", syn_hoc_file);
           ("celsius", celsius);
           ("v_init", v_init);
           ("dt", dt);
           ("template_name", emodel);
           ("gid", gid);
           ("morph_path", morph_path);
           ("stims", VStr (stims_hoc hoc_stim_creator));
           ("save_recordings", VStr (save_recs hoc_stim_creator));
           ("initiate_step_stimuli", VStr (init_step_stimuli hoc_stim_creator));
           ("reset_step_stimuli", VStr (reset_step_stimuli hoc_stim_creator));
           ("extra_recordings_vars", VStr (extra_recs_vars hoc_stim_creator));
           ("extra_recordings", VStr (extra_recs hoc_stim_creator))] with
  | inl e => Fails e
  | inr text => Returns (text, n_stims hoc_stim_creator)
  end end end end end end end end end end end end end.

End CreateSimulHoc.

Arguments Returns {external A} a.
Arguments Raises {external A} e.
Arguments Fails {external A} e.

(** ** The class on the sample inputs *)

Definition run (prot_definitions : dict) (add_synapses : bool) : HocStimuliCreator :=
  match new_HocStimuliCreator no_repr prot_definitions (VStr "L5PC") add_synapses (-1) with
  | Ok self => self
  | Raise _ => initial 0
  end.

Definition mixed_instance : HocStimuliCreator := Eval vm_compute in
  run mixed_example false.

Definition steps_instance : HocStimuliCreator := Eval vm_compute in
  run steps_example false.

Definition ramp_instance : HocStimuliCreator := Eval vm_compute in
  run [("Ramp", ramp_example)] false.

Definition same_name_instance : HocStimuliCreator := Eval vm_compute in
  run [("Twice", same_name_twice)] false.

(** The instance after an extra recording named [name] was declared. *)
Definition declared (name : string) : HocStimuliCreator :=
  add_extra_recs_text (somadistance_hoc name "apical" "100" "v")
    (add_extra_recs_vars (", " ++ name) (initial (-1))).


Definition mixed_synapses_instance : HocStimuliCreator := Eval vm_compute in
  run mixed_example true.

(** The stimuli of [one_step_example], and the same with the record in a list. *)
Definition one_step_dict : dict :=
  [("type", VStr "StepProtocol");
   ("stimuli", VDict [("step", step_entry 700 2000 "0.3")])].

Definition one_step_list_dict : dict :=
  [("type", VStr "StepProtocol");
   ("stimuli", VDict [("step", VList [step_entry 700 2000 "0.3"])])].

(** A StepProtocol whose list of steps is empty. *)
Definition empty_steps_example : value :=
  VDict [("type", VStr "StepProtocol"); ("stimuli", VDict [("step", VList [])])].

(** An extra recording without [type]. *)
Definition rec_without_type : dict :=
  [("name", VStr "dend1"); ("seclist_name", VStr "apical"); ("var", VStr "v")].

(** Global parameters, two of them to be ignored. *)
Definition global_params_example : dict :=
  [("v_init", VInt (-80)); ("celsius", VInt 34); ("gSK_bar", VFloat "0.5")].

(** Arguments of [create_simul_hoc], with a template that renders to the
    stimuli it is given. *)
Definition hoc_paths_example : value :=
  VDict [("syn_dir_for_hoc", VStr "synapses"); ("syn_hoc_filename", VStr "synapses.hoc");
         ("hoc_filename", VStr "cell.hoc")].

Definition constants_example : value :=
  VDict [("mtype", VStr "L5PC"); ("celsius", VInt 34); ("v_init", VInt (-80));
         ("dt", VFloat "0.025"); ("emodel", VStr "cADpyr"); ("gid", VInt 1);
         ("morph_path", VStr "morphology/cell.asc")].

Definition load_example (template_dir template_filename : string) : string + unit :=
  inr tt.

Definition render_example (tpl : unit) (arguments : list (string * value))
  : string + string :=
  match dict_get arguments "stims" with
  | Some (VStr stims) => inr stims
  | _ => inl "stims"%string
  end.

(** The instance after the loop of [__init__] went over a ramp. *)
Definition ramp_loop_instance : HocStimuliCreator := Eval vm_compute in
  match init_loop no_repr [("Ramp", ramp_example)] (VStr "L5PC") false (initial (-1)) with
  | Ok (_, self) => self
  | Raise _ => initial 0
  end.

(** The step stimulus of [one_step_example]. *)
Definition one_step_text : string := Eval vm_compute in
  match get_step_hoc no_repr one_step_example (initial (-1)) with
  | Ok (text, _) => text
  | Raise _ => EmptyString
  end.

(** The instance after the extra recordings dend1, dend2, dend1. *)
Definition two_names_instance : HocStimuliCreator := Eval vm_compute in
  match add_extra_recs no_repr
          (VList [rec_example "dend1"; rec_example "dend2"; rec_example "dend1"])
          (initial (-1)) with
  | Ok (_, self) => self
  | Raise _ => initial 0
  end.

(** A StepProtocol of two entries with a holding stimulus. *)
Definition holding_example : value :=
  VDict [("delay", VInt 0); ("amp", VFloat "-0.1"); ("duration", VInt 3000)].

Definition held_steps_example : value :=
  VDict [("type", VStr "StepProtocol");
         ("stimuli",
          VDict [("holding", holding_example);
                 ("step", VList [step_entry 700 2000 "0.2"; step_entry 100 50 "1.5"])])].
(** ** Properties

    They hold whatever [repr] prints for a container. *)

Section Properties.

Variable py_repr : value -> string.

Local Abbreviation py_format := (py_format py_repr).
Local Abbreviation add_extra_rec := (add_extra_rec py_repr).
Local Abbreviation add_extra_recs := (add_extra_recs py_repr).
Local Abbreviation save_extra_rec := (save_extra_rec py_repr).
Local Abbreviation add_save_recordings_hoc := (add_save_recordings_hoc py_repr).
Local Abbreviation get_holding_hoc := (get_holding_hoc py_repr).
Local Abbreviation step_loop := (step_loop py_repr).
Local Abbreviation get_step_hoc := (get_step_hoc py_repr).
Local Abbreviation get_ramp_hoc := (get_ramp_hoc py_repr).
Local Abbreviation get_vecstim_hoc := (get_vecstim_hoc py_repr).
Local Abbreviation get_netstim_hoc := (get_netstim_hoc py_repr).
Local Abbreviation run_branch := (run_branch py_repr).
Local Abbreviation init_body := (init_body py_repr).
Local Abbreviation init_loop := (init_loop py_repr).
Local Abbreviation new_HocStimuliCreator := (new_HocStimuliCreator py_repr).
Local Abbreviation save_block := (save_block py_repr).
Local Abbreviation register_extra_recs := (register_extra_recs py_repr).
Local Abbreviation dispatch := (dispatch py_repr).
Local Abbreviation method_of := (method_of py_repr).
Local Abbreviation stimulus_of := (stimulus_of py_repr).
Local Abbreviation saves_of_blocks := (saves_of_blocks py_repr).
Local Abbreviation block_of := (block_of py_repr).
Local Abbreviation later := (later py_repr).
Local Abbreviation later_refl := (later_refl py_repr).
Local Abbreviation later_extra_rec := (later_extra_rec py_repr).
Local Abbreviation later_dispatch := (later_dispatch py_repr).

Local Abbreviation steps_text := (steps_text py_repr).
Local Abbreviation branch_result := (branch_result py_repr).

Local Abbreviation guarded_save := (guarded_save py_repr).
Local Abbreviation holding_text_of := (holding_text_of py_repr).
Local Abbreviation step_objects_hoc := (step_objects_hoc py_repr).
Local Abbreviation declares := (declares py_repr).
Local Abbreviation named_so_far := (named_so_far py_repr).
Local Abbreviation named_none := (named_none py_repr).
Local Abbreviation named_extra_rec := (named_extra_rec py_repr).
Local Abbreviation named_dispatch := (named_dispatch py_repr).
(** ** Text lemmas *)

Lemma append_nil_r (s : string) : (s ++ EmptyString)%string = s.
Proof.
  induction s as [|c s IH]; simpl; [reflexivity | now rewrite IH].
Qed.

Lemma append_assoc (a b c : string) : ((a ++ b) ++ c)%string = (a ++ (b ++ c))%string.
Proof.
  induction a as [|x a IH]; simpl; [reflexivity | now rewrite IH].
Qed.

Ltac text_norm :=
  cbn [template String.concat col spaces append fst snd];
  repeat (rewrite !append_assoc; cbn [append]).

Lemma ramp_vectors_points (delay a0 duration a1 total : string) :
  ramp_vectors_hoc delay a0 duration a1 total
  = (nl ++ col 12 "ramp_times = new Vector()"
     ++ nl ++ col 12 "ramp_amps = new Vector()"
     ++ nl
     ++ String.concat EmptyString
          (map append_point_hoc (ramp_points delay a0 duration a1 total))
     ++ col 8 EmptyString)%string.
Proof.
  unfold ramp_vectors_hoc, ramp_points, append_point_hoc, nl.
  cbn [map]. text_norm. reflexivity.
Qed.

(** ** The ramp envelope *)

(** C3: the ramp fragment appends six points, time then amplitude, in the
    order (0,0), (delay,0), (delay,amp_start), (delay+duration,amp_end),
    (delay+duration,0), (total_duration,0), the sum being left to hoc as
    the expression [delay + duration]; for the ramp with delay 10, duration
    20, amplitudes 0.1 and 0.5 and total duration 50 the points are
    (0,0), (10,0), (10,0.1), (30,0.5), (30,0), (50,0). *)
Theorem ramp_appends_six_points :
  forall prot stimuli ramp hold delay a0 duration a1 total,
    get_holding_hoc prot = Ok hold ->
    getitem prot "stimuli" = Ok stimuli ->
    getitem stimuli "ramp" = Ok ramp ->
    getitem ramp "ramp_delay" = Ok delay ->
    getitem ramp "ramp_amplitude_start" = Ok a0 ->
    getitem ramp "ramp_duration" = Ok duration ->
    getitem ramp "ramp_amplitude_end" = Ok a1 ->
    getitem ramp "totduration" = Ok total ->
    let points :=
      ramp_points (py_format delay) (py_format a0) (py_format duration)
        (py_format a1) (py_format total) in
    get_ramp_hoc prot
    = Ok (hold
          ++ (nl ++ col 12 "ramp_times = new Vector()"
              ++ nl ++ col 12 "ramp_amps = new Vector()"
              ++ nl
              ++ String.concat EmptyString (map append_point_hoc points)
              ++ col 8 EmptyString)
          ++ ramp_stimulus_hoc (py_format total)
          ++ "tstop=" ++ py_format total)%string
    /\ List.length points = 6%nat
    /\ (prot = ramp_example ->
        points = [("0.0", "0.0"); ("10", "0.0"); ("10", "0.1"); ("10 + 20", "0.5");
                  ("10 + 20", "0.0"); ("50", "0.0")]%string
        /\ map point_value points
           = [(Some (0 # 1), Some (0 # 1)); (Some (10 # 1), Some (0 # 1));
              (Some (10 # 1), Some (1 # 10)); (Some (30 # 1), Some (1 # 2));
              (Some (30 # 1), Some (0 # 1)); (Some (50 # 1), Some (0 # 1))]%Q).
Proof.
  intros prot stimuli ramp hold delay a0 duration a1 total
         Hh Hs Hr Hd Ha0 Hu Ha1 Ht points.
  split; [|split].
  - unfold get_ramp_hoc.
    rewrite Hh, Hs, Hr, Hd, Ha0, Hu, Ha1, Ht.
    now rewrite ramp_vectors_points.
  - reflexivity.
  - intros ->. subst points.
    cbv in Hs. injection Hs as <-.
    cbv in Hr. injection Hr as <-.
    cbv in Hd, Ha0, Hu, Ha1, Ht.
    injection Hd as <-. injection Ha0 as <-. injection Hu as <-.
    injection Ha1 as <-. injection Ht as <-.
    split; vm_compute; reflexivity.
Qed.

(** ** The synapse directives *)

(** C6: the directive of a Vecstim has the seven fields mode, start, stop,
    interval, spike count, noise, seed in this order, with mode 0,
    interval 0, spike count 0, noise 0 and the seed [syn_stim_seed] of the
    protocol; the directive of a Netstim has the same seven fields with
    mode 1, interval, spike count and noise of the protocol, and seed 0. *)
Theorem synapse_directive_fields :
  forall prot stim t0 tf,
    getitem prot "stimuli" = Ok stim ->
    getitem stim "syn_start" = Ok t0 ->
    getitem stim "syn_stop" = Ok tf ->
    (forall seed,
        getitem stim "syn_stim_seed" = Ok seed ->
        get_vecstim_hoc prot
        = Ok ("tstop=" ++ py_format tf ++ nl
              ++ "cell.synapses.create_netcons "
              ++ netcons_fields "0" (py_format t0) (py_format tf) "0" "0" "0"
                   (py_format seed))%string)
    /\ (forall itv n_spike noise,
           getitem stim "syn_interval" = Ok itv ->
           getitem stim "syn_nmb_of_spikes" = Ok n_spike ->
           getitem stim "syn_noise" = Ok noise ->
           get_netstim_hoc prot
           = Ok ("tstop=" ++ py_format tf ++ nl
                 ++ "cell.synapses.create_netcons"
                 ++ netcons_fields "1" (py_format t0) (py_format tf) (py_format itv)
                      (py_format n_spike) (py_format noise) "0")%string).
Proof.
  intros prot stim t0 tf Hs H0 Hf. split.
  - intros seed Hseed. unfold get_vecstim_hoc.
    rewrite Hs, Hf, H0, Hseed. f_equal.
    unfold netcons_args_hoc, netcons_fields, nl.
    change (py_format (VInt 0)) with "0"%string. text_norm. reflexivity.
  - intros itv n_spike noise Hi Hn Hz. unfold get_netstim_hoc.
    rewrite Hs, Hf, H0, Hi, Hn, Hz. f_equal.
    unfold netcons_args_hoc, netcons_fields, nl.
    change (py_format (VInt 0)) with "0"%string.
    change (py_format (VInt 1)) with "1"%string. text_norm. reflexivity.
Qed.

(** ** Saving the recordings *)

Lemma add_save_recs_nil (self : HocStimuliCreator) :
  add_save_recs EmptyString self = self.
Proof.
  destruct self; unfold add_save_recs; simpl. now rewrite append_nil_r.
Qed.

Lemma add_save_recs_app (a b : string) (self : HocStimuliCreator) :
  add_save_recs b (add_save_recs a self) = add_save_recs (a ++ b) self.
Proof.
  unfold add_save_recs; simpl. now rewrite append_assoc.
Qed.

Lemma save_extra_rec_loop (mtype : value) (prot_name : string) :
  forall l entries, Forall2 rec_names l entries ->
  forall self,
    for_each l (save_extra_rec mtype prot_name) self
    = Ok (tt, add_save_recs
                (String.concat EmptyString
                   (map (fun nv => save_extra_hoc (py_format mtype) prot_name
                                     (py_format (fst nv)) (py_format (snd nv)))
                      entries))
                self).
Proof.
  induction 1 as [|r nv l entries [Hn Hv] _ IH]; intros self.
  - simpl. unfold ret. now rewrite add_save_recs_nil.
  - cbn [for_each]. unfold bind at 1. unfold save_extra_rec at 1.
    unfold bind, lift, modify. rewrite Hv, Hn.
    fold (for_each l (save_extra_rec mtype prot_name)).
    rewrite IH, add_save_recs_app. do 3 f_equal.
    destruct entries; cbn [map String.concat]; [now rewrite append_nil_r|].
    reflexivity.
Qed.

Lemma save_extra_hoc_write (mtype prot_name name var : string) :
  save_extra_hoc mtype prot_name name var
  = (write_trace_hoc 20 (extra_path mtype prot_name name var) name
     ++ nl ++ col 16 EmptyString)%string.
Proof.
  unfold save_extra_hoc, write_trace_hoc, extra_path, nl. text_norm. reflexivity.
Qed.

Lemma save_soma_hoc_write (n mtype prot_name : string) :
  save_soma_hoc n mtype prot_name
  = (nl ++ col 12 ("if (stim_number == " ++ n ++ ") {")
     ++ write_trace_hoc 16 (soma_path mtype prot_name) "voltage"
     ++ nl ++ col 8 EmptyString)%string.
Proof.
  unfold save_soma_hoc, write_trace_hoc, soma_path, nl. text_norm. reflexivity.
Qed.

Lemma add_save_recordings_hoc_run (mtype : value) (prot_name : string) (prot : value) :
  forall l entries self,
    extra_recordings_of prot = Ok l ->
    Forall2 rec_names l entries ->
    add_save_recordings_hoc mtype prot_name prot self
    = Ok (tt, add_save_recs (save_block (n_stims self) mtype prot_name entries) self).
Proof.
  intros l entries self Hrecs Hnames.
  unfold add_save_recordings_hoc, save_block, extra_recordings_of in *.
  unfold bind, lift, gets, modify.
  destruct (contains "extra_recordings" prot) as [[|]|e]; try discriminate.
  - destruct (getitem prot "extra_recordings") as [recs|e]; try discriminate.
    rewrite Hrecs.
    rewrite (save_extra_rec_loop mtype prot_name l entries Hnames).
    rewrite !add_save_recs_app, ?append_assoc. reflexivity.
  - injection Hrecs as <-. inversion Hnames; subst.
    unfold ret. cbn [map String.concat].
    rewrite !add_save_recs_app, ?append_assoc. reflexivity.
Qed.

(** C7: the block saving the recordings of a protocol writes the soma
    voltage to [hoc_recordings/{mtype}.{prot_name}.soma.v.dat] and then,
    for each entry of the [extra_recordings] of the protocol, in order,
    the vector of the entry to
    [hoc_recordings/{mtype}.{prot_name}.{name}.{var}.dat]. *)
Theorem save_recordings_paths :
  forall mtype prot_name prot l entries self,
    extra_recordings_of prot = Ok l ->
    Forall2 rec_names l entries ->
    exists self',
      add_save_recordings_hoc mtype prot_name prot self = Ok (tt, self')
      /\ save_recs self'
         = (save_recs self
            ++ nl ++ col 12 ("if (stim_number == " ++ str_of_nat (n_stims self) ++ ") {")
            ++ write_trace_hoc 16 (soma_path (py_format mtype) prot_name) "voltage"
            ++ nl ++ col 8 EmptyString
            ++ String.concat EmptyString
                 (map (fun nv =>
                         write_trace_hoc 20
                           (extra_path (py_format mtype) prot_name
                              (py_format (fst nv)) (py_format (snd nv)))
                           (py_format (fst nv))
                         ++ nl ++ col 16 EmptyString)
                    entries)
            ++ nl ++ col 12 "}" ++ nl ++ col 8 EmptyString)%string
      /\ soma_path "L5PC" "Step_200"
         = "hoc_recordings/L5PC.Step_200.soma.v.dat"%string
      /\ extra_path "L5PC" "Step_200" "dend1" "v"
         = "hoc_recordings/L5PC.Step_200.dend1.v.dat"%string.
Proof.
  intros mtype prot_name prot l entries self Hrecs Hnames.
  eexists. split; [|split; [|split; reflexivity]].
  - apply (add_save_recordings_hoc_run mtype prot_name prot l entries self Hrecs Hnames).
  - cbn [save_recs add_save_recs]. unfold save_block.
    rewrite save_soma_hoc_write, !append_assoc.
    rewrite (map_ext _ _
               (fun nv => save_extra_hoc_write (py_format mtype) prot_name
                            (py_format (fst nv)) (py_format (snd nv)))).
    reflexivity.
Qed.

(** ** Running the monad *)

Lemma bind_Ok {A B : Type} (m : M A) (f : A -> M B) self b self' :
  bind m f self = Ok (b, self') ->
  exists a s, m self = Ok (a, s) /\ f a s = Ok (b, self').
Proof.
  unfold bind. destruct (m self) as [[a s]|e]; [|discriminate].
  intros H. now exists a, s.
Qed.

Lemma lift_Ok {A : Type} (r : result A) self a self' :
  lift r self = Ok (a, self') -> r = Ok a /\ self' = self.
Proof.
  unfold lift. destruct r; [|discriminate]. intros H. now inversion H.
Qed.

Lemma gets_Ok {A : Type} (f : HocStimuliCreator -> A) self a self' :
  gets f self = Ok (a, self') -> a = f self /\ self' = self.
Proof.
  unfold gets. intros H. now inversion H.
Qed.

Lemma modify_Ok (f : HocStimuliCreator -> HocStimuliCreator) self u self' :
  modify f self = Ok (u, self') -> self' = f self.
Proof.
  unfold modify. intros H. now inversion H.
Qed.

Lemma ret_Ok {A : Type} (x : A) self a self' :
  ret x self = Ok (a, self') -> a = x /\ self' = self.
Proof.
  unfold ret. intros H. now inversion H.
Qed.

(** Take a successful run apart, statement by statement. *)
Ltac inv_run :=
  repeat match goal with
    | H : bind _ _ _ = Ok _ |- _ =>
        let a := fresh "a" in
        let s := fresh "s" in
        let Hm := fresh "Hm" in
        apply bind_Ok in H; destruct H as (a & s & Hm & H); cbv beta in H
    | H : lift _ _ = Ok _ |- _ =>
        let E := fresh "E" in
        apply lift_Ok in H; destruct H as [E ->]
    | H : gets _ _ = Ok _ |- _ =>
        let E := fresh "E" in
        apply gets_Ok in H; destruct H as [E ->]
    | H : modify _ _ = Ok _ |- _ => apply modify_Ok in H
    | H : ret _ _ = Ok _ |- _ =>
        let E := fresh "E" in
        apply ret_Ok in H; destruct H as [E ->]
    | u : unit |- _ => destruct u
    end.

(** ** The extra recordings *)

Lemma same_stimuli_refl (a : HocStimuliCreator) : same_stimuli a a.
Proof. repeat split. Qed.

Lemma same_stimuli_trans (a b c : HocStimuliCreator) :
  same_stimuli a b -> same_stimuli b c -> same_stimuli a c.
Proof.
  unfold same_stimuli. intuition congruence.
Qed.

(** What one entry does: nothing when its name is found in the split
    variable list, else the name is appended to the list and at most one
    fragment to the script. *)
Lemma add_extra_rec_run (extra_rec : value) self self' :
  add_extra_rec extra_rec self = Ok (tt, self') ->
  exists name,
    getitem extra_rec "name" = Ok name
    /\ ((in_str_list name (str_split ", " (extra_recs_vars self)) = true /\ self' = self)
        \/ (in_str_list name (str_split ", " (extra_recs_vars self)) = false
            /\ exists text,
                self' = add_extra_recs_text text
                          (add_extra_recs_vars (", " ++ py_format name) self))).
Proof.
  unfold add_extra_rec. intros H. inv_run. subst.
  match goal with E : getitem extra_rec "name" = Ok ?n |- _ => rename n into name end.
  exists name. split; [assumption|].
  destruct (in_str_list name (str_split ", " (extra_recs_vars self))) eqn:Hin;
    cbn [negb] in H.
  - left. inv_run. now split.
  - right. split; [reflexivity|]. inv_run. subst.
    match goal with E : getitem extra_rec "type" = Ok ?t |- _ => rename t into type end.
    destruct (eq_str type "nrnseclistcomp"); [inv_run; subst; eauto|].
    destruct (eq_str type "somadistance"); [inv_run; subst; eauto|].
    destruct (eq_str type "somadistanceapic"); [inv_run; subst; eauto|].
    inv_run. subst. exists EmptyString.
    destruct self; unfold add_extra_recs_text, add_extra_recs_vars; simpl.
    now rewrite append_nil_r.
Qed.

Lemma add_extra_rec_same (extra_rec : value) self self' :
  add_extra_rec extra_rec self = Ok (tt, self') -> same_stimuli self self'.
Proof.
  intros H. apply add_extra_rec_run in H.
  destruct H as (name & _ & [[_ ->]|[_ [text ->]]]); repeat split.
Qed.

Lemma for_each_same {A : Type} (body : A -> M unit) :
  (forall x self self', body x self = Ok (tt, self') -> same_stimuli self self') ->
  forall l self self', for_each l body self = Ok (tt, self') -> same_stimuli self self'.
Proof.
  intros Hbody. induction l as [|x l IH]; intros self self' H; cbn [for_each] in H.
  - inv_run. apply same_stimuli_refl.
  - inv_run. eapply same_stimuli_trans; eauto.
Qed.

Lemma add_extra_recs_same (recs : value) self self' :
  add_extra_recs recs self = Ok (tt, self') -> same_stimuli self self'.
Proof.
  unfold add_extra_recs. intros H. inv_run.
  eapply for_each_same; [|exact H]. apply add_extra_rec_same.
Qed.

Lemma register_extra_recs_same (prot : value) self self' :
  register_extra_recs prot self = Ok (tt, self') -> same_stimuli self self'.
Proof.
  unfold register_extra_recs. intros H. inv_run.
  match goal with b : bool |- _ => destruct b end; inv_run.
  - eapply add_extra_recs_same; eauto.
  - apply same_stimuli_refl.
Qed.

(** ** The body of the loop of [__init__] *)

Lemma init_body_split (mtype : value) (add_synapses : bool) (item : string * value) self :
  init_body mtype add_synapses item self
  = (register_extra_recs (snd item) ;; dispatch mtype add_synapses (fst item) (snd item)) self.
Proof.
  unfold init_body, register_extra_recs, dispatch, bind, lift.
  destruct (contains "extra_recordings" (snd item)) as [[|]|e]; reflexivity.
Qed.

Lemma step_loop_run :
  forall steps i acc self t self',
    step_loop i steps acc self = Ok (t, self') ->
    max_steps self'
    = Nat.max (max_steps self)
        (match steps with [] => 0 | _ :: _ => i + List.length steps end)
    /\ self' = set_max_steps (max_steps self') self.
Proof.
  induction steps as [|step rest IH]; intros i acc self t self' H; cbn [step_loop] in H.
  - inv_run. split; [now rewrite Nat.max_0_r|]. now destruct self.
  - inv_run. subst.
    destruct (Nat.ltb (max_steps self) (i + 1)) eqn:Hlt; inv_run; subst.
    + apply IH in H. destruct H as [Hm Hs]. cbn [max_steps set_max_steps] in Hm.
      apply Nat.ltb_lt in Hlt. split.
      * rewrite Hm. destruct rest; cbn [List.length]; lia.
      * rewrite Hs at 1. reflexivity.
    + apply IH in H. destruct H as [Hm Hs].
      apply Nat.ltb_ge in Hlt. split.
      * rewrite Hm. destruct rest; cbn [List.length]; lia.
      * exact Hs.
Qed.

Lemma get_step_hoc_run (prot : value) self t self' :
  get_step_hoc prot self = Ok (t, self') ->
  max_steps self' = Nat.max (max_steps self) (step_entries prot)
  /\ self' = set_max_steps (max_steps self') self.
Proof.
  unfold get_step_hoc. intros H. inv_run. subst.
  match goal with H : step_loop _ _ _ _ = _ |- _ => apply step_loop_run in H;
    destruct H as [Hm Hs] end.
  split; [|exact Hs].
  rewrite Hm. f_equal. unfold step_entries.
  repeat match goal with E : getitem _ _ = Ok _ |- _ => rewrite E; clear E end.
  match goal with E : iter (if is_dict ?v then _ else _) = Ok ?l |- _ =>
    rename v into step; rename l into steps; rename E into Hiter end.
  match goal with E : getitem0 _ = Ok _ |- _ => rename E into Hfirst end.
  destruct step as [| | | |s|l|d]; cbn in Hiter; try discriminate;
    injection Hiter as <-.
  - destruct s; cbn in Hfirst; [discriminate|].
    injection Hfirst as <-.
    match goal with E : getitem (VStr _) _ = Ok _ |- _ => discriminate E end.
  - destruct l; reflexivity.
  - reflexivity.
Qed.

Lemma save_extra_rec_names (mtype : value) (prot_name : string) :
  forall l self self',
    for_each l (save_extra_rec mtype prot_name) self = Ok (tt, self') ->
    exists entries, Forall2 rec_names l entries.
Proof.
  induction l as [|r l IH]; intros self self' H; cbn [for_each] in H.
  - exists []. constructor.
  - inv_run. unfold save_extra_rec in *. inv_run.
    apply IH in H. destruct H as [entries Hent].
    match goal with
      Hn : getitem r "name" = Ok ?n, Hv : getitem r "var" = Ok ?v |- _ =>
        exists ((n, v) :: entries); constructor; [now split|assumption]
    end.
Qed.

Lemma add_save_recordings_hoc_inv (mtype : value) (prot_name : string) (prot : value)
  self self' :
  add_save_recordings_hoc mtype prot_name prot self = Ok (tt, self') ->
  exists l entries,
    extra_recordings_of prot = Ok l
    /\ Forall2 rec_names l entries
    /\ self' = add_save_recs (save_block (n_stims self) mtype prot_name entries) self.
Proof.
  intros H.
  assert (Hex : exists l entries,
             extra_recordings_of prot = Ok l /\ Forall2 rec_names l entries).
  { unfold add_save_recordings_hoc in H. inv_run. subst.
    unfold extra_recordings_of.
    match goal with E : contains _ prot = Ok ?b |- _ => rewrite E; destruct b end.
    - inv_run.
      match goal with E : getitem prot _ = Ok _ |- _ => rewrite E end.
      match goal with E : for_each ?l _ _ = Ok _ |- _ =>
        destruct (save_extra_rec_names _ _ _ _ _ E) as [entries Hent];
        exists l, entries end.
      now split.
    - exists [], []. split; [reflexivity|constructor]. }
  destruct Hex as (l & entries & Hl & Hent). exists l, entries.
  rewrite (add_save_recordings_hoc_run mtype prot_name prot l entries self Hl Hent) in H.
  inversion H. now repeat split.
Qed.

Lemma lift_keeps (f : value -> result string) :
  keeps_but_max_steps (fun p => lift (f p)).
Proof.
  intros prot self body self' H. inv_run. now destruct self.
Qed.

Lemma get_step_hoc_keeps : keeps_but_max_steps get_step_hoc.
Proof.
  intros prot self body self' H. now apply get_step_hoc_run in H.
Qed.

Lemma run_branch_run (fct : value -> M string) (mtype : value) (prot_name : string)
  (prot : value) self self' :
  keeps_but_max_steps fct ->
  run_branch fct mtype prot_name prot self = Ok (tt, self') ->
  exists body mid l entries,
    fct prot (set_n_stims (n_stims self + 1) self) = Ok (body, mid)
    /\ extra_recordings_of prot = Ok l
    /\ Forall2 rec_names l entries
    /\ self' = add_save_recs (save_block (n_stims self + 1) mtype prot_name entries)
                 (add_stims_hoc (stim_block (n_stims self + 1) body)
                    (set_max_steps (max_steps mid)
                       (set_n_stims (n_stims self + 1) self))).
Proof.
  intros Hfct H. unfold run_branch, get_stim_hoc in H. inv_run. subst.
  match goal with E : fct prot _ = Ok (?b, ?m) |- _ =>
    rename b into body; rename m into mid; rename E into Hbody end.
  apply add_save_recordings_hoc_inv in H.
  destruct H as (l & entries & Hl & Hent & ->).
  exists body, mid, l, entries. repeat split; try assumption.
  rewrite (Hfct _ _ _ _ Hbody). reflexivity.
Qed.

Lemma has_type_Ok (prot : value) (t : string) (b : bool) :
  type_is prot t = Ok b -> has_type prot t = b.
Proof.
  unfold has_type. now intros ->.
Qed.

(** What the dispatch does: nothing for a protocol that is not
    dispatchable; else the count goes up by one, and a block with the new
    count is appended to each of the two scripts. *)
Lemma dispatch_run (mtype : value) (add_synapses : bool) (prot_name : string)
  (prot : value) self self' :
  dispatch mtype add_synapses prot_name prot self = Ok (tt, self') ->
  (dispatchable add_synapses prot = false /\ self' = self)
  \/ (dispatchable add_synapses prot = true
      /\ exists body mid l entries,
          method_of prot prot (set_n_stims (n_stims self + 1) self) = Ok (body, mid)
          /\ max_steps mid
             = (if has_type prot "StepProtocol"
                then Nat.max (max_steps self) (step_entries prot)
                else max_steps self)
          /\ extra_recordings_of prot = Ok l
          /\ Forall2 rec_names l entries
          /\ self' = add_save_recs (save_block (n_stims self + 1) mtype prot_name entries)
                       (add_stims_hoc (stim_block (n_stims self + 1) body)
                          (set_max_steps (max_steps mid)
                             (set_n_stims (n_stims self + 1) self)))).
Proof.
  unfold dispatch. intros H. inv_run.
  match goal with E : type_is prot "StepProtocol" = Ok ?b |- _ =>
    apply has_type_Ok in E; rename E into Hstep; destruct b end.
  { right. unfold dispatchable, method_of. rewrite Hstep. split; [reflexivity|].
    apply run_branch_run in H; [|apply get_step_hoc_keeps].
    destruct H as (body & mid & l & entries & Hb & Hl & Hent & ->).
    exists body, mid, l, entries. repeat split; try assumption.
    apply get_step_hoc_run in Hb. now destruct Hb as [-> _]. }
  inv_run.
  match goal with E : type_is prot "RampProtocol" = Ok ?b |- _ =>
    apply has_type_Ok in E; rename E into Hramp; destruct b end.
  { right. unfold dispatchable, method_of. rewrite Hstep, Hramp. split; [reflexivity|].
    apply run_branch_run in H; [|apply lift_keeps].
    destruct H as (body & mid & l & entries & Hb & Hl & Hent & ->).
    exists body, mid, l, entries. repeat split; try assumption.
    apply lift_Ok in Hb. now destruct Hb as [_ ->]. }
  inv_run.
  match goal with E : type_is prot "Vecstim" = Ok ?b |- _ =>
    apply has_type_Ok in E; rename E into Hvec; destruct b, add_synapses end;
    cbn [andb] in H.
  { right. unfold dispatchable, method_of. rewrite Hstep, Hramp, Hvec.
    split; [reflexivity|].
    apply run_branch_run in H; [|apply lift_keeps].
    destruct H as (body & mid & l & entries & Hb & Hl & Hent & ->).
    exists body, mid, l, entries. repeat split; try assumption.
    apply lift_Ok in Hb. now destruct Hb as [_ ->]. }
  { inv_run. rewrite andb_false_r in H. inv_run.
    left. unfold dispatchable. rewrite Hstep, Hramp. now split. }
  { inv_run.
    match goal with E : type_is prot "Netstim" = Ok ?b |- _ =>
      apply has_type_Ok in E; rename E into Hnet; destruct b end;
      cbn [andb] in H.
    - right. unfold dispatchable, method_of. rewrite Hstep, Hramp, Hvec, Hnet.
      split; [reflexivity|].
      apply run_branch_run in H; [|apply lift_keeps].
      destruct H as (body & mid & l & entries & Hb & Hl & Hent & ->).
      exists body, mid, l, entries. repeat split; try assumption.
      apply lift_Ok in Hb. now destruct Hb as [_ ->].
    - inv_run. left. unfold dispatchable. rewrite Hstep, Hramp, Hvec, Hnet. now split. }
  { inv_run. rewrite andb_false_r in H. inv_run.
    left. unfold dispatchable. rewrite Hstep, Hramp. now split. }
Qed.

Lemma concat_cons (x : string) (l : list string) :
  String.concat EmptyString (x :: l) = (x ++ String.concat EmptyString l)%string.
Proof.
  destruct l; cbn [String.concat]; [now rewrite append_nil_r | reflexivity].
Qed.

Lemma dispatchable_false_step (add_synapses : bool) (prot : value) :
  dispatchable add_synapses prot = false -> has_type prot "StepProtocol" = false.
Proof.
  unfold dispatchable. destruct (has_type prot "StepProtocol"); [discriminate|reflexivity].
Qed.

(** ** The loop of [__init__] *)

Lemma init_loop_run (mtype : value) (add_synapses : bool) :
  forall prot_definitions self self',
    init_loop prot_definitions mtype add_synapses self = Ok (tt, self') ->
    let items := dispatchable_items add_synapses prot_definitions in
    exists blocks,
      Forall2 block_of items blocks
      /\ map guard blocks = seq (n_stims self + 1) (List.length items)
      /\ n_stims self' = n_stims self + List.length items
      /\ stims_hoc self' = (stims_hoc self ++ stims_of_blocks blocks)%string
      /\ save_recs self' = (save_recs self ++ saves_of_blocks mtype blocks)%string
      /\ max_steps self'
         = Nat.max (max_steps self)
             (list_max (map (fun item => step_entries (snd item))
                          (step_protocols prot_definitions)))
      /\ reset_step_stimuli self' = reset_step_stimuli self
      /\ init_step_stimuli self' = init_step_stimuli self
      /\ apical_point_isec self' = apical_point_isec self.
Proof.
  unfold init_loop.
  induction prot_definitions as [|[prot_name prot] rest IH]; intros self self' H;
    cbn [for_each] in H.
  - inv_run. exists []. cbn.
    rewrite Nat.add_0_r, Nat.max_0_r, !append_nil_r. repeat split. constructor.
  - inv_run. rewrite init_body_split in Hm. cbn [fst snd] in Hm. inv_run.
    match goal with E : register_extra_recs prot self = Ok (tt, ?s) |- _ =>
      rename s into s1; apply register_extra_recs_same in E;
      destruct E as (Eap & En & Emax & Ereset & Einit & Estims & Esave) end.
    match goal with E : dispatch _ _ _ _ _ = Ok (tt, ?s) |- _ =>
      rename s into s2; apply dispatch_run in E; rename E into Hd end.
    apply IH in H. destruct H as (blocks & Hblocks & Hg & Hn & Hstims & Hsave
                                   & Hmax & Hreset & Hinit & Hap).
    unfold dispatchable_items, step_protocols in *. cbn [filter snd].
    destruct Hd as [[Hdis ->]|[Hdis (body & mid & l & entries & Hb & Hmid & Hl & Hent & ->)]];
      rewrite Hdis.
    + rewrite (dispatchable_false_step _ _ Hdis).
      exists blocks. rewrite Eap, En, Emax, Ereset, Einit, Estims, Esave.
      repeat split; assumption.
    + cbn [n_stims stims_hoc save_recs max_steps reset_step_stimuli init_step_stimuli
             apical_point_isec add_save_recs add_stims_hoc set_max_steps set_n_stims]
        in Hg, Hn, Hstims, Hsave, Hmax, Hreset, Hinit, Hap.
      exists (mkBlock (n_stims s1 + 1) prot_name body entries :: blocks).
      rewrite Eap, En, Emax, Ereset, Einit, Estims, Esave.
      cbn [List.length map seq guard].
      repeat split; try assumption.
      * constructor; [|assumption].
        repeat split; cbn [fst snd block_name block_body block_entries].
        -- now exists (set_n_stims (n_stims s1 + 1) s1), mid.
        -- now exists l.
      * rewrite Hg. now rewrite (Nat.add_1_r (n_stims s1 + 1)).
      * rewrite Hn. lia.
      * rewrite Hstims. unfold stims_of_blocks. cbn [map].
        rewrite concat_cons, append_assoc. reflexivity.
      * rewrite Hsave. unfold saves_of_blocks. cbn [map].
        rewrite concat_cons, append_assoc. reflexivity.
      * rewrite Hmax, Hmid.
        destruct (has_type prot "StepProtocol");
          cbn [map snd]; unfold list_max; cbn [fold_right]; lia.
Qed.

(** ** The step objects *)

Lemma add_reset_step_stimuli_nil (self : HocStimuliCreator) :
  add_reset_step_stimuli EmptyString self = self.
Proof.
  destruct self; unfold add_reset_step_stimuli; simpl. now rewrite append_nil_r.
Qed.

Lemma add_init_step_stimuli_nil (self : HocStimuliCreator) :
  add_init_step_stimuli EmptyString self = self.
Proof.
  destruct self; unfold add_init_step_stimuli; simpl. now rewrite append_nil_r.
Qed.

Lemma reset_loop_run (l : list nat) :
  forall self,
    for_each l (fun i => modify (add_reset_step_stimuli (reset_step_hoc (str_of_nat i)))) self
    = Ok (tt, add_reset_step_stimuli
                (String.concat EmptyString (map (fun i => reset_step_hoc (str_of_nat i)) l))
                self).
Proof.
  induction l as [|i l IH]; intros self; cbn [for_each map].
  - unfold ret. cbn [String.concat]. now rewrite add_reset_step_stimuli_nil.
  - unfold bind at 1. unfold modify at 1. rewrite IH, concat_cons.
    unfold add_reset_step_stimuli; simpl. now rewrite append_assoc.
Qed.

Lemma init_loop_steps_run (l : list nat) :
  forall self,
    for_each l (fun i => modify (add_init_step_stimuli (init_step_hoc (str_of_nat i)))) self
    = Ok (tt, add_init_step_stimuli
                (String.concat EmptyString (map (fun i => init_step_hoc (str_of_nat i)) l))
                self).
Proof.
  induction l as [|i l IH]; intros self; cbn [for_each map].
  - unfold ret. cbn [String.concat]. now rewrite add_init_step_stimuli_nil.
  - unfold bind at 1. unfold modify at 1. rewrite IH, concat_cons.
    unfold add_init_step_stimuli; simpl. now rewrite append_assoc.
Qed.

(** The construction is the loop over the protocols followed by the two
    fragments for the step objects. *)
Lemma new_HocStimuliCreator_run (prot_definitions : dict) (mtype : value)
  (add_synapses : bool) (apical : Z) self :
  new_HocStimuliCreator prot_definitions mtype add_synapses apical = Ok self ->
  exists s,
    init_loop prot_definitions mtype add_synapses (initial apical) = Ok (tt, s)
    /\ self = add_init_step_stimuli (init_steps_hoc (Nat.max (max_steps s) 1))
                (add_reset_step_stimuli (reset_steps_hoc (Nat.max (max_steps s) 1)) s).
Proof.
  unfold new_HocStimuliCreator. intros H.
  destruct ((init_loop prot_definitions mtype add_synapses ;;
             get_reset_step ;; get_init_step) (initial apical)) as [[u s']|e] eqn:Hrun;
    [|discriminate].
  injection H as ->. inv_run.
  match goal with E : init_loop _ _ _ _ = Ok (tt, ?s) |- _ => exists s; split; [exact E|] end.
  unfold get_reset_step, get_init_step in *. inv_run. subst.
  rewrite reset_loop_run in *. rewrite init_loop_steps_run in *.
  repeat match goal with E : Ok _ = Ok _ |- _ => injection E as <- end.
  reflexivity.
Qed.

Lemma new_HocStimuliCreator_fields (prot_definitions : dict) (mtype : value)
  (add_synapses : bool) (apical : Z) self :
  new_HocStimuliCreator prot_definitions mtype add_synapses apical = Ok self ->
  let items := dispatchable_items add_synapses prot_definitions in
  let n := Nat.max (max_steps self) 1 in
  (exists blocks,
      Forall2 block_of items blocks
      /\ map guard blocks = seq 1 (List.length items)
      /\ stims_hoc self = stims_of_blocks blocks
      /\ save_recs self = saves_of_blocks mtype blocks)
  /\ n_stims self = List.length items
  /\ max_steps self
     = list_max (map (fun item => step_entries (snd item)) (step_protocols prot_definitions))
  /\ reset_step_stimuli self = reset_steps_hoc n
  /\ init_step_stimuli self = init_steps_hoc n.
Proof.
  intros H items n. apply new_HocStimuliCreator_run in H.
  destruct H as (s & Hloop & ->). apply init_loop_run in Hloop.
  destruct Hloop as (blocks & Hblocks & Hg & Hn & Hstims & Hsave & Hmax & Hreset & Hinit & _).
  subst n. cbn in Hg, Hn, Hstims, Hsave, Hmax, Hreset, Hinit |- *.
  repeat split; try assumption.
  - exists blocks. repeat split; assumption.
  - now rewrite Hreset.
  - now rewrite Hinit.
Qed.

(** ** The dispatch blocks *)

Lemma stim_block_guarded (n : nat) (body : string) :
  stim_block n body = guarded_stimulus n body.
Proof.
  unfold stim_block, guarded_stimulus, guard_hoc, end_of_block_hoc, stim_if_hoc,
    block_end_hoc, nl.
  text_norm. reflexivity.
Qed.

Lemma save_block_guarded (n : nat) (mtype : value) (prot_name : string)
  (entries : list (value * value)) :
  save_block n mtype prot_name entries = guarded_save n mtype prot_name entries.
Proof.
  unfold save_block, guarded_save, guard_hoc, end_of_block_hoc.
  rewrite save_soma_hoc_write, !append_assoc.
  rewrite (map_ext _ _
             (fun nv => save_extra_hoc_write (py_format mtype) prot_name
                          (py_format (fst nv)) (py_format (snd nv)))).
  reflexivity.
Qed.

(** C1: after construction the stimulus script is made of one conditional
    block per dispatchable protocol (StepProtocol, RampProtocol, and
    Vecstim and Netstim when synapses are added), in the order of the
    mapping; the block number i opens with the line
    [if (stim_number == i) {], holds the stimulus of its protocol and
    closes with [}]; the numbers are 1, 2, ... in this order; and the
    script saving the recordings is made of one block per dispatchable
    protocol too, the block of a protocol opening with the very line of
    its stimulus block and writing the recordings of this protocol. *)
Theorem dispatch_blocks_numbered :
  forall prot_definitions mtype add_synapses apical self,
    new_HocStimuliCreator prot_definitions mtype add_synapses apical = Ok self ->
    let items := dispatchable_items add_synapses prot_definitions in
    exists blocks,
      Forall2 block_of items blocks
      /\ List.length blocks = List.length items
      /\ map guard blocks = seq 1 (List.length items)
      /\ n_stims self = List.length items
      /\ stims_hoc self
         = String.concat EmptyString
             (map (fun b =>
                     nl ++ col 12 ("if (stim_number == " ++ str_of_nat (guard b) ++ ") {")
                     ++ nl ++ col 8 EmptyString
                     ++ block_body b
                     ++ nl ++ col 12 "}" ++ nl ++ col 8 EmptyString)%string
                blocks)
      /\ save_recs self
         = String.concat EmptyString
             (map (fun b =>
                     nl ++ col 12 ("if (stim_number == " ++ str_of_nat (guard b) ++ ") {")
                     ++ write_trace_hoc 16 (soma_path (py_format mtype) (block_name b))
                          "voltage"
                     ++ nl ++ col 8 EmptyString
                     ++ String.concat EmptyString
                          (map (fun nv =>
                                  write_trace_hoc 20
                                    (extra_path (py_format mtype) (block_name b)
                                       (py_format (fst nv)) (py_format (snd nv)))
                                    (py_format (fst nv))
                                  ++ nl ++ col 16 EmptyString)
                             (block_entries b))
                     ++ nl ++ col 12 "}" ++ nl ++ col 8 EmptyString)%string
                blocks).
Proof.
  intros prot_definitions mtype add_synapses apical self H items.
  apply new_HocStimuliCreator_fields in H.
  destruct H as ((blocks & Hblocks & Hg & Hstims & Hsave) & Hn & _).
  exists blocks.
  split; [assumption|].
  split; [symmetry; eapply Forall2_length; eassumption|].
  split; [assumption|].
  split; [assumption|].
  split.
  - rewrite Hstims. unfold stims_of_blocks.
    apply (f_equal (String.concat EmptyString)).
    apply map_ext. intros b. rewrite stim_block_guarded.
    unfold guarded_stimulus, guard_hoc, end_of_block_hoc.
    now rewrite !append_assoc.
  - rewrite Hsave. unfold saves_of_blocks.
    apply (f_equal (String.concat EmptyString)).
    apply map_ext. intros b. rewrite save_block_guarded.
    unfold guarded_save, guard_hoc, end_of_block_hoc.
    now rewrite !append_assoc.
Qed.

(** ** The step count *)

(** C2, as the code has it: after construction [max_steps] is the largest
    number of step entries of a StepProtocol of the mapping, and 0 when the
    mapping has no StepProtocol; the floor of 1 is applied where the step
    objects are declared and reset, not to the attribute. *)
Theorem max_steps_is_largest_step_count :
  forall prot_definitions mtype add_synapses apical self,
    new_HocStimuliCreator prot_definitions mtype add_synapses apical = Ok self ->
    max_steps self
    = list_max (map (fun item => step_entries (snd item))
                  (step_protocols prot_definitions))
    /\ (step_protocols prot_definitions = [] -> max_steps self = 0).
Proof.
  intros prot_definitions mtype add_synapses apical self H.
  apply new_HocStimuliCreator_fields in H.
  destruct H as (_ & _ & Hmax & _).
  split; [exact Hmax|]. intros Hnone. now rewrite Hmax, Hnone.
Qed.

(** ** Counting the step objects in the text *)

Lemma prefix_head_diff (c d : ascii) (needle s : string) :
  c <> d -> prefix (String c needle) (String d s) = false.
Proof.
  intros Hcd. cbn [prefix]. destruct (ascii_dec c d); [contradiction|reflexivity].
Qed.

Lemma count_skip_head (c d : ascii) (needle s : string) :
  c <> d ->
  count_occ_str (String c needle) (String d s) = count_occ_str (String c needle) s.
Proof.
  intros Hcd. cbn [count_occ_str]. now rewrite prefix_head_diff.
Qed.

Lemma count_skip_uint (c : ascii) (needle : string) :
  is_digit c = false ->
  forall (u : Decimal.uint) (rest : string),
    count_occ_str (String c needle) (NilEmpty.string_of_uint u ++ rest)
    = count_occ_str (String c needle) rest.
Proof.
  intros Hc.
  induction u as [|u IH|u IH|u IH|u IH|u IH|u IH|u IH|u IH|u IH|u IH]; intros rest;
    cbn [NilEmpty.string_of_uint append]; [reflexivity|..];
    (rewrite count_skip_head; [apply IH|]); intros ->; discriminate Hc.
Qed.

Lemma count_skip_nat (c : ascii) (needle : string) (i : nat) (rest : string) :
  is_digit c = false ->
  count_occ_str (String c needle) (str_of_nat i ++ rest)
  = count_occ_str (String c needle) rest.
Proof.
  intros Hc. unfold str_of_nat, NilZero.string_of_uint.
  destruct (Nat.to_uint i) eqn:Hu; try (rewrite <- Hu; now apply count_skip_uint).
  cbn [append]. rewrite count_skip_head; [reflexivity|]. intros ->. discriminate Hc.
Qed.

Lemma count_head (needle : string) (d : ascii) (s : string) :
  count_occ_str needle (String d s)
  = (if prefix needle (String d s) then 1 else 0) + count_occ_str needle s.
Proof. reflexivity. Qed.

Lemma prefix_nil (s : string) : prefix EmptyString s = true.
Proof. now destruct s. Qed.

(** Count through a text whose characters are known but for the decimal
    numbers in it. *)
Ltac count_text :=
  repeat first
    [ rewrite count_skip_head by discriminate
    | rewrite count_skip_nat by reflexivity
    | rewrite count_head; simpl (prefix _ _); rewrite ?prefix_nil; cbn [Nat.add] ].

Lemma count_init_step_hoc (i : nat) (rest : string) :
  count_occ_str "objref step_stimulus_" (init_step_hoc (str_of_nat i) ++ rest)
  = S (count_occ_str "objref step_stimulus_" rest).
Proof.
  unfold init_step_hoc. text_norm. unfold nl. text_norm.
  count_text. reflexivity.
Qed.

Lemma count_reset_step_hoc (i : nat) (rest : string) :
  (count_occ_str "= new IClamp(0.5)" (reset_step_hoc (str_of_nat i) ++ rest)
   = S (count_occ_str "= new IClamp(0.5)" rest))
  /\ (count_occ_str ".dur = 0.0" (reset_step_hoc (str_of_nat i) ++ rest)
      = S (count_occ_str ".dur = 0.0" rest))
  /\ (count_occ_str ".del = 0.0" (reset_step_hoc (str_of_nat i) ++ rest)
      = S (count_occ_str ".del = 0.0" rest))
  /\ (count_occ_str ".amp = 0.0" (reset_step_hoc (str_of_nat i) ++ rest)
      = S (count_occ_str ".amp = 0.0" rest))
  /\ (count_occ_str "cell.soma step_stimulus_" (reset_step_hoc (str_of_nat i) ++ rest)
      = S (count_occ_str "cell.soma step_stimulus_" rest)).
Proof.
  unfold reset_step_hoc. text_norm. unfold nl. text_norm.
  split; [|split; [|split; [|split]]]; count_text; reflexivity.
Qed.

Lemma count_blocks (needle : string) (f : nat -> string) :
  (forall i rest, count_occ_str needle (f i ++ rest) = S (count_occ_str needle rest)) ->
  forall l rest,
    count_occ_str needle (String.concat EmptyString (map f l) ++ rest)
    = List.length l + count_occ_str needle rest.
Proof.
  intros Hf. induction l as [|i l IH]; intros rest; cbn [map].
  - reflexivity.
  - rewrite concat_cons, append_assoc, Hf, IH. reflexivity.
Qed.

Lemma count_init_steps_hoc (n : nat) :
  count_occ_str "objref step_stimulus_" (init_steps_hoc n) = n.
Proof.
  unfold init_steps_hoc.
  rewrite <- (append_nil_r (String.concat _ _)).
  rewrite (count_blocks _ (fun i => init_step_hoc (str_of_nat i)) count_init_step_hoc).
  rewrite length_seq. cbn. lia.
Qed.

Lemma count_reset_steps_hoc (n : nat) (needle : string) :
  In needle ["= new IClamp(0.5)"; ".dur = 0.0"; ".del = 0.0"; ".amp = 0.0";
             "cell.soma step_stimulus_"]%string ->
  count_occ_str needle (reset_steps_hoc n) = n.
Proof.
  intros Hin. unfold reset_steps_hoc.
  rewrite <- (append_nil_r (String.concat _ _)).
  cbn [In] in Hin.
  destruct Hin as [<-|[<-|[<-|[<-|[<-|[]]]]]];
    rewrite (count_blocks _ (fun i => reset_step_hoc (str_of_nat i)));
    try (rewrite length_seq; cbn; lia);
    intros i rest; destruct (count_reset_step_hoc i rest) as (H1 & H2 & H3 & H4 & H5).
  - exact H1.
  - exact H2.
  - exact H3.
  - exact H4.
  - exact H5.
Qed.

Lemma init_step_hoc_declared (i : nat) :
  init_step_hoc (str_of_nat i) = step_object_declared i.
Proof.
  unfold init_step_hoc, step_object_declared, nl. text_norm. reflexivity.
Qed.

Lemma step_hoc_text_object (i : nat) (duration delay amp : string) :
  step_hoc_text (str_of_nat i) duration delay amp = step_object_hoc i duration delay amp.
Proof.
  unfold step_hoc_text, step_object_hoc, nl. text_norm. reflexivity.
Qed.

Lemma reset_step_hoc_reset (i : nat) :
  reset_step_hoc (str_of_nat i) = step_object_reset i.
Proof.
  unfold reset_step_hoc, step_object_reset, step_object_hoc, nl. text_norm. reflexivity.
Qed.

(** C8: the init fragment declares the step objects 0 .. n-1, each by a
    line [objref step_stimulus_i], and the reset fragment makes each of
    them, in the same order, a current clamp at the middle of the soma
    with duration, delay and amplitude 0.0, where n is the largest number
    of step entries of a StepProtocol, and 1 when this is 0; with a
    StepProtocol of two entries and one of a single entry both fragments
    hold the objects 0 and 1. *)
Theorem step_objects_declared_and_reset :
  forall prot_definitions mtype add_synapses apical self,
    new_HocStimuliCreator prot_definitions mtype add_synapses apical = Ok self ->
    let n := Nat.max (list_max (map (fun item => step_entries (snd item))
                                  (step_protocols prot_definitions))) 1 in
    init_step_stimuli self
    = String.concat EmptyString
        (map (fun i =>
                nl ++ col 16 ("objref step_stimulus_" ++ str_of_nat i)
                ++ nl ++ col 12 EmptyString)%string
           (seq 0 n))
    /\ reset_step_stimuli self
       = String.concat EmptyString
           (map (fun i =>
                   nl ++ col 16 ("step_stimulus_" ++ str_of_nat i ++ " = new IClamp(0.5)")
                   ++ nl ++ col 16 ("step_stimulus_" ++ str_of_nat i ++ ".dur = 0.0")
                   ++ nl ++ col 16 ("step_stimulus_" ++ str_of_nat i ++ ".del = 0.0")
                   ++ nl ++ col 16 ("step_stimulus_" ++ str_of_nat i ++ ".amp = 0.0")
                   ++ nl
                   ++ nl ++ col 16 ("cell.soma step_stimulus_" ++ str_of_nat i)
                   ++ nl ++ col 12 EmptyString)%string
              (seq 0 n))
    /\ count_occ_str "objref step_stimulus_" (init_step_stimuli self) = n
    /\ count_occ_str "= new IClamp(0.5)" (reset_step_stimuli self) = n
    /\ count_occ_str ".dur = 0.0" (reset_step_stimuli self) = n
    /\ count_occ_str ".del = 0.0" (reset_step_stimuli self) = n
    /\ count_occ_str ".amp = 0.0" (reset_step_stimuli self) = n
    /\ count_occ_str "cell.soma step_stimulus_" (reset_step_stimuli self) = n
    /\ (prot_definitions = steps_example ->
        n = 2
        /\ init_step_stimuli self
           = (nl ++ col 16 "objref step_stimulus_0" ++ nl ++ col 12 EmptyString
              ++ nl ++ col 16 "objref step_stimulus_1" ++ nl ++ col 12 EmptyString)%string
        /\ reset_step_stimuli self
           = (step_object_hoc 0 "0.0" "0.0" "0.0"
              ++ step_object_hoc 1 "0.0" "0.0" "0.0")%string).
Proof.
  intros prot_definitions mtype add_synapses apical self H n.
  apply new_HocStimuliCreator_fields in H.
  destruct H as (_ & _ & Hmax & Hreset & Hinit).
  rewrite Hmax in Hreset, Hinit. fold n in Hreset, Hinit.
  rewrite Hreset, Hinit.
  split.
  { unfold init_steps_hoc. apply (f_equal (String.concat EmptyString)).
    apply map_ext. intros i. apply init_step_hoc_declared. }
  split.
  { unfold reset_steps_hoc. apply (f_equal (String.concat EmptyString)).
    apply map_ext. intros i. apply reset_step_hoc_reset. }
  split; [apply count_init_steps_hoc|].
  do 5 (split; [apply count_reset_steps_hoc; cbn [In]; tauto|]).
  intros ->. subst n.
  split; [reflexivity|]. split; vm_compute; reflexivity.
Qed.

(** ** Protocols the dispatch passes over *)

Lemma bind_ret_tt (m : M unit) self : (m ;; ret tt) self = m self.
Proof.
  unfold bind, ret. destruct (m self) as [[[] s]|e]; reflexivity.
Qed.

Lemma type_is_dict (d : dict) (t : string) :
  type_is (VDict d) t
  = Ok (match dict_get d "type" with Some ty => eq_str ty t | None => false end).
Proof.
  unfold type_is. cbn [contains getitem]. now destruct (dict_get d "type").
Qed.

Lemma dispatch_inert (mtype : value) (add_synapses : bool) (prot_name : string)
  (d : dict) self :
  inert add_synapses d ->
  dispatch mtype add_synapses prot_name (VDict d) self = Ok (tt, self).
Proof.
  unfold inert, dispatch. intros Hin.
  unfold bind, lift. rewrite !type_is_dict.
  destruct (dict_get d "type") as [ty|]; [|reflexivity].
  destruct Hin as (-> & -> & [->|[-> ->]]).
  - now rewrite !andb_false_r.
  - reflexivity.
Qed.

Lemma init_body_inert (mtype : value) (add_synapses : bool) (prot_name : string)
  (d : dict) self :
  inert add_synapses d ->
  init_body mtype add_synapses (prot_name, VDict d) self
  = register_extra_recs (VDict d) self.
Proof.
  intros Hin. rewrite init_body_split. cbn [fst snd].
  rewrite <- (bind_ret_tt (register_extra_recs (VDict d)) self).
  unfold bind. destruct (register_extra_recs (VDict d) self) as [[[] s]|e]; [|reflexivity].
  now apply dispatch_inert.
Qed.

(** C5: without synapses, the body of the loop does for a Vecstim or a
    Netstim protocol what it does for its extra recordings and nothing
    else: the count of stimuli, the stimulus script and the script saving
    the recordings stay as they are, and the extra recordings it declares
    go through [add_extra_recs]. *)
Theorem synapse_protocols_passed_over :
  forall mtype prot_name d t self,
    dict_get d "type" = Some (VStr t) ->
    t = "Vecstim"%string \/ t = "Netstim"%string ->
    (forall self',
        init_body mtype false (prot_name, VDict d) self = Ok (tt, self') ->
        n_stims self' = n_stims self
        /\ stims_hoc self' = stims_hoc self
        /\ save_recs self' = save_recs self)
    /\ (forall recs,
           dict_get d "extra_recordings" = Some recs ->
           init_body mtype false (prot_name, VDict d) self = add_extra_recs recs self)
    /\ (dict_get d "extra_recordings" = None ->
        init_body mtype false (prot_name, VDict d) self = Ok (tt, self)).
Proof.
  intros mtype prot_name d t self Htype Ht.
  assert (Hin : inert false d).
  { unfold inert. rewrite Htype. destruct Ht as [-> | ->]; cbn; auto. }
  split; [|split].
  - intros self' H. rewrite (init_body_inert _ _ _ _ _ Hin) in H.
    apply register_extra_recs_same in H.
    destruct H as (_ & Hn & _ & _ & _ & Hstims & Hsave). now repeat split.
  - intros recs Hrecs. rewrite (init_body_inert _ _ _ _ _ Hin).
    unfold register_extra_recs, bind, lift. cbn [contains getitem]. now rewrite Hrecs.
  - intros Hnone. rewrite (init_body_inert _ _ _ _ _ Hin).
    unfold register_extra_recs, bind, lift. cbn [contains]. now rewrite Hnone.
Qed.

(** ** Lookup errors *)


(** ** Splitting the variable list at [", "] *)

Lemma split_sep_hit (cur r : string) :
  split_from ", " 0 cur (String "," (String " " r)) = cur :: split_from ", " 0 EmptyString r.
Proof.
  cbn [split_from]. simpl (prefix _ _). now rewrite prefix_nil.
Qed.

Lemma prefix_sep_inv (c : ascii) (r : string) :
  prefix ", " (String c r) = true -> exists r', c = ","%char /\ r = String " " r'.
Proof.
  cbn [prefix]. destruct (ascii_dec "," c) as [<-|]; [|discriminate].
  destruct r as [|c' r']; cbn [prefix]; [discriminate|].
  destruct (ascii_dec " " c') as [<-|]; [|discriminate].
  intros _. now exists r'.
Qed.

Lemma prefix_sep_app (c : ascii) (r W : string) :
  prefix ", " (String c (r ++ ", " ++ W)) = prefix ", " (String c r).
Proof.
  cbn [prefix]. destruct (ascii_dec "," c); [|reflexivity].
  destruct r as [|c' r']; cbn [append prefix].
  - now destruct (ascii_dec " " ",").
  - destruct (ascii_dec " " c'); [|reflexivity]. now rewrite !prefix_nil.
Qed.

Lemma split_from_app (W : string) :
  forall V skip cur,
    skip <= String.length V ->
    split_from ", " skip cur (V ++ ", " ++ W)
    = split_from ", " skip cur V ++ str_split ", " W.
Proof.
  induction V as [|c r IH]; intros skip cur Hle; cbn [String.length] in Hle.
  - assert (skip = 0) as -> by lia.
    change (EmptyString ++ ", " ++ W)%string with (String "," (String " " W)).
    now rewrite split_sep_hit.
  - change (String c r ++ ", " ++ W)%string with (String c (r ++ ", " ++ W)).
    destruct skip as [|k]; cbn [split_from].
    + rewrite prefix_sep_app.
      destruct (prefix ", " (String c r)) eqn:Hp.
      * cbn [app]. f_equal. apply IH.
        apply prefix_sep_inv in Hp. destruct Hp as (r' & _ & ->). cbn. lia.
      * apply IH. lia.
    + apply IH. lia.
Qed.

Lemma str_split_app (V W : string) :
  str_split ", " (V ++ ", " ++ W) = str_split ", " V ++ str_split ", " W.
Proof.
  unfold str_split at 1 2. apply split_from_app. lia.
Qed.

Lemma split_from_no_sep :
  forall n cur,
    str_contains ", " n = false -> split_from ", " 0 cur n = [(cur ++ n)%string].
Proof.
  induction n as [|c r IH]; intros cur H.
  - cbn. now rewrite append_nil_r.
  - cbn [str_contains] in H. cbn [split_from].
    destruct (prefix ", " (String c r)); [discriminate|].
    rewrite (IH _ H), append_assoc. reflexivity.
Qed.

Lemma str_split_no_sep (n : string) :
  str_contains ", " n = false -> str_split ", " n = [n].
Proof.
  intros H. unfold str_split. now rewrite split_from_no_sep.
Qed.

Lemma in_str_list_app (v : value) (a b : list string) :
  in_str_list v (a ++ b) = in_str_list v a || in_str_list v b.
Proof.
  destruct v; cbn [in_str_list]; try reflexivity. apply existsb_app.
Qed.

Lemma in_str_list_In (n : string) (l : list string) :
  In n l -> in_str_list (VStr n) l = true.
Proof.
  intros H. cbn [in_str_list]. apply existsb_exists. exists n.
  split; [assumption | apply String.eqb_refl].
Qed.

(** ** Names found in the variable list *)

Lemma add_extra_rec_skip (extra_rec name seclist_name var : value) self :
  getitem extra_rec "name" = Ok name ->
  getitem extra_rec "seclist_name" = Ok seclist_name ->
  getitem extra_rec "var" = Ok var ->
  in_str_list name (str_split ", " (extra_recs_vars self)) = true ->
  add_extra_rec extra_rec self = Ok (tt, self).
Proof.
  intros Hn Hs Hv Hin. unfold add_extra_rec, bind, lift, gets.
  rewrite Hn, Hs, Hv, Hin. reflexivity.
Qed.

Lemma add_extra_rec_in_vars (extra_rec : value) (n : string) self self' :
  add_extra_rec extra_rec self = Ok (tt, self') ->
  in_vars n self = true -> in_vars n self' = true.
Proof.
  intros H Hin. apply add_extra_rec_run in H.
  destruct H as (name & _ & [[_ ->]|[_ [text ->]]]); [assumption|].
  unfold in_vars in *. cbn [extra_recs_vars add_extra_recs_text add_extra_recs_vars].
  now rewrite str_split_app, in_str_list_app, Hin.
Qed.

(** After an entry went through the loop, the pieces of its name are
    found in the variable list if the name was appended, and its name is
    found there if it has no [", "] in it. *)
Lemma add_extra_rec_registers (extra_rec : value) (n : string) self self' :
  getitem extra_rec "name" = Ok (VStr n) ->
  add_extra_rec extra_rec self = Ok (tt, self') ->
  (in_vars n self = false ->
   forall c, In c (str_split ", " n) -> in_vars c self' = true)
  /\ (str_contains ", " n = false -> in_vars n self' = true).
Proof.
  intros Hname H. apply add_extra_rec_run in H.
  destruct H as (name & Hname' & Hcases).
  rewrite Hname in Hname'. injection Hname' as <-.
  assert (Happ : forall c, In c (str_split ", " n) ->
                 in_vars c (add_extra_recs_vars (", " ++ n) self) = true).
  { intros c Hc. unfold in_vars. cbn [extra_recs_vars add_extra_recs_vars].
    rewrite str_split_app, in_str_list_app, (in_str_list_In c _ Hc).
    apply orb_true_r. }
  split.
  - intros Hout c Hc. unfold in_vars in Hout.
    destruct Hcases as [[Hin _]|[_ [text ->]]]; [congruence|].
    now apply Happ.
  - intros Hsep.
    destruct Hcases as [[Hin ->]|[_ [text ->]]]; [exact Hin|].
    apply Happ. rewrite (str_split_no_sep n Hsep). now left.
Qed.

Lemma dispatch_vars (mtype : value) (add_synapses : bool) (prot_name : string)
  (prot : value) self self' :
  dispatch mtype add_synapses prot_name prot self = Ok (tt, self') ->
  extra_recs_vars self' = extra_recs_vars self /\ extra_recs self' = extra_recs self.
Proof.
  intros H. apply dispatch_run in H.
  destruct H as [[_ ->]|[_ (body & mid & l & entries & _ & _ & _ & _ & ->)]];
    now split.
Qed.

Lemma later_trans (a b c : HocStimuliCreator) : later a b -> later b c -> later a c.
Proof.
  intros Hab Hbc. induction Hbc as [|b' c r _ IH Hstep|b' c mtype syn pn prot _ IH Hstep].
  - assumption.
  - exact (later_extra_rec a b' c r IH Hstep).
  - exact (later_dispatch a b' c mtype syn pn prot IH Hstep).
Qed.

Lemma later_in_vars (n : string) (a b : HocStimuliCreator) :
  later a b -> in_vars n a = true -> in_vars n b = true.
Proof.
  induction 1 as [|b c r _ IH Hstep|b c mtype syn pn prot _ IH Hstep]; intros Hin.
  - assumption.
  - eapply add_extra_rec_in_vars; eauto.
  - unfold in_vars in *. apply dispatch_vars in Hstep.
    destruct Hstep as [-> _]. now apply IH.
Qed.

Lemma for_each_extra_later :
  forall l a b c,
    later a b -> for_each l add_extra_rec b = Ok (tt, c) -> later a c.
Proof.
  induction l as [|r l IH]; intros a b c Hab H; cbn [for_each] in H.
  - now inv_run.
  - inv_run. eapply IH; [|eassumption]. eapply later_extra_rec; eassumption.
Qed.

Lemma init_loop_later (mtype : value) (add_synapses : bool) :
  forall prot_definitions a b c,
    later a b ->
    init_loop prot_definitions mtype add_synapses b = Ok (tt, c) -> later a c.
Proof.
  unfold init_loop.
  induction prot_definitions as [|[prot_name prot] rest IH]; intros a b c Hab H;
    cbn [for_each] in H.
  - now inv_run.
  - inv_run. rewrite init_body_split in Hm. cbn [fst snd] in Hm. inv_run.
    eapply IH; [|eassumption].
    eapply later_dispatch; [|eassumption].
    match goal with E : register_extra_recs _ _ = Ok _ |- _ =>
      unfold register_extra_recs, add_extra_recs in E end.
    inv_run.
    match goal with x : bool |- _ => destruct x end; inv_run; [|assumption].
    eapply for_each_extra_later; eassumption.
Qed.

Lemma for_each_app {A : Type} (body : A -> M unit) (l1 l2 : list A) self :
  for_each (l1 ++ l2) body self = (for_each l1 body ;; for_each l2 body) self.
Proof.
  revert self. induction l1 as [|x l1 IH]; intros self; cbn [app for_each].
  - reflexivity.
  - unfold bind. destruct (body x self) as [[u s]|e]; [|reflexivity]. apply IH.
Qed.

(** C10: an entry is passed over when its name is one of the pieces the
    variable list splits into at [", "], and its name is appended to the
    list when it is none of them; so an entry whose name is the empty
    string is passed over in every state [__init__] goes through, and so
    is an entry whose name is a piece of a name that was appended earlier,
    as [b] is after [a, b]. *)
Theorem split_membership_passes_over :
  forall extra_rec seclist_name var,
    getitem extra_rec "seclist_name" = Ok seclist_name ->
    getitem extra_rec "var" = Ok var ->
    (forall name self,
        getitem extra_rec "name" = Ok name ->
        in_str_list name (str_split ", " (extra_recs_vars self)) = true ->
        add_extra_rec extra_rec self = Ok (tt, self))
    /\ (forall apical self,
           getitem extra_rec "name" = Ok (VStr EmptyString) ->
           later (initial apical) self ->
           add_extra_rec extra_rec self = Ok (tt, self))
    /\ (forall earlier n c s0 s1 s2,
           getitem earlier "name" = Ok (VStr n) ->
           in_vars n s0 = false ->
           add_extra_rec earlier s0 = Ok (tt, s1) ->
           later s1 s2 ->
           In c (str_split ", " n) ->
           getitem extra_rec "name" = Ok (VStr c) ->
           add_extra_rec extra_rec s2 = Ok (tt, s2))
    /\ (forall prot_definitions mtype add_synapses apical self,
           init_loop prot_definitions mtype add_synapses (initial apical) = Ok (tt, self) ->
           later (initial apical) self)
    /\ str_split ", " ", a, b" = [EmptyString; "a"; "b"]%string
    /\ (forall name self self',
           getitem extra_rec "name" = Ok name ->
           in_str_list name (str_split ", " (extra_recs_vars self)) = false ->
           add_extra_rec extra_rec self = Ok (tt, self') ->
           extra_recs_vars self' = (extra_recs_vars self ++ ", " ++ py_format name)%string).
Proof.
  intros extra_rec seclist_name var Hseclist Hvar.
  split; [|split; [|split; [|split; [|split]]]].
  - intros name self Hname Hin.
    now apply (add_extra_rec_skip extra_rec name seclist_name var).
  - intros apical self Hname Hlater.
    apply (add_extra_rec_skip extra_rec (VStr EmptyString) seclist_name var);
      try assumption.
    apply (later_in_vars EmptyString _ _ Hlater). reflexivity.
  - intros earlier n c s0 s1 s2 Hearlier Hout Hrun Hlater Hc Hname.
    apply (add_extra_rec_skip extra_rec (VStr c) seclist_name var); try assumption.
    apply (later_in_vars c s1 s2 Hlater).
    now apply (add_extra_rec_registers earlier n s0 s1 Hearlier Hrun).
  - intros prot_definitions mtype add_synapses apical self H.
    eapply init_loop_later; [apply later_refl | exact H].
  - reflexivity.
  - intros name self self' Hname Hout Hrun. apply add_extra_rec_run in Hrun.
    destruct Hrun as (name' & Hname' & [[Hin _]|[_ [text ->]]]);
      rewrite Hname in Hname'; injection Hname' as <-; [congruence|reflexivity].
Qed.

(** ** More on the step stimuli *)

Lemma set_max_steps_same (self : HocStimuliCreator) :
  set_max_steps (max_steps self) self = self.
Proof. now destruct self. Qed.

Lemma step_loop_fields :
  forall steps i acc self text self',
    step_loop i steps acc self = Ok (text, self') ->
    exists fields, Forall2 step_fields steps fields.
Proof.
  induction steps as [|step rest IH]; intros i acc self text self' H;
    cbn [step_loop] in H.
  - exists []. constructor.
  - inv_run.
    match goal with
      Hd : getitem step "duration" = Ok ?d, Hl : getitem step "delay" = Ok ?l,
      Ha : getitem step "amp" = Ok ?a |- _ =>
        apply IH in H; destruct H as [fields Hf];
        exists ((d, l, a) :: fields); constructor; [now repeat split | assumption]
    end.
Qed.

Lemma steps_text_cons (i : nat) (f : value * value * value)
  (fields : list (value * value * value)) :
  steps_text i (f :: fields)
  = (step_hoc_text (str_of_nat i) (py_format (fst (fst f))) (py_format (snd (fst f)))
       (py_format (snd f))
     ++ steps_text (S i) fields)%string.
Proof.
  unfold steps_text. cbn [List.length seq combine map fst snd].
  now rewrite concat_cons.
Qed.

Lemma step_loop_text :
  forall steps fields,
    Forall2 step_fields steps fields ->
    forall i acc self,
      step_loop i steps acc self
      = Ok ((acc ++ steps_text i fields)%string,
            set_max_steps
              (Nat.max (max_steps self)
                 (match steps with [] => 0 | _ :: _ => i + List.length steps end))
              self).
Proof.
  induction 1 as [|step f rest fields (Hd & Hl & Ha) Hrest IH]; intros i acc self.
  - cbn [step_loop]. unfold ret, steps_text. cbn.
    now rewrite append_nil_r, Nat.max_0_r, set_max_steps_same.
  - cbn [step_loop]. unfold bind, gets, lift, modify, ret.
    rewrite Hd, Hl, Ha, steps_text_cons, <- append_assoc.
    destruct (Nat.ltb (max_steps self) (i + 1)) eqn:Hlt; rewrite IH;
      [apply Nat.ltb_lt in Hlt | apply Nat.ltb_ge in Hlt];
      do 2 f_equal; unfold set_max_steps; cbn; f_equal;
      destruct rest; cbn [List.length]; lia.
Qed.

Lemma step_entries_steps_of (prot stimuli step : value) (steps : list value) :
  getitem prot "stimuli" = Ok stimuli ->
  getitem stimuli "step" = Ok step ->
  steps_of step = Some steps ->
  step_entries prot = List.length steps
  /\ iter (if is_dict step then VList [step] else step) = Ok steps
  /\ getitem0 (if is_dict step then VList [step] else step)
     = match steps with [] => Raise IndexError | first :: _ => Ok first end.
Proof.
  intros Hs Hstep Hsteps. unfold step_entries. rewrite Hs, Hstep.
  destruct step; try discriminate; injection Hsteps as <-; cbn.
  - now destruct l.
  - repeat split.
Qed.

Lemma holding_hoc_stimulus (duration delay amp : string) :
  holding_hoc duration delay amp = holding_stimulus_hoc duration delay amp.
Proof.
  unfold holding_hoc, holding_stimulus_hoc, nl. text_norm. reflexivity.
Qed.

Lemma get_holding_hoc_text (prot stimuli : value) (hold_text : string) :
  getitem prot "stimuli" = Ok stimuli ->
  holding_text_of stimuli hold_text ->
  get_holding_hoc prot = Ok hold_text.
Proof.
  intros Hs [[Hno ->]|[Hyes (hold & duration & delay & amp & Hh & Hd & Hl & Ha & ->)]];
    unfold get_holding_hoc; rewrite Hs.
  - now rewrite Hno.
  - now rewrite Hyes, Hh, Hd, Hl, Ha, holding_hoc_stimulus.
Qed.

Lemma steps_text_objects (i : nat) (fields : list (value * value * value)) :
  steps_text i fields = step_objects_hoc i fields.
Proof.
  unfold steps_text, step_objects_hoc. apply (f_equal (String.concat EmptyString)).
  apply map_ext. intros kf. apply step_hoc_text_object.
Qed.

(** X1: the text of a StepProtocol: the holding stimulus if the stimuli
    have one (a current clamp [holding_stimulus] at the middle of the soma
    with the duration, delay and amplitude of the record), then, in the
    order of the entries, the step stimuli [step_stimulus_0],
    [step_stimulus_1], ..., each a current clamp at the middle of the soma
    with the duration, delay and amplitude of its entry, and the stop time
    of the first entry; [max_steps] is raised to the number of entries if
    it was below. *)
Theorem step_fragment_text :
  forall prot stimuli step steps first rest fields total hold_text self,
    getitem prot "stimuli" = Ok stimuli ->
    holding_text_of stimuli hold_text ->
    getitem stimuli "step" = Ok step ->
    steps_of step = Some steps ->
    steps = first :: rest ->
    Forall2 step_fields steps fields ->
    getitem first "totduration" = Ok total ->
    get_step_hoc prot self
    = Ok ((hold_text
           ++ String.concat EmptyString
                (map (fun kf =>
                        step_object_hoc (fst kf) (py_format (fst (fst (snd kf))))
                          (py_format (snd (fst (snd kf)))) (py_format (snd (snd kf))))
                   (combine (seq 0 (List.length fields)) fields))
           ++ "tstop=" ++ py_format total)%string,
          set_max_steps (Nat.max (max_steps self) (List.length steps)) self).
Proof.
  intros prot stimuli step steps first rest fields total hold_text self
         Hs Hh Hstep Hsteps Hcons Hfields Htot.
  destruct (step_entries_steps_of prot stimuli step steps Hs Hstep Hsteps)
    as (_ & Hiter & Hfirst).
  unfold get_step_hoc, bind, lift, ret.
  rewrite (get_holding_hoc_text prot stimuli hold_text Hs Hh).
  rewrite Hs, Hstep, Hiter, (step_loop_text steps fields Hfields), Hfirst.
  subst steps. rewrite Htot, append_assoc, steps_text_objects. reflexivity.
Qed.

Lemma get_holding_hoc_dict (d stimuli : dict) :
  dict_get d "stimuli" = Some (VDict stimuli) ->
  get_holding_hoc (VDict d)
  = match dict_get stimuli "holding" with
    | None => Ok EmptyString
    | Some hold =>
        match getitem hold "duration" with
        | Raise e => Raise e
        | Ok duration =>
            match getitem hold "delay" with
            | Raise e => Raise e
            | Ok delay =>
                match getitem hold "amp" with
                | Raise e => Raise e
                | Ok amp =>
                    Ok (holding_hoc (py_format duration) (py_format delay)
                          (py_format amp))
                end
            end
        end
    end.
Proof.
  intros Hs. unfold get_holding_hoc. cbn [getitem contains]. rewrite Hs.
  cbn [getitem contains]. now destruct (dict_get stimuli "holding").
Qed.

(** X2: a single step record and the list of this one record give the same
    step stimulus, text and state, and the same error if any. *)
Theorem single_step_is_one_entry_list :
  forall d1 d2 stimuli1 stimuli2 record self,
    dict_get d1 "stimuli" = Some (VDict stimuli1) ->
    dict_get d2 "stimuli" = Some (VDict stimuli2) ->
    dict_get stimuli1 "holding" = dict_get stimuli2 "holding" ->
    dict_get stimuli1 "step" = Some (VDict record) ->
    dict_get stimuli2 "step" = Some (VList [VDict record]) ->
    get_step_hoc (VDict d1) self = get_step_hoc (VDict d2) self.
Proof.
  intros d1 d2 stimuli1 stimuli2 record self Hs1 Hs2 Hhold Hstep1 Hstep2.
  unfold get_step_hoc, bind, lift.
  rewrite (get_holding_hoc_dict d1 stimuli1 Hs1), (get_holding_hoc_dict d2 stimuli2 Hs2).
  rewrite Hhold. cbn [getitem]. rewrite Hs1, Hs2. cbn [getitem].
  rewrite Hstep1, Hstep2. reflexivity.
Qed.

Lemma get_step_hoc_uniform : uniform get_step_hoc (fun prot m => Nat.max m (step_entries prot)).
Proof.
  intros prot self text self' H other.
  pose proof H as Hrun. unfold get_step_hoc in H. inv_run. subst.
  match goal with E : iter (if is_dict ?v then _ else _) = Ok ?l |- _ =>
    rename v into step; rename l into steps; rename E into Hiter end.
  match goal with E : getitem0 _ = Ok ?f |- _ => rename f into first; rename E into Hfirst end.
  match goal with E : step_loop _ _ _ _ = Ok _ |- _ =>
    pose proof (step_loop_fields _ _ _ _ _ _ E) as [fields Hfields];
    rewrite (step_loop_text steps fields Hfields) in E; injection E as <- _ end.
  apply get_step_hoc_run in Hrun. destruct Hrun as [Hmax _].
  unfold get_step_hoc, bind, lift, ret.
  match goal with E : get_holding_hoc prot = Ok _ |- _ => rewrite E end.
  match goal with E : getitem prot "stimuli" = Ok _ |- _ => rewrite E end.
  match goal with E : getitem _ "step" = Ok step |- _ => rewrite E end.
  rewrite Hiter, (step_loop_text steps fields Hfields), Hfirst.
  match goal with E : getitem first "totduration" = Ok _ |- _ => rewrite E end.
  do 2 f_equal. f_equal.
  assert (Hlen : step_entries prot
                 = match steps with [] => 0 | _ :: _ => 0 + List.length steps end).
  { unfold step_entries.
    repeat match goal with E : getitem _ _ = Ok _ |- _ => rewrite E end.
    destruct step as [| | | |s|l|d]; cbn in Hiter; try discriminate;
      injection Hiter as <-.
    - destruct s; cbn in Hfirst; [discriminate|]. injection Hfirst as <-.
      match goal with E : getitem (VStr _) _ = Ok _ |- _ => discriminate E end.
    - now destruct l.
    - reflexivity. }
  now rewrite Hlen.
Qed.

(** X3: the step stimulus of a protocol does not depend on the state:
    whenever [get_step_hoc] returns, it returns the same text in every
    state, and all it changes is [max_steps], which it raises to the
    number of step entries of the protocol if it was below. *)
Theorem step_fragment_same_in_every_state :
  forall prot self text self',
    get_step_hoc prot self = Ok (text, self') ->
    self' = set_max_steps (Nat.max (max_steps self) (step_entries prot)) self
    /\ max_steps self <= max_steps self'
    /\ forall other,
        get_step_hoc prot other
        = Ok (text, set_max_steps (Nat.max (max_steps other) (step_entries prot)) other).
Proof.
  intros prot self text self' H.
  pose proof (get_step_hoc_uniform prot self text self' H) as Huni.
  split; [|split; [|exact Huni]].
  - specialize (Huni self). rewrite H in Huni. now injection Huni.
  - apply get_step_hoc_run in H. destruct H as [-> _]. lia.
Qed.

(** X4: what [get_step_hoc] raises for a [step] value without entries: an
    [IndexError] for an empty list or an empty string, a [TypeError] for
    a number, a boolean or None, and the [KeyError] of the key when there
    is no [step] at all. *)
Theorem step_without_entries_raises :
  forall prot stimuli hold self,
    get_holding_hoc prot = Ok hold ->
    getitem prot "stimuli" = Ok stimuli ->
    (getitem stimuli "step" = Ok (VList []) ->
     get_step_hoc prot self = Raise IndexError)
    /\ (getitem stimuli "step" = Ok (VStr EmptyString) ->
        get_step_hoc prot self = Raise IndexError)
    /\ (forall step,
           getitem stimuli "step" = Ok step ->
           steps_of step = None ->
           (forall s, step <> VStr s) ->
           get_step_hoc prot self = Raise TypeError)
    /\ (forall d, stimuli = VDict d -> dict_get d "step" = None ->
        get_step_hoc prot self = Raise (KeyError (VStr "step"))).
Proof.
  intros prot stimuli hold self Hh Hs.
  unfold get_step_hoc, bind, lift. rewrite Hh, Hs.
  repeat split.
  - intros ->. reflexivity.
  - intros ->. reflexivity.
  - intros step -> Hnone Hstr.
    destruct step; try discriminate; try reflexivity.
    now destruct (Hstr s).
  - intros d -> Hnone. cbn [getitem]. now rewrite Hnone.
Qed.

(** ** More on the extra recordings *)

Lemma existsb_eqb_In (n : string) (l : list string) :
  existsb (String.eqb n) l = true <-> In n l.
Proof.
  rewrite existsb_exists. split.
  - intros (x & Hx & Heq). apply String.eqb_eq in Heq. now subst.
  - intros Hin. exists n. split; [assumption | apply String.eqb_refl].
Qed.

Lemma first_seen_NoDup :
  forall names seen, NoDup seen -> NoDup (seen ++ first_seen seen names).
Proof.
  induction names as [|n rest IH]; intros seen Hseen; cbn [first_seen].
  - now rewrite app_nil_r.
  - destruct (existsb (String.eqb n) seen) eqn:Hn; [now apply IH|].
    change (n :: first_seen (seen ++ [n]) rest)
      with ([n] ++ first_seen (seen ++ [n]) rest).
    rewrite app_assoc. apply IH.
    apply NoDup_app; [assumption | repeat constructor; intros [] |].
    intros x Hx [<-|[]].
    apply existsb_eqb_In in Hx. congruence.
Qed.

Lemma vars_of_cons (n : string) (names : list string) :
  vars_of (n :: names) = (", " ++ n ++ vars_of names)%string.
Proof.
  unfold vars_of. cbn [map]. now rewrite concat_cons, append_assoc.
Qed.

Lemma for_each_extra_names :
  forall l names,
    Forall2 rec_name l names ->
    forall self seen s,
      str_split ", " (extra_recs_vars self) = seen ->
      for_each l add_extra_rec self = Ok (tt, s) ->
      extra_recs_vars s = (extra_recs_vars self ++ vars_of (first_seen seen names))%string
      /\ str_split ", " (extra_recs_vars s) = seen ++ first_seen seen names.
Proof.
  induction 1 as [|r n l names [Hname Hsep] _ IH]; intros self seen s Hseen H;
    cbn [for_each] in H.
  - inv_run. cbn. now rewrite append_nil_r, app_nil_r.
  - inv_run.
    match goal with E : add_extra_rec r self = Ok (tt, ?x) |- _ =>
      rename x into s1; apply add_extra_rec_run in E;
      destruct E as (name & Hname' & Hcases) end.
    rewrite Hname in Hname'. injection Hname' as <-.
    cbn [in_str_list first_seen] in *. rewrite Hseen in Hcases.
    destruct Hcases as [[Hin ->]|[Hout [text ->]]].
    + rewrite Hin. now apply IH.
    + rewrite Hout.
      assert (Hsplit : str_split ", " (extra_recs_vars
                         (add_extra_recs_text text
                            (add_extra_recs_vars (", " ++ n) self)))
                       = seen ++ [n]).
      { cbn [extra_recs_vars add_extra_recs_text add_extra_recs_vars].
        now rewrite str_split_app, Hseen, (str_split_no_sep n Hsep). }
      destruct (IH _ _ _ Hsplit H) as [Hvars Hpieces].
      cbn [extra_recs_vars add_extra_recs_text add_extra_recs_vars] in Hvars.
      split.
      * rewrite Hvars, vars_of_cons, !append_assoc. reflexivity.
      * rewrite Hpieces, <- app_assoc. reflexivity.
Qed.

(** X5: for entries whose names are strings without [", "], the variable
    list grows by the names that were not in it, each once, in the order
    of their first occurrence; it splits back into the names it held and
    these; and no name is twice in it if none was before. *)
Theorem variable_list_holds_each_name_once :
  forall l names self seen s,
    Forall2 rec_name l names ->
    str_split ", " (extra_recs_vars self) = seen ->
    add_extra_recs (VList l) self = Ok (tt, s) ->
    extra_recs_vars s = (extra_recs_vars self ++ vars_of (first_seen seen names))%string
    /\ str_split ", " (extra_recs_vars s) = seen ++ first_seen seen names
    /\ (NoDup seen -> NoDup (str_split ", " (extra_recs_vars s)))
    /\ (self = initial (apical_point_isec self) ->
        extra_recs_vars s = vars_of (first_seen [EmptyString] names)).
Proof.
  intros l names self seen s Hnames Hseen H.
  unfold add_extra_recs in H. inv_run.
  match goal with E : iter (VList l) = Ok _ |- _ => cbn in E; injection E as <- end.
  destruct (for_each_extra_names l names Hnames self seen s Hseen H) as [Hvars Hpieces].
  split; [exact Hvars|]. split; [exact Hpieces|]. split.
  - intros Hnodup. rewrite Hpieces. now apply first_seen_NoDup.
  - intros Hinit. rewrite Hinit in Hseen, Hvars. cbn in Hseen, Hvars. now subst seen.
Qed.

(** X6: the [type] of an entry is looked up only when its name is new: an
    entry without [type] raises [KeyError] if its name is not in the
    variable list, and is passed over like any other if it is.  An entry
    of a type other than the three known ones has its name appended to
    the variable list and nothing added to the script. *)
Theorem extra_rec_type_looked_up_late :
  forall d name seclist_name var self,
    dict_get d "name" = Some name ->
    dict_get d "seclist_name" = Some seclist_name ->
    dict_get d "var" = Some var ->
    (dict_get d "type" = None ->
     add_extra_rec (VDict d) self
     = if in_str_list name (str_split ", " (extra_recs_vars self))
       then Ok (tt, self)
       else Raise (KeyError (VStr "type")))
    /\ (forall type,
           dict_get d "type" = Some type ->
           eq_str type "nrnseclistcomp" = false ->
           eq_str type "somadistance" = false ->
           eq_str type "somadistanceapic" = false ->
           in_str_list name (str_split ", " (extra_recs_vars self)) = false ->
           add_extra_rec (VDict d) self
           = Ok (tt, add_extra_recs_vars (", " ++ py_format name) self)).
Proof.
  intros d name seclist_name var self Hname Hseclist Hvar.
  unfold add_extra_rec, bind, lift, gets, modify, ret. cbn [getitem].
  rewrite Hname, Hseclist, Hvar. split.
  - intros Htype. rewrite Htype.
    now destruct (in_str_list name (str_split ", " (extra_recs_vars self))).
  - intros type Htype H1 H2 H3 Hout. rewrite Htype, Hout, H1, H2, H3. reflexivity.
Qed.

(** ** The same run from another state *)

Lemma add_extra_nil (self : HocStimuliCreator) :
  add_extra_recs_text EmptyString (add_extra_recs_vars EmptyString self) = self.
Proof.
  destruct self. unfold add_extra_recs_text, add_extra_recs_vars. cbn.
  now rewrite !append_nil_r.
Qed.

Lemma add_extra_app (v1 t1 v2 t2 : string) (self : HocStimuliCreator) :
  add_extra_recs_text t2 (add_extra_recs_vars v2
    (add_extra_recs_text t1 (add_extra_recs_vars v1 self)))
  = add_extra_recs_text (t1 ++ t2) (add_extra_recs_vars (v1 ++ v2) self).
Proof.
  unfold add_extra_recs_text, add_extra_recs_vars. cbn. now rewrite !append_assoc.
Qed.

(** An entry does the same from every state with the same variable list
    and the same apical point. *)
Lemma add_extra_rec_transfer (extra_rec : value) self self' :
  add_extra_rec extra_rec self = Ok (tt, self') ->
  exists vars text,
    forall other,
      extra_recs_vars other = extra_recs_vars self ->
      apical_point_isec other = apical_point_isec self ->
      add_extra_rec extra_rec other
      = Ok (tt, add_extra_recs_text text (add_extra_recs_vars vars other)).
Proof.
  unfold add_extra_rec. intros H. inv_run. subst.
  match goal with E : getitem extra_rec "name" = Ok ?n |- _ =>
    rename n into name; rename E into Hname end.
  match goal with E : getitem extra_rec "seclist_name" = Ok ?n |- _ =>
    rename n into seclist_name; rename E into Hseclist end.
  match goal with E : getitem extra_rec "var" = Ok ?n |- _ =>
    rename n into var; rename E into Hvar end.
  destruct (in_str_list name (str_split ", " (extra_recs_vars self))) eqn:Hin;
    cbn [negb] in H.
  - exists EmptyString, EmptyString. intros other Hv Ha.
    unfold bind, lift, gets. rewrite Hname, Hseclist, Hvar, Hv, Hin, add_extra_nil.
    reflexivity.
  - inv_run. subst.
    match goal with E : getitem extra_rec "type" = Ok ?t |- _ =>
      rename t into type; rename E into Htype end.
    assert (Hlast : forall other : HocStimuliCreator,
               add_extra_recs_vars (", " ++ py_format name) other
               = add_extra_recs_text EmptyString
                   (add_extra_recs_vars (", " ++ py_format name) other)).
    { intros other. destruct other. unfold add_extra_recs_text, add_extra_recs_vars.
      cbn. now rewrite append_nil_r. }
    destruct (eq_str type "nrnseclistcomp") eqn:H1;
      [|destruct (eq_str type "somadistance") eqn:H2;
        [|destruct (eq_str type "somadistanceapic") eqn:H3]];
      inv_run; subst;
      eexists (", " ++ py_format name)%string; eexists; intros other Hv Ha;
      unfold bind, lift, gets, modify, ret;
      rewrite Hname, Hseclist, Hvar, Hv, Hin; cbn [negb];
      rewrite Htype, H1, ?H2, ?H3;
      repeat match goal with E : getitem extra_rec _ = Ok _ |- _ => rewrite E; clear E end;
      cbn [apical_point_isec add_extra_recs_vars]; rewrite ?Ha.
    + reflexivity.
    + reflexivity.
    + reflexivity.
    + apply (f_equal (fun x => Ok (tt, x)) (Hlast other)).
Qed.

Lemma for_each_extra_transfer :
  forall l self self',
    for_each l add_extra_rec self = Ok (tt, self') ->
    exists vars text,
      forall other,
        extra_recs_vars other = extra_recs_vars self ->
        apical_point_isec other = apical_point_isec self ->
        for_each l add_extra_rec other
        = Ok (tt, add_extra_recs_text text (add_extra_recs_vars vars other)).
Proof.
  induction l as [|r l IH]; intros self self' H; cbn [for_each] in H.
  - inv_run. exists EmptyString, EmptyString. intros other _ _.
    cbn [for_each]. unfold ret. now rewrite add_extra_nil.
  - inv_run.
    match goal with E : add_extra_rec r self = Ok (tt, ?x) |- _ =>
      rename x into s1; rename E into Hr end.
    destruct (add_extra_rec_transfer r self s1 Hr) as (v1 & t1 & H1).
    destruct (IH s1 self' H) as (v2 & t2 & H2).
    exists (v1 ++ v2)%string, (t1 ++ t2)%string. intros other Hv Ha.
    cbn [for_each]. unfold bind. rewrite (H1 other Hv Ha).
    pose proof (H1 self eq_refl eq_refl) as Hs1. rewrite Hr in Hs1.
    injection Hs1 as ->.
    rewrite H2; [now rewrite add_extra_app | |];
      cbn [extra_recs_vars apical_point_isec add_extra_recs_text add_extra_recs_vars];
      congruence.
Qed.

Lemma register_extra_recs_transfer (prot : value) self self' :
  register_extra_recs prot self = Ok (tt, self') ->
  exists vars text,
    forall other,
      extra_recs_vars other = extra_recs_vars self ->
      apical_point_isec other = apical_point_isec self ->
      register_extra_recs prot other
      = Ok (tt, add_extra_recs_text text (add_extra_recs_vars vars other)).
Proof.
  unfold register_extra_recs, add_extra_recs. intros H. inv_run.
  match goal with E : contains "extra_recordings" prot = Ok ?b |- _ =>
    rename E into Hc; destruct b end; inv_run.
  - match goal with E : for_each _ _ _ = Ok _ |- _ =>
      destruct (for_each_extra_transfer _ _ _ E) as (vars & text & Hall) end.
    exists vars, text. intros other Hv Ha. unfold bind, lift. rewrite Hc.
    repeat match goal with E : _ = Ok _ |- _ => rewrite E; clear E end.
    now apply Hall.
  - exists EmptyString, EmptyString. intros other _ _.
    unfold bind, lift, ret. now rewrite Hc, add_extra_nil.
Qed.

Lemma lift_uniform (f : value -> result string) :
  uniform (fun p => lift (f p)) (fun _ m => m).
Proof.
  intros prot self text self' H other. inv_run. unfold lift.
  match goal with E : f prot = Ok _ |- _ => rewrite E end.
  now rewrite set_max_steps_same.
Qed.

Lemma run_branch_uniform (fct : value -> M string) (g : value -> nat -> nat)
  (mtype : value) (prot_name : string) (prot : value) self self' :
  uniform fct g ->
  (forall m, g prot m = max_steps_after prot m) ->
  run_branch fct mtype prot_name prot self = Ok (tt, self') ->
  exists body entries,
    forall mtype' other,
      run_branch fct mtype' prot_name prot other
      = Ok (tt, branch_result mtype' prot_name prot body entries other).
Proof.
  intros Huni Hg H. unfold run_branch, get_stim_hoc in H. inv_run. subst.
  match goal with E : fct prot _ = Ok (?b, _) |- _ =>
    rename b into body; rename E into Hbody end.
  apply add_save_recordings_hoc_inv in H.
  destruct H as (l & entries & Hl & Hent & _).
  exists body, entries. intros mtype' other.
  unfold run_branch, get_stim_hoc, bind, modify, gets, ret.
  rewrite (Huni _ _ _ _ Hbody (set_n_stims (n_stims other + 1) other)).
  rewrite (add_save_recordings_hoc_run mtype' prot_name prot l entries _ Hl Hent).
  unfold branch_result. cbn [n_stims max_steps set_n_stims set_max_steps add_stims_hoc].
  now rewrite Hg.
Qed.

Lemma type_is_any (prot : value) (t t' : string) (b : bool) :
  type_is prot t = Ok b -> exists b', type_is prot t' = Ok b'.
Proof.
  unfold type_is.
  destruct (contains "type" prot) as [[|]|e]; try discriminate; [|now exists false].
  destruct (getitem prot "type") as [type|e]; [|discriminate].
  intros _. now eexists.
Qed.

(** What the dispatch does to a protocol is the same from every state
    and for every cell type: a StepProtocol or a RampProtocol goes
    through its branch, a Vecstim or a Netstim goes through its branch
    with synapses and is passed over without, anything else is passed
    over. *)
Lemma dispatch_uniform (mtype : value) (add_synapses : bool) (prot_name : string)
  (prot : value) self self' :
  dispatch mtype add_synapses prot_name prot self = Ok (tt, self') ->
  (exists body entries,
      forall mtype' add_synapses' other,
        dispatch mtype' add_synapses' prot_name prot other
        = Ok (tt, branch_result mtype' prot_name prot body entries other))
  \/ (has_type prot "StepProtocol" = false
      /\ has_type prot "Vecstim" || has_type prot "Netstim" = true
      /\ (forall mtype' other,
             dispatch mtype' false prot_name prot other = Ok (tt, other))
      /\ (add_synapses = true ->
          exists body entries,
            forall mtype' other,
              dispatch mtype' true prot_name prot other
              = Ok (tt, branch_result mtype' prot_name prot body entries other)))
  \/ (has_type prot "Vecstim" = false
      /\ has_type prot "Netstim" = false
      /\ forall mtype' add_synapses' other,
          dispatch mtype' add_synapses' prot_name prot other = Ok (tt, other)).
Proof.
  intros H.
  assert (Hstep : exists b, type_is prot "StepProtocol" = Ok b).
  { unfold dispatch in H. inv_run. eexists. eassumption. }
  destruct Hstep as [b1 Hstep].
  destruct (type_is_any prot _ "RampProtocol" _ Hstep) as [b2 Hramp].
  destruct (type_is_any prot _ "Vecstim" _ Hstep) as [b3 Hvec].
  destruct (type_is_any prot _ "Netstim" _ Hstep) as [b4 Hnet].
  pose proof (has_type_Ok _ _ _ Hstep) as Tstep.
  pose proof (has_type_Ok _ _ _ Hvec) as Tvec.
  pose proof (has_type_Ok _ _ _ Hnet) as Tnet.
  assert (Hgstep : b1 = true ->
            forall m, Nat.max m (step_entries prot) = max_steps_after prot m).
  { intros -> m. unfold max_steps_after. now rewrite Tstep. }
  assert (Hgid : b1 = false -> forall m : nat, m = max_steps_after prot m).
  { intros -> m. unfold max_steps_after. now rewrite Tstep. }
  assert (Hrun : forall mtype' syn' other,
             dispatch mtype' syn' prot_name prot other
             = if b1 then run_branch get_step_hoc mtype' prot_name prot other
               else if b2
                    then run_branch (fun p => lift (get_ramp_hoc p)) mtype' prot_name
                           prot other
                    else if b3 && syn'
                         then run_branch (fun p => lift (get_vecstim_hoc p)) mtype'
                                prot_name prot other
                         else if b4 && syn'
                              then run_branch (fun p => lift (get_netstim_hoc p)) mtype'
                                     prot_name prot other
                              else Ok (tt, other)).
  { intros mtype' syn' other. unfold dispatch, bind, lift.
    rewrite Hstep. destruct b1; [reflexivity|].
    rewrite Hramp. destruct b2; [reflexivity|].
    rewrite Hvec. destruct (b3 && syn'); [reflexivity|].
    rewrite Hnet. now destruct (b4 && syn'). }
  rewrite Hrun in H.
  destruct b1.
  { left.
    destruct (run_branch_uniform _ _ _ _ _ _ _ get_step_hoc_uniform (Hgstep eq_refl) H)
      as (body & entries & Hall).
    exists body, entries. intros mtype' syn' other. rewrite Hrun. apply Hall. }
  destruct b2.
  { left.
    destruct (run_branch_uniform _ _ _ _ _ _ _ (lift_uniform get_ramp_hoc)
                (Hgid eq_refl) H) as (body & entries & Hall).
    exists body, entries. intros mtype' syn' other. rewrite Hrun. apply Hall. }
  destruct b3.
  { right. left. rewrite Tstep, Tvec. repeat split.
    - intros mtype' other. rewrite Hrun. cbn [andb]. now rewrite andb_false_r.
    - intros ->. cbn [andb] in H.
      destruct (run_branch_uniform _ _ _ _ _ _ _ (lift_uniform get_vecstim_hoc)
                  (Hgid eq_refl) H) as (body & entries & Hall).
      exists body, entries. intros mtype' other. rewrite Hrun. apply Hall. }
  destruct b4.
  { right. left. rewrite Tstep, Tvec, Tnet. repeat split.
    - intros mtype' other. now rewrite Hrun.
    - intros ->. cbn [andb] in H.
      destruct (run_branch_uniform _ _ _ _ _ _ _ (lift_uniform get_netstim_hoc)
                  (Hgid eq_refl) H) as (body & entries & Hall).
      exists body, entries. intros mtype' other. rewrite Hrun. apply Hall. }
  right. right. rewrite Tvec, Tnet. repeat split.
  intros mtype' syn' other. now rewrite Hrun.
Qed.

Lemma new_of_loop (prot_definitions : dict) (mtype : value) (add_synapses : bool)
  (apical : Z) (s : HocStimuliCreator) :
  init_loop prot_definitions mtype add_synapses (initial apical) = Ok (tt, s) ->
  new_HocStimuliCreator prot_definitions mtype add_synapses apical
  = Ok (add_init_step_stimuli (init_steps_hoc (Nat.max (max_steps s) 1))
          (add_reset_step_stimuli (reset_steps_hoc (Nat.max (max_steps s) 1)) s)).
Proof.
  intros H. unfold new_HocStimuliCreator, get_reset_step, get_init_step, bind, gets.
  rewrite H, reset_loop_run, init_loop_steps_run. reflexivity.
Qed.

Lemma new_raises_of_loop (prot_definitions : dict) (mtype : value) (add_synapses : bool)
  (apical : Z) (e : exn) :
  init_loop prot_definitions mtype add_synapses (initial apical) = Raise e ->
  new_HocStimuliCreator prot_definitions mtype add_synapses apical = Raise e.
Proof.
  intros H. unfold new_HocStimuliCreator, bind. now rewrite H.
Qed.

Lemma init_body_other_mtype (mtype mtype' : value) (add_synapses : bool)
  (item : string * value) self self' other :
  init_body mtype add_synapses item self = Ok (tt, self') ->
  same_but_save_recs self other ->
  exists other',
    init_body mtype' add_synapses item other = Ok (tt, other')
    /\ same_but_save_recs self' other'.
Proof.
  intros H (Hap & Hn & Hmax & Hreset & Hinit & Hstims & Hvars & Hrecs).
  rewrite init_body_split in H. inv_run.
  match goal with E : register_extra_recs _ self = Ok (tt, ?x) |- _ =>
    rename x into s1; rename E into Hreg end.
  destruct (register_extra_recs_transfer _ _ _ Hreg) as (vars & text & Hall).
  pose proof (Hall self eq_refl eq_refl) as Hs1. rewrite Hreg in Hs1. injection Hs1 as ->.
  pose proof (Hall other (eq_sym Hvars) (eq_sym Hap)) as Ho.
  assert (Hrel : same_but_save_recs
                   (add_extra_recs_text text (add_extra_recs_vars vars self))
                   (add_extra_recs_text text (add_extra_recs_vars vars other))).
  { unfold same_but_save_recs. cbn. repeat split; congruence. }
  remember (add_extra_recs_text text (add_extra_recs_vars vars self)) as s1 eqn:Es1.
  remember (add_extra_recs_text text (add_extra_recs_vars vars other)) as o1 eqn:Eo1.
  clear Es1 Eo1.
  assert (Hsplit : forall o2,
             dispatch mtype' add_synapses (fst item) (snd item) o1 = Ok (tt, o2) ->
             init_body mtype' add_synapses item other = Ok (tt, o2)).
  { intros o2 Hd. rewrite init_body_split. unfold bind. now rewrite Ho. }
  destruct Hrel as (Hap1 & Hn1 & Hmax1 & Hreset1 & Hinit1 & Hstims1 & Hvars1 & Hrecs1).
  pose proof H as Hd. apply dispatch_uniform in Hd.
  destruct Hd as [(body & entries & Hb)
                 |[(_ & _ & Hoff & Hon)|(_ & _ & Hpass)]].
  - rewrite Hb in H. injection H as <-.
    eexists. split; [apply Hsplit, Hb|].
    unfold same_but_save_recs, branch_result. cbn. rewrite Hn1, Hmax1.
    repeat split; congruence.
  - destruct add_synapses.
    + destruct (Hon eq_refl) as (body & entries & Hb).
      rewrite Hb in H. injection H as <-.
      eexists. split; [apply Hsplit, Hb|].
      unfold same_but_save_recs, branch_result. cbn. rewrite Hn1, Hmax1.
      repeat split; congruence.
    + rewrite Hoff in H. injection H as <-.
      exists o1. split; [apply Hsplit, Hoff|]. now repeat split.
  - rewrite Hpass in H. injection H as <-.
    exists o1. split; [apply Hsplit, Hpass|]. now repeat split.
Qed.

Lemma init_loop_other_mtype (mtype mtype' : value) (add_synapses : bool) :
  forall prot_definitions self self' other,
    init_loop prot_definitions mtype add_synapses self = Ok (tt, self') ->
    same_but_save_recs self other ->
    exists other',
      init_loop prot_definitions mtype' add_synapses other = Ok (tt, other')
      /\ same_but_save_recs self' other'.
Proof.
  unfold init_loop.
  induction prot_definitions as [|item rest IH]; intros self self' other H Hrel;
    cbn [for_each] in H |- *.
  - inv_run. now exists other.
  - inv_run.
    match goal with E : init_body _ _ _ _ = Ok _ |- _ =>
      destruct (init_body_other_mtype mtype mtype' _ _ _ _ other E Hrel)
        as (o1 & Ho1 & Hrel1) end.
    destruct (IH _ _ o1 H Hrel1) as (o2 & Ho2 & Hrel2).
    exists o2. split; [|assumption]. unfold bind. now rewrite Ho1.
Qed.

(** X7: the cell type only shows in the script that saves the recordings:
    if the construction succeeds for one cell type, it succeeds for every
    other, and every other attribute of the instance is the same. *)
Theorem mtype_only_shows_in_save_recs :
  forall prot_definitions mtype mtype' add_synapses apical self,
    new_HocStimuliCreator prot_definitions mtype add_synapses apical = Ok self ->
    exists self',
      new_HocStimuliCreator prot_definitions mtype' add_synapses apical = Ok self'
      /\ same_but_save_recs self self'.
Proof.
  intros prot_definitions mtype mtype' add_synapses apical self H.
  apply new_HocStimuliCreator_run in H. destruct H as (s & Hloop & ->).
  destruct (init_loop_other_mtype mtype mtype' add_synapses prot_definitions
              (initial apical) s (initial apical) Hloop) as (o & Ho & Hrel).
  { now repeat split. }
  eexists. split; [apply new_of_loop, Ho|].
  destruct Hrel as (Hap & Hn & Hmax & Hreset & Hinit & Hstims & Hvars & Hrecs).
  unfold same_but_save_recs. cbn. rewrite Hmax. repeat split; congruence.
Qed.

Lemma init_body_without_synapses (mtype : value) (item : string * value)
  self self' other :
  init_body mtype true item self = Ok (tt, self') ->
  same_registry self other ->
  n_stims other <= n_stims self ->
  exists other',
    init_body mtype false item other = Ok (tt, other')
    /\ same_registry self' other'
    /\ n_stims other' <= n_stims self'.
Proof.
  intros H (Hap & Hmax & Hreset & Hinit & Hvars & Hrecs) Hle.
  rewrite init_body_split in H. inv_run.
  match goal with E : register_extra_recs _ self = Ok (tt, ?x) |- _ =>
    rename x into s1; rename E into Hreg end.
  destruct (register_extra_recs_transfer _ _ _ Hreg) as (vars & text & Hall).
  pose proof (Hall self eq_refl eq_refl) as Hs1. rewrite Hreg in Hs1. injection Hs1 as ->.
  pose proof (Hall other (eq_sym Hvars) (eq_sym Hap)) as Ho.
  assert (Hrel : same_registry
                   (add_extra_recs_text text (add_extra_recs_vars vars self))
                   (add_extra_recs_text text (add_extra_recs_vars vars other))
                 /\ n_stims (add_extra_recs_text text (add_extra_recs_vars vars other))
                    <= n_stims (add_extra_recs_text text (add_extra_recs_vars vars self))).
  { unfold same_registry. cbn. repeat split; congruence. }
  remember (add_extra_recs_text text (add_extra_recs_vars vars self)) as s1 eqn:Es1.
  remember (add_extra_recs_text text (add_extra_recs_vars vars other)) as o1 eqn:Eo1.
  clear Es1 Eo1.
  assert (Hsplit : forall o2,
             dispatch mtype false (fst item) (snd item) o1 = Ok (tt, o2) ->
             init_body mtype false item other = Ok (tt, o2)).
  { intros o2 Hd. rewrite init_body_split. unfold bind. now rewrite Ho. }
  destruct Hrel as ((Hap1 & Hmax1 & Hreset1 & Hinit1 & Hvars1 & Hrecs1) & Hle1).
  pose proof H as Hd. apply dispatch_uniform in Hd.
  destruct Hd as [(body & entries & Hb)
                 |[(Hnostep & _ & Hoff & Hon)|(_ & _ & Hpass)]].
  - rewrite Hb in H. injection H as <-.
    eexists. split; [apply Hsplit, Hb|].
    unfold same_registry, branch_result. cbn. rewrite Hmax1.
    repeat split; try congruence. lia.
  - destruct (Hon eq_refl) as (body & entries & Hb).
    rewrite Hb in H. injection H as <-.
    exists o1. split; [apply Hsplit, Hoff|].
    unfold same_registry, branch_result, max_steps_after. cbn. rewrite Hnostep.
    repeat split; try congruence. lia.
  - rewrite Hpass in H. injection H as <-.
    exists o1. split; [apply Hsplit, Hpass|]. now repeat split.
Qed.

Lemma init_loop_without_synapses (mtype : value) :
  forall prot_definitions self self' other,
    init_loop prot_definitions mtype true self = Ok (tt, self') ->
    same_registry self other ->
    n_stims other <= n_stims self ->
    exists other',
      init_loop prot_definitions mtype false other = Ok (tt, other')
      /\ same_registry self' other'
      /\ n_stims other' <= n_stims self'.
Proof.
  unfold init_loop.
  induction prot_definitions as [|item rest IH]; intros self self' other H Hrel Hle;
    cbn [for_each] in H |- *.
  - inv_run. now exists other.
  - inv_run.
    match goal with E : init_body _ _ _ _ = Ok _ |- _ =>
      destruct (init_body_without_synapses mtype _ _ _ other E Hrel Hle)
        as (o1 & Ho1 & Hrel1 & Hle1) end.
    destruct (IH _ _ o1 H Hrel1 Hle1) as (o2 & Ho2 & Hrel2).
    exists o2. split; [|assumption]. unfold bind. now rewrite Ho1.
Qed.

(** X8: turning the synapses off never makes the construction fail: if it
    succeeds with synapses it succeeds without, with the same extra
    recordings, variable list, [max_steps] and step fragments, and a
    count of stimuli that is not larger. *)
Theorem construction_succeeds_without_synapses :
  forall prot_definitions mtype apical self,
    new_HocStimuliCreator prot_definitions mtype true apical = Ok self ->
    exists self',
      new_HocStimuliCreator prot_definitions mtype false apical = Ok self'
      /\ same_registry self self'
      /\ n_stims self' <= n_stims self.
Proof.
  intros prot_definitions mtype apical self H.
  apply new_HocStimuliCreator_run in H. destruct H as (s & Hloop & ->).
  destruct (init_loop_without_synapses mtype prot_definitions
              (initial apical) s (initial apical) Hloop) as (o & Ho & Hrel & Hle).
  { now repeat split. }
  { reflexivity. }
  eexists. split; [apply new_of_loop, Ho|].
  destruct Hrel as (Hap & Hmax & Hreset & Hinit & Hvars & Hrecs).
  unfold same_registry. cbn. rewrite Hmax. repeat split; congruence.
Qed.

Lemma for_each_ext {A : Type} (f g : A -> M unit) :
  forall l,
    (forall x, In x l -> forall self, f x self = g x self) ->
    forall self, for_each l f self = for_each l g self.
Proof.
  induction l as [|x l IH]; intros Hfg self; cbn [for_each]; [reflexivity|].
  unfold bind. rewrite (Hfg x (or_introl eq_refl)).
  destruct (g x self) as [[u s]|e]; [|reflexivity].
  apply IH. intros y Hy. apply Hfg. now right.
Qed.

(** X9: [add_synapses] only matters for Vecstim and Netstim protocols: for a
    mapping without them the construction gives the same instance, or
    raises the same error, with and without synapses. *)
Theorem add_synapses_only_matters_for_synapse_protocols :
  forall prot_definitions mtype apical,
    (forall item, In item prot_definitions ->
                  has_type (snd item) "Vecstim" = false
                  /\ has_type (snd item) "Netstim" = false) ->
    new_HocStimuliCreator prot_definitions mtype true apical
    = new_HocStimuliCreator prot_definitions mtype false apical.
Proof.
  intros prot_definitions mtype apical Hnone.
  unfold new_HocStimuliCreator, init_loop, bind at 1 3.
  rewrite (for_each_ext (init_body mtype true) (init_body mtype false) prot_definitions);
    [reflexivity|].
  intros item Hin self. destruct (Hnone item Hin) as [Hvec Hnet].
  rewrite !init_body_split. unfold bind.
  destruct (register_extra_recs (snd item) self) as [[[] s]|e]; [|reflexivity].
  unfold dispatch, bind, lift. unfold has_type in Hvec, Hnet.
  destruct (type_is (snd item) "StepProtocol") as [[|]|e]; try reflexivity.
  destruct (type_is (snd item) "RampProtocol") as [[|]|e]; try reflexivity.
  destruct (type_is (snd item) "Vecstim") as [[|]|e]; try discriminate; try reflexivity.
  destruct (type_is (snd item) "Netstim") as [[|]|e]; try discriminate; reflexivity.
Qed.

(** X10: the first protocol whose body raises ends the construction with its
    error: the protocols after it are not looked at. *)
Theorem construction_stops_at_first_error :
  forall before item after mtype add_synapses apical self e,
    init_loop before mtype add_synapses (initial apical) = Ok (tt, self) ->
    init_body mtype add_synapses item self = Raise e ->
    new_HocStimuliCreator (before ++ item :: after) mtype add_synapses apical = Raise e.
Proof.
  intros before item after mtype add_synapses apical self e Hbefore Hitem.
  apply new_raises_of_loop. unfold init_loop in *.
  rewrite for_each_app. unfold bind. rewrite Hbefore.
  cbn [for_each]. unfold bind. now rewrite Hitem.
Qed.

(** ** What [__init__] keeps *)

Lemma grows_refl (a : HocStimuliCreator) : grows a a.
Proof.
  unfold grows. repeat split; try lia;
    exists EmptyString; now rewrite append_nil_r.
Qed.

Lemma grows_trans (a b c : HocStimuliCreator) : grows a b -> grows b c -> grows a c.
Proof.
  intros (Hap & Hn & Hm & Hr & Hi & [s1 Hs] & [v1 Hv] & [x1 Hx] & [r1 Hrec])
         (Hap' & Hn' & Hm' & Hr' & Hi' & [s2 Hs'] & [v2 Hv'] & [x2 Hx'] & [r2 Hrec']).
  unfold grows.
  split; [congruence|]. split; [lia|]. split; [lia|].
  split; [congruence|]. split; [congruence|].
  split; [exists (s1 ++ s2)%string; now rewrite Hs', Hs, append_assoc|].
  split; [exists (v1 ++ v2)%string; now rewrite Hv', Hv, append_assoc|].
  split; [exists (x1 ++ x2)%string; now rewrite Hx', Hx, append_assoc|].
  exists (r1 ++ r2)%string. now rewrite Hrec', Hrec, append_assoc.
Qed.

Lemma add_extra_rec_grows (extra_rec : value) self self' :
  add_extra_rec extra_rec self = Ok (tt, self') -> grows self self'.
Proof.
  intros H. apply add_extra_rec_run in H.
  destruct H as (name & _ & [[_ ->]|[_ [text ->]]]); [apply grows_refl|].
  unfold grows. cbn.
  split; [reflexivity|]. split; [lia|]. split; [lia|].
  split; [reflexivity|]. split; [reflexivity|].
  split; [exists EmptyString; now rewrite append_nil_r|].
  split; [exists EmptyString; now rewrite append_nil_r|].
  split; eexists; reflexivity.
Qed.

Lemma dispatch_grows (mtype : value) (add_synapses : bool) (prot_name : string)
  (prot : value) self self' :
  dispatch mtype add_synapses prot_name prot self = Ok (tt, self') -> grows self self'.
Proof.
  intros H. apply dispatch_run in H.
  destruct H as [[_ ->]|[_ (body & mid & l & entries & _ & Hmid & _ & _ & ->)]];
    [apply grows_refl|].
  unfold grows. cbn.
  split; [reflexivity|]. split; [lia|].
  split; [rewrite Hmid; destruct (has_type prot "StepProtocol"); lia|].
  split; [reflexivity|]. split; [reflexivity|].
  split; [eexists; reflexivity|]. split; [eexists; reflexivity|].
  split; exists EmptyString; now rewrite append_nil_r.
Qed.

(** X11: [__init__] only appends: from a state to a later one, each of the
    scripts and the variable list keep what they held and grow at the
    end, the count of stimuli and [max_steps] never go down, and the
    apical point and the step fragments, written after the loop, are
    untouched. *)
Theorem init_only_appends :
  forall a b, later a b -> grows a b.
Proof.
  intros a b H.
  induction H as [|b c r _ IH Hstep|b c mtype syn pn prot _ IH Hstep].
  - apply grows_refl.
  - eapply grows_trans; [exact IH|]. eapply add_extra_rec_grows; eassumption.
  - eapply grows_trans; [exact IH|]. eapply dispatch_grows; eassumption.
Qed.

Lemma for_each_extra_rec_names :
  forall l self self',
    for_each l add_extra_rec self = Ok (tt, self') ->
    exists entries, Forall2 rec_names l entries.
Proof.
  induction l as [|r l IH]; intros self self' H; cbn [for_each] in H.
  - exists []. constructor.
  - inv_run.
    match goal with E : add_extra_rec r self = Ok _ |- _ =>
      unfold add_extra_rec in E; apply bind_Ok in E;
      destruct E as (name & s1 & Hname & E); apply lift_Ok in Hname;
      destruct Hname as [Hname ->];
      apply bind_Ok in E; destruct E as (sec & s2 & Hsec & E);
      apply lift_Ok in Hsec; destruct Hsec as [_ ->];
      apply bind_Ok in E; destruct E as (var & s3 & Hvar & _);
      apply lift_Ok in Hvar; destruct Hvar as [Hvar ->]
    end.
    apply IH in H. destruct H as [entries Hent].
    exists ((name, var) :: entries). constructor; [now split | assumption].
Qed.

(** X12: saving the recordings of a protocol cannot fail once its extra
    recordings went through [add_extra_recs]: the keys the save loop
    reads were read there. *)
Theorem save_cannot_fail_after_registration :
  forall prot self self',
    register_extra_recs prot self = Ok (tt, self') ->
    forall mtype prot_name other,
      exists l entries,
        extra_recordings_of prot = Ok l
        /\ Forall2 rec_names l entries
        /\ add_save_recordings_hoc mtype prot_name prot other
           = Ok (tt, add_save_recs
                       (save_block (n_stims other) mtype prot_name entries) other).
Proof.
  intros prot self self' H mtype prot_name other.
  assert (Hex : exists l entries,
             extra_recordings_of prot = Ok l /\ Forall2 rec_names l entries).
  { unfold register_extra_recs, add_extra_recs in H. inv_run.
    unfold extra_recordings_of.
    match goal with E : contains _ prot = Ok ?b |- _ => rewrite E; destruct b end.
    - inv_run.
      match goal with E : getitem prot _ = Ok _ |- _ => rewrite E end.
      match goal with E : for_each ?l _ _ = Ok _ |- _ =>
        destruct (for_each_extra_rec_names _ _ _ E) as [entries Hent];
        exists l, entries end.
      now split.
    - exists [], []. split; [reflexivity|constructor]. }
  destruct Hex as (l & entries & Hl & Hent). exists l, entries.
  split; [exact Hl|]. split; [exact Hent|].
  now apply add_save_recordings_hoc_run with (l := l).
Qed.

(** ** Lookups that fail *)












(** ** Duplicate extra recordings *)

Lemma nrnseclistcomp_hoc_section (name seclist_name sec_index var comp_x : string) :
  nrnseclistcomp_hoc name seclist_name sec_index var comp_x
  = section_recording_hoc name seclist_name sec_index var comp_x.
Proof.
  unfold nrnseclistcomp_hoc, section_recording_hoc, vector_declared_hoc,
    vector_attached_hoc, nl.
  text_norm. reflexivity.
Qed.

Lemma somadistance_hoc_distance (name seclist_name somadistance var : string) :
  somadistance_hoc name seclist_name somadistance var
  = (vector_declared_hoc name
     ++ distance_recording_hoc name ("cell." ++ seclist_name) somadistance var)%string.
Proof.
  unfold somadistance_hoc, distance_recording_hoc, vector_declared_hoc,
    vector_attached_hoc, nl.
  text_norm. reflexivity.
Qed.

Lemma somadistanceapic_hoc_distance (name apical somadistance var : string) :
  somadistanceapic_hoc name apical somadistance var
  = (vector_declared_hoc name
     ++ nl ++ col 24 ("apical_branch = get_apical_branch(" ++ apical ++ ")")
     ++ distance_recording_hoc name "apical_branch" somadistance var)%string.
Proof.
  unfold somadistanceapic_hoc, distance_recording_hoc, vector_declared_hoc,
    vector_attached_hoc, nl.
  text_norm. reflexivity.
Qed.

(** An entry whose name is new and whose type is one of the three is
    declared: its name goes to the variable list and its fragment to the
    script. *)
Lemma add_extra_rec_declares (extra_rec : value) (n text : string) self :
  getitem extra_rec "name" = Ok (VStr n) ->
  in_vars n self = false ->
  declares (apical_point_isec self) extra_rec text ->
  add_extra_rec extra_rec self
  = Ok (tt, add_extra_recs_text text (add_extra_recs_vars (", " ++ n) self)).
Proof.
  intros Hname Hout (name & seclist_name & var & type & Hn & Hsl & Hv & Hty & Hcases).
  rewrite Hname in Hn. injection Hn as <-.
  unfold in_vars in Hout.
  unfold add_extra_rec, bind, lift, gets, modify.
  rewrite Hname, Hsl, Hv, Hout. cbn [negb]. rewrite Hty.
  destruct Hcases as [(-> & sec_index & comp_x & Hsi & Hcx & ->)
                     |[(-> & somadistance & Hsd & ->)|(-> & somadistance & Hsd & ->)]].
  - change (eq_str (VStr "nrnseclistcomp") "nrnseclistcomp") with true. cbv iota.
    rewrite Hsi, Hcx, nrnseclistcomp_hoc_section. reflexivity.
  - change (eq_str (VStr "somadistance") "nrnseclistcomp") with false.
    change (eq_str (VStr "somadistance") "somadistance") with true. cbv iota.
    rewrite Hsd, somadistance_hoc_distance. reflexivity.
  - change (eq_str (VStr "somadistanceapic") "nrnseclistcomp") with false.
    change (eq_str (VStr "somadistanceapic") "somadistance") with false.
    change (eq_str (VStr "somadistanceapic") "somadistanceapic") with true. cbv iota.
    rewrite Hsd, somadistanceapic_hoc_distance. reflexivity.
Qed.

(** The pieces of the variable list are the empty string and the names
    of the entries that went through the loop. *)
Lemma named_so_far_vars (n : string) (apical : Z) :
  forall names self,
    named_so_far (initial apical) names self ->
    in_vars n self = true -> n = EmptyString \/ In n names.
Proof.
  induction 1 as [|names b c r n0 _ IH [Hname Hsep] Hstep
                  |names b c mtype syn pn prot _ IH Hstep]; intros Hin.
  - left. unfold in_vars in Hin. cbn in Hin.
    rewrite orb_false_r in Hin. now apply String.eqb_eq.
  - apply add_extra_rec_run in Hstep. destruct Hstep as (name & Hname' & Hcases).
    rewrite Hname in Hname'. injection Hname' as <-.
    destruct Hcases as [[_ ->]|[_ [text ->]]].
    + destruct (IH Hin) as [->|Hold]; [now left | right; apply in_or_app; now left].
    + unfold in_vars in Hin.
      cbn [extra_recs_vars add_extra_recs_text add_extra_recs_vars py_format] in Hin.
      rewrite str_split_app, in_str_list_app, (str_split_no_sep n0 Hsep) in Hin.
      apply orb_true_iff in Hin. destruct Hin as [Hin|Hin].
      * destruct (IH Hin) as [->|Hold]; [now left | right; apply in_or_app; now left].
      * cbn in Hin. rewrite orb_false_r in Hin. apply String.eqb_eq in Hin.
        right. apply in_or_app. right. now left.
  - apply IH. unfold in_vars in *. apply dispatch_vars in Hstep.
    destruct Hstep as [Hv _]. now rewrite <- Hv.
Qed.

Lemma named_so_far_apical (a : HocStimuliCreator) :
  forall names self,
    named_so_far a names self -> apical_point_isec self = apical_point_isec a.
Proof.
  induction 1 as [|names b c r n0 _ IH _ Hstep|names b c mtype syn pn prot _ IH Hstep].
  - reflexivity.
  - apply add_extra_rec_same in Hstep. destruct Hstep as (Ha & _). congruence.
  - apply dispatch_grows in Hstep. destruct Hstep as (Ha & _). congruence.
Qed.

Lemma for_each_named (a : HocStimuliCreator) :
  forall l names,
    Forall2 rec_name l names ->
    forall names0 b c,
      named_so_far a names0 b ->
      for_each l add_extra_rec b = Ok (tt, c) ->
      named_so_far a (names0 ++ names) c.
Proof.
  induction 1 as [|r n l names Hrec _ IH]; intros names0 b c Hb H; cbn [for_each] in H.
  - inv_run. now rewrite app_nil_r.
  - inv_run.
    match goal with E : add_extra_rec r b = Ok (tt, ?x) |- _ =>
      pose proof (named_extra_rec a names0 b x r n Hb Hrec E) as Hx end.
    change (n :: names) with ([n] ++ names). rewrite app_assoc.
    now apply (IH _ _ _ Hx).
Qed.

(** C4, as the code has it: for a name without [", "] in it, only the
    first entry of this name is declared.  When the name is not empty and
    is none of the names of the entries that went through the loop
    before, in this protocol or in an earlier one (all of them strings
    without [", "]), the entry has its name appended to the variable list
    and the fragment of its type appended to the script of the extra
    recordings; once it went through the loop of [add_extra_recs], every
    later entry of this name, in the same list or in the list of a later
    protocol, leaves the script and the variable list as they are; a list
    gives the same result with the later duplicate taken out. *)
Theorem duplicate_names_declared_once :
  forall n first dup seclist_name var,
    str_contains ", " n = false ->
    getitem first "name" = Ok (VStr n) ->
    getitem dup "name" = Ok (VStr n) ->
    getitem dup "seclist_name" = Ok seclist_name ->
    getitem dup "var" = Ok var ->
    (forall apical names s0 text,
        n <> EmptyString ->
        named_so_far (initial apical) names s0 ->
        ~ In n names ->
        declares apical first text ->
        exists s1,
          add_extra_rec first s0 = Ok (tt, s1)
          /\ extra_recs_vars s1 = (extra_recs_vars s0 ++ ", " ++ n)%string
          /\ extra_recs s1 = (extra_recs s0 ++ text)%string
          /\ same_stimuli s0 s1)
    /\ (forall a names0 b l names c,
           named_so_far a names0 b ->
           Forall2 rec_name l names ->
           add_extra_recs (VList l) b = Ok (tt, c) ->
           named_so_far a (names0 ++ names) c)
    /\ (forall s0 s1 s2,
           add_extra_rec first s0 = Ok (tt, s1) ->
           later s1 s2 ->
           add_extra_rec dup s2 = Ok (tt, s2))
    /\ (forall l1 l2 l3 self,
           add_extra_recs (VList (l1 ++ first :: l2 ++ dup :: l3)) self
           = add_extra_recs (VList (l1 ++ first :: l2 ++ l3)) self).
Proof.
  intros n first dup seclist_name var Hsep Hfirst Hdup Hseclist Hvar.
  assert (Hskip : forall s0 s1 s2,
             add_extra_rec first s0 = Ok (tt, s1) -> later s1 s2 ->
             add_extra_rec dup s2 = Ok (tt, s2)).
  { intros s0 s1 s2 Hrun Hlater.
    apply (add_extra_rec_skip dup (VStr n) seclist_name var); try assumption.
    apply (later_in_vars n s1 s2 Hlater).
    now apply (add_extra_rec_registers first n s0 s1 Hfirst Hrun). }
  split; [|split; [|split; [exact Hskip|]]].
  - intros apical names s0 text Hne Hseen Hnew Hdecl.
    assert (Hout : in_vars n s0 = false).
    { destruct (in_vars n s0) eqn:Hin; [|reflexivity].
      destruct (named_so_far_vars n apical names s0 Hseen Hin); contradiction. }
    rewrite <- (named_so_far_apical (initial apical) names s0 Hseen : _ = apical) in Hdecl.
    exists (add_extra_recs_text text (add_extra_recs_vars (", " ++ n) s0)).
    split; [now apply add_extra_rec_declares|].
    split; [reflexivity|]. split; [reflexivity|]. repeat split.
  - intros a names0 b l names c Hb Hnames H.
    unfold add_extra_recs in H. inv_run.
    match goal with E : iter (VList l) = Ok _ |- _ => cbn in E; injection E as <- end.
    exact (for_each_named a l names Hnames names0 b c Hb H).
  - intros l1 l2 l3 self. unfold add_extra_recs, bind, lift. cbn [iter].
    rewrite !for_each_app. unfold bind.
    destruct (for_each l1 add_extra_rec self) as [[[] sa]|e]; [|reflexivity].
    cbn [for_each]. unfold bind.
    destruct (add_extra_rec first sa) as [[[] sb]|e] eqn:Hrun; [|reflexivity].
    rewrite !for_each_app. unfold bind.
    destruct (for_each l2 add_extra_rec sb) as [[[] sc]|e] eqn:Hl2; [|reflexivity].
    cbn [for_each]. unfold bind.
    rewrite (Hskip sa sb sc Hrun); [reflexivity|].
    eapply for_each_extra_later; [apply later_refl | exact Hl2].
Qed.

End Properties.

(** ** The ignored global parameters of [create_hoc] *)

Lemma dict_get_del (d : dict) (g k : string) :
  dict_get (dict_del d g) k = if String.eqb g k then None else dict_get d k.
Proof.
  induction d as [|[k' v] rest IH]; cbn [dict_del dict_get].
  - now destruct (String.eqb g k).
  - destruct (String.eqb k' g) eqn:Hg.
    + apply String.eqb_eq in Hg. subst k'. rewrite IH.
      now destruct (String.eqb g k).
    + cbn [dict_get]. rewrite IH.
      destruct (String.eqb k' k) eqn:Hk; [|reflexivity].
      apply String.eqb_eq in Hk. subst k'. rewrite String.eqb_sym in Hg.
      now rewrite Hg.
Qed.

Lemma dict_get_set (d : dict) (g k : string) (v : value) :
  dict_get (dict_set d g v) k = if String.eqb g k then Some v else dict_get d k.
Proof.
  induction d as [|[k' v'] rest IH]; cbn [dict_set dict_get].
  - reflexivity.
  - destruct (String.eqb k' g) eqn:Hg; cbn [dict_get].
    + apply String.eqb_eq in Hg. subst k'. now destruct (String.eqb g k).
    + rewrite IH. destruct (String.eqb k' k) eqn:Hk; [|reflexivity].
      apply String.eqb_eq in Hk. subst k'. rewrite String.eqb_sym in Hg.
      now rewrite Hg.
Qed.

Lemma move_ignored_globals_get (k : string) :
  forall ignored_globals global_params ignored_global_params,
    dict_get (fst (move_ignored_globals ignored_globals global_params
                     ignored_global_params)) k
    = (if existsb (String.eqb k) ignored_globals then None
       else dict_get global_params k)
    /\ dict_get (snd (move_ignored_globals ignored_globals global_params
                        ignored_global_params)) k
       = match (if existsb (String.eqb k) ignored_globals
                then dict_get global_params k else None) with
         | Some v => Some v
         | None => dict_get ignored_global_params k
         end.
Proof.
  induction ignored_globals as [|g rest IH]; intros gp ip;
    cbn [move_ignored_globals existsb].
  - now split.
  - destruct (dict_get gp g) as [v|] eqn:Hg.
    + destruct (IH (dict_del gp g) (dict_set ip g v)) as [IH1 IH2].
      rewrite IH1, IH2, dict_get_del, dict_get_set, (String.eqb_sym k g).
      destruct (String.eqb g k) eqn:Hk.
      * apply String.eqb_eq in Hk. subst k. cbn [orb]. rewrite Hg.
        split; [now destruct (existsb _ rest) | now destruct (existsb _ rest)].
      * cbn [orb]. split; reflexivity.
    + destruct (IH gp ip) as [IH1 IH2]. rewrite IH1, IH2.
      destruct (String.eqb k g) eqn:Hk; cbn [orb]; [|now split].
      apply String.eqb_eq in Hk. subst k. rewrite Hg.
      split; now destruct (existsb _ rest).
Qed.

(** X13: the loop of [create_hoc] splits the global parameters in two: a
    parameter named in [ignored_globals] ends up, with its value, in
    [ignored_global_params] and no longer in [global_params]; every other
    parameter stays where it was; a name that is no global parameter is
    passed over. *)
Theorem ignored_globals_are_moved :
  forall ignored_globals global_params k,
    let after := move_ignored_globals ignored_globals global_params [] in
    (existsb (String.eqb k) ignored_globals = true ->
     dict_get (snd after) k = dict_get global_params k
     /\ dict_get (fst after) k = None)
    /\ (existsb (String.eqb k) ignored_globals = false ->
        dict_get (fst after) k = dict_get global_params k
        /\ dict_get (snd after) k = None).
Proof.
  intros ignored_globals global_params k after. subst after.
  destruct (move_ignored_globals_get k ignored_globals global_params []) as [H1 H2].
  rewrite H1, H2. split; intros ->; cbn [dict_get]; split; try reflexivity.
  now destruct (dict_get global_params k).
Qed.

(** ** The count [create_simul_hoc] returns *)

Section CreateSimulHocProperties.

Variable py_repr : value -> string.
Variable template : Type.
Variable external : Type.
Variable load_template : string -> string -> external + template.
Variable render : template -> list (string * value) -> external + string.

(** X14: when [create_simul_hoc] returns, the number it returns beside the
    text is the number of dispatchable protocols of the mapping, which
    is the count of the instance it built with the [mtype] of
    [constants_args]. *)
Theorem create_simul_hoc_returns_count :
  forall template_dir template_filename add_synapses hoc_paths constants_args
         protocol_definitions apical text n,
    create_simul_hoc py_repr template external load_template render
      template_dir template_filename add_synapses hoc_paths constants_args
      protocol_definitions apical
    = Returns (text, n) ->
    n = List.length (dispatchable_items add_synapses protocol_definitions)
    /\ n <= List.length protocol_definitions
    /\ exists mtype self,
        getitem constants_args "mtype" = Ok mtype
        /\ new_HocStimuliCreator py_repr protocol_definitions mtype add_synapses apical
           = Ok self
        /\ n = n_stims self.
Proof.
  intros template_dir template_filename add_synapses hoc_paths constants_args
         protocol_definitions apical text n H.
  unfold create_simul_hoc in H.
  destruct (getitem hoc_paths "syn_dir_for_hoc"); [|discriminate].
  destruct (getitem hoc_paths "syn_hoc_filename"); [|discriminate].
  destruct (getitem hoc_paths "hoc_filename"); [|discriminate].
  destruct (getitem constants_args "mtype") as [mtype|]; [|discriminate].
  destruct (new_HocStimuliCreator py_repr protocol_definitions mtype add_synapses apical)
    as [self|] eqn:Hnew; [|discriminate].
  destruct (load_template template_dir template_filename); [discriminate|].
  destruct (getitem constants_args "celsius"); [|discriminate].
  destruct (getitem constants_args "v_init"); [|discriminate].
  destruct (getitem constants_args "dt"); [|discriminate].
  destruct (getitem constants_args "emodel"); [|discriminate].
  destruct (getitem constants_args "gid"); [|discriminate].
  destruct (getitem constants_args "morph_path"); [|discriminate].
  destruct (render _ _); [discriminate|].
  injection H as _ <-.
  pose proof (new_HocStimuliCreator_fields py_repr _ _ _ _ _ Hnew) as Hf.
  cbv zeta in Hf. destruct Hf as (_ & Hn & _).
  split; [exact Hn|]. split.
  - rewrite Hn. unfold dispatchable_items. apply filter_length_le.
  - exists mtype, self. now repeat split.
Qed.

End CreateSimulHocProperties.

(** ** The properties at the sample inputs *)

Lemma dispatch_blocks_numbered_witness :
  new_HocStimuliCreator no_repr mixed_example (VStr "L5PC") false (-1) = Ok mixed_instance
  /\ exists blocks,
      Forall2 (block_of no_repr) (dispatchable_items false mixed_example) blocks
      /\ map guard blocks = [1; 2]
      /\ n_stims mixed_instance = 2
      /\ stims_hoc mixed_instance
         = String.concat EmptyString
             (map (fun b =>
                     nl ++ col 12 ("if (stim_number == " ++ str_of_nat (guard b) ++ ") {")
                     ++ nl ++ col 8 EmptyString
                     ++ block_body b
                     ++ nl ++ col 12 "}" ++ nl ++ col 8 EmptyString)%string
                blocks)
      /\ save_recs mixed_instance
         = String.concat EmptyString
             (map (fun b =>
                     nl ++ col 12 ("if (stim_number == " ++ str_of_nat (guard b) ++ ") {")
                     ++ write_trace_hoc 16 (soma_path "L5PC" (block_name b)) "voltage"
                     ++ nl ++ col 8 EmptyString
                     ++ String.concat EmptyString
                          (map (fun nv =>
                                  write_trace_hoc 20
                                    (extra_path "L5PC" (block_name b)
                                       (py_format no_repr (fst nv))
                                       (py_format no_repr (snd nv)))
                                    (py_format no_repr (fst nv))
                                  ++ nl ++ col 16 EmptyString)
                             (block_entries b))
                     ++ nl ++ col 12 "}" ++ nl ++ col 8 EmptyString)%string
                blocks).
Proof.
  assert (Hrun : new_HocStimuliCreator no_repr mixed_example (VStr "L5PC") false (-1)
                 = Ok mixed_instance) by (vm_compute; reflexivity).
  split; [exact Hrun|].
  destruct (dispatch_blocks_numbered no_repr mixed_example (VStr "L5PC") false (-1)
              mixed_instance Hrun)
    as (blocks & Hblocks & _ & Hguards & Hn & Hstims & Hsaves).
  exists blocks.
  split; [exact Hblocks|]. split; [exact Hguards|]. split; [exact Hn|].
  split; [exact Hstims | exact Hsaves].
Defined.

Lemma max_steps_is_largest_step_count_witness :
  new_HocStimuliCreator no_repr steps_example (VStr "L5PC") false (-1) = Ok steps_instance
  /\ max_steps steps_instance
     = list_max (map (fun item => step_entries (snd item)) (step_protocols steps_example))
  /\ (step_protocols steps_example = [] -> max_steps steps_instance = 0)
  /\ max_steps steps_instance = 2.
Proof.
  split; [vm_compute; reflexivity|].
  split; [|split; [|reflexivity]];
    apply (max_steps_is_largest_step_count no_repr steps_example (VStr "L5PC") false (-1));
    vm_compute; reflexivity.
Defined.

(** A mapping without StepProtocol: [max_steps] is 0 after construction, not 1. *)
Lemma max_steps_stays_at_0 :
  step_protocols [("Ramp", ramp_example)] = []
  /\ new_HocStimuliCreator no_repr [("Ramp", ramp_example)] (VStr "L5PC") false (-1)
     = Ok ramp_instance
  /\ max_steps ramp_instance = 0
  /\ max_steps ramp_instance <> 1.
Proof.
  split; [reflexivity|]. split; [vm_compute; reflexivity|].
  split; [reflexivity|]. discriminate.
Qed.

Lemma ramp_appends_six_points_witness :
  get_holding_hoc no_repr ramp_example = Ok EmptyString
  /\ get_ramp_hoc no_repr ramp_example
     = Ok (EmptyString
           ++ (nl ++ col 12 "ramp_times = new Vector()"
               ++ nl ++ col 12 "ramp_amps = new Vector()"
               ++ nl
               ++ String.concat EmptyString
                    (map append_point_hoc (ramp_points "10" "0.1" "20" "0.5" "50"))
               ++ col 8 EmptyString)
           ++ ramp_stimulus_hoc "50"
           ++ "tstop=" ++ "50")%string
  /\ map point_value (ramp_points "10" "0.1" "20" "0.5" "50")
     = [(Some (0 # 1), Some (0 # 1)); (Some (10 # 1), Some (0 # 1));
        (Some (10 # 1), Some (1 # 10)); (Some (30 # 1), Some (1 # 2));
        (Some (30 # 1), Some (0 # 1)); (Some (50 # 1), Some (0 # 1))]%Q.
Proof.
  split; [reflexivity|].
  pose proof
    (ramp_appends_six_points no_repr ramp_example
       (VDict [("ramp",
                VDict [("ramp_delay", VInt 10); ("ramp_duration", VInt 20);
                       ("ramp_amplitude_start", VFloat "0.1");
                       ("ramp_amplitude_end", VFloat "0.5");
                       ("totduration", VInt 50)])])
       (VDict [("ramp_delay", VInt 10); ("ramp_duration", VInt 20);
               ("ramp_amplitude_start", VFloat "0.1");
               ("ramp_amplitude_end", VFloat "0.5");
               ("totduration", VInt 50)])
       EmptyString (VInt 10) (VFloat "0.1") (VInt 20) (VFloat "0.5") (VInt 50)
       eq_refl eq_refl eq_refl eq_refl eq_refl eq_refl eq_refl eq_refl) as H.
  cbv zeta in H. destruct H as (Htext & _ & Hvalues).
  split; [exact Htext|]. exact (proj2 (Hvalues eq_refl)).
Defined.

Lemma synapse_directive_fields_witness :
  get_vecstim_hoc no_repr synapse_example
  = Ok ("tstop=3000" ++ nl ++ "cell.synapses.create_netcons (0,50,3000,0,0,0,3)")%string
  /\ get_netstim_hoc no_repr synapse_example
     = Ok ("tstop=3000" ++ nl ++ "cell.synapses.create_netcons(1,50,3000,100,5,0,0)")%string.
Proof.
  destruct
    (synapse_directive_fields no_repr synapse_example
       (VDict [("syn_start", VInt 50); ("syn_stop", VInt 3000);
               ("syn_stim_seed", VInt 3); ("syn_interval", VInt 100);
               ("syn_nmb_of_spikes", VInt 5); ("syn_noise", VInt 0)])
       (VInt 50) (VInt 3000) eq_refl eq_refl eq_refl) as [Hvec Hnet].
  split.
  - exact (Hvec (VInt 3) eq_refl).
  - exact (Hnet (VInt 100) (VInt 5) (VInt 0) eq_refl eq_refl eq_refl).
Defined.

Lemma save_recordings_paths_witness :
  extra_recordings_of step_rec_example = Ok [rec_example "dend1"]
  /\ Forall2 rec_names [rec_example "dend1"] [(VStr "dend1", VStr "v")]
  /\ exists self',
      add_save_recordings_hoc no_repr (VStr "L5PC") "Step_200" step_rec_example
        (set_n_stims 1 (initial (-1)))
      = Ok (tt, self')
      /\ save_recs self'
         = (nl ++ col 12 "if (stim_number == 1) {"
            ++ write_trace_hoc 16 "hoc_recordings/L5PC.Step_200.soma.v.dat" "voltage"
            ++ nl ++ col 8 EmptyString
            ++ write_trace_hoc 20 "hoc_recordings/L5PC.Step_200.dend1.v.dat" "dend1"
            ++ nl ++ col 16 EmptyString
            ++ nl ++ col 12 "}" ++ nl ++ col 8 EmptyString)%string.
Proof.
  assert (Hnames : Forall2 rec_names [rec_example "dend1"] [(VStr "dend1", VStr "v")]).
  { constructor; [split; reflexivity | constructor]. }
  split; [reflexivity|]. split; [exact Hnames|].
  destruct
    (save_recordings_paths no_repr (VStr "L5PC") "Step_200" step_rec_example
       [rec_example "dend1"] [(VStr "dend1", VStr "v")] (set_n_stims 1 (initial (-1)))
       eq_refl Hnames) as (self' & Hrun & Hsave & _).
  exists self'. split; [exact Hrun|]. rewrite Hsave. vm_compute. reflexivity.
Defined.

Lemma step_objects_declared_and_reset_witness :
  new_HocStimuliCreator no_repr steps_example (VStr "L5PC") false (-1) = Ok steps_instance
  /\ init_step_stimuli steps_instance
     = (nl ++ col 16 "objref step_stimulus_0" ++ nl ++ col 12 EmptyString
        ++ nl ++ col 16 "objref step_stimulus_1" ++ nl ++ col 12 EmptyString)%string
  /\ reset_step_stimuli steps_instance
     = (step_object_hoc 0 "0.0" "0.0" "0.0" ++ step_object_hoc 1 "0.0" "0.0" "0.0")%string
  /\ count_occ_str "objref step_stimulus_" (init_step_stimuli steps_instance) = 2
  /\ count_occ_str "= new IClamp(0.5)" (reset_step_stimuli steps_instance) = 2.
Proof.
  assert (Hrun : new_HocStimuliCreator no_repr steps_example (VStr "L5PC") false (-1)
                 = Ok steps_instance) by (vm_compute; reflexivity).
  pose proof (step_objects_declared_and_reset no_repr steps_example (VStr "L5PC") false (-1)
                steps_instance Hrun) as H.
  cbv zeta in H.
  destruct H as (_ & _ & Hinit & Hreset & _ & _ & _ & _ & Hex).
  destruct (Hex eq_refl) as (Hn & Hi & Hr).
  rewrite Hn in Hinit, Hreset.
  split; [exact Hrun|]. split; [exact Hi|]. split; [exact Hr|].
  split; [exact Hinit | exact Hreset].
Defined.

Lemma synapse_protocols_passed_over_witness :
  dict_get vecstim_rec_example "type" = Some (VStr "Vecstim")
  /\ (forall self',
         init_body no_repr (VStr "L5PC") false ("Vecstim", VDict vecstim_rec_example)
           (initial (-1))
         = Ok (tt, self') ->
         n_stims self' = 0
         /\ stims_hoc self' = EmptyString
         /\ save_recs self' = EmptyString)
  /\ init_body no_repr (VStr "L5PC") false ("Vecstim", VDict vecstim_rec_example)
       (initial (-1))
     = Ok (tt, declared "dend1").
Proof.
  destruct
    (synapse_protocols_passed_over no_repr (VStr "L5PC") "Vecstim" vecstim_rec_example
       "Vecstim" (initial (-1)) eq_refl (or_introl eq_refl)) as (Hsame & Hrecs & _).
  split; [reflexivity|]. split; [exact Hsame|].
  rewrite (Hrecs (VList [rec_example "dend1"]) eq_refl).
  vm_compute. reflexivity.
Defined.



Lemma duplicate_names_declared_once_witness :
  str_contains ", " "dend1" = false
  /\ getitem (rec_example "dend1") "name" = Ok (VStr "dend1")
  /\ (exists s1,
         add_extra_rec no_repr (rec_example "dend1") (declared "dend2") = Ok (tt, s1)
         /\ extra_recs_vars s1 = ", dend2, dend1"%string
         /\ extra_recs s1
            = (extra_recs (declared "dend2")
               ++ vector_declared_hoc "dend1"
               ++ distance_recording_hoc "dend1" "cell.apical" "100" "v")%string)
  /\ add_extra_rec no_repr (rec_example "dend1")
       (declared "dend1")
     = Ok (tt, declared "dend1")
  /\ add_extra_recs no_repr
       (VList ([] ++ rec_example "dend1" :: [rec_example "dend2"]
               ++ rec_example "dend1" :: []))
       (initial (-1))
     = add_extra_recs no_repr
         (VList ([] ++ rec_example "dend1" :: [rec_example "dend2"] ++ []))
         (initial (-1)).
Proof.
  destruct
    (duplicate_names_declared_once no_repr "dend1" (rec_example "dend1")
       (rec_example "dend1") (VStr "apical") (VStr "v")
       eq_refl eq_refl eq_refl eq_refl eq_refl) as (Hfirst & _ & Hskip & Hlist).
  split; [reflexivity|]. split; [reflexivity|]. split; [|split].
  - destruct (Hfirst (-1)%Z ([] ++ ["dend2"%string]) (declared "dend2")
                (vector_declared_hoc "dend1"
                 ++ distance_recording_hoc "dend1" "cell.apical" "100" "v")%string)
      as (s1 & Hrun & Hvars & Hrecs & _).
    + discriminate.
    + apply (named_extra_rec no_repr (initial (-1)) [] (initial (-1)) (declared "dend2")
               (rec_example "dend2") "dend2"%string).
      * apply named_none.
      * split; reflexivity.
      * vm_compute. reflexivity.
    + intros [Habs|[]]. discriminate.
    + exists (VStr "dend1"), (VStr "apical"), (VStr "v"), "somadistance"%string.
      split; [reflexivity|]. split; [reflexivity|]. split; [reflexivity|].
      split; [reflexivity|]. right. left. split; [reflexivity|].
      exists (VInt 100). split; reflexivity.
    + exists s1. split; [exact Hrun|]. split; [exact Hvars | exact Hrecs].
  - apply (Hskip (initial (-1)) (declared "dend1") (declared "dend1"));
      [vm_compute; reflexivity | apply later_refl].
  - apply Hlist.
Defined.

(** Two entries of the same name [a, b]: both are declared, for the name
    is none of the pieces the variable list splits into.  And an entry
    whose name is the empty string is not declared, first as it is. *)
Lemma same_name_declared_twice :
  new_HocStimuliCreator no_repr [("Twice", same_name_twice)] (VStr "L5PC") false (-1)
  = Ok same_name_instance
  /\ extra_recs_vars same_name_instance = ", a, b, a, b"%string
  /\ extra_recs same_name_instance
     = (somadistance_hoc "a, b" "apical" "100" "v"
        ++ somadistance_hoc "a, b" "apical" "100" "v")%string
  /\ count_occ_str "a, b = new Vector()" (extra_recs same_name_instance) = 2
  /\ add_extra_recs no_repr (VList [rec_example EmptyString]) (initial (-1))
     = Ok (tt, initial (-1)).
Proof.
  split; [vm_compute; reflexivity|]. split; [vm_compute; reflexivity|].
  split; [vm_compute; reflexivity|]. split; vm_compute; reflexivity.
Qed.

Lemma split_membership_passes_over_witness :
  getitem (rec_example "b") "seclist_name" = Ok (VStr "apical")
  /\ getitem (rec_example "b") "var" = Ok (VStr "v")
  /\ in_vars "b" (initial (-1)) = false
  /\ add_extra_rec no_repr (rec_example "b")
       (declared "a, b")
     = Ok (tt, declared "a, b")
  /\ add_extra_rec no_repr (rec_example EmptyString) (initial (-1))
     = Ok (tt, initial (-1)).
Proof.
  destruct
    (split_membership_passes_over no_repr (rec_example "b") (VStr "apical") (VStr "v")
       eq_refl eq_refl) as (_ & _ & Hpiece & _ & _).
  destruct
    (split_membership_passes_over no_repr (rec_example EmptyString) (VStr "apical")
       (VStr "v") eq_refl eq_refl) as (_ & Hempty & _).
  split; [reflexivity|]. split; [reflexivity|]. split; [reflexivity|]. split.
  - apply (Hpiece (rec_example "a, b") "a, b"%string "b"%string (initial (-1))
             (declared "a, b") (declared "a, b")).
    + reflexivity.
    + reflexivity.
    + vm_compute. reflexivity.
    + apply later_refl.
    + vm_compute. right. left. reflexivity.
    + reflexivity.
  - apply (Hempty (-1)%Z); [reflexivity | apply later_refl].
Defined.

(** ** The further properties at the sample inputs *)

Lemma step_fragment_text_witness :
  get_step_hoc no_repr held_steps_example (initial (-1))
  = Ok ((holding_stimulus_hoc "3000" "0" "-0.1"
         ++ String.concat EmptyString
              (map (fun kf =>
                      step_object_hoc (fst kf) (py_format no_repr (fst (fst (snd kf))))
                        (py_format no_repr (snd (fst (snd kf))))
                        (py_format no_repr (snd (snd kf))))
                 (combine (seq 0 2)
                    [(VInt 2000, VInt 700, VFloat "0.2");
                     (VInt 50, VInt 100, VFloat "1.5")]))
         ++ "tstop=" ++ "3000")%string,
        set_max_steps 2 (initial (-1))).
Proof.
  apply (step_fragment_text no_repr held_steps_example
           (VDict [("holding", holding_example);
                   ("step", VList [step_entry 700 2000 "0.2"; step_entry 100 50 "1.5"])])
           (VList [step_entry 700 2000 "0.2"; step_entry 100 50 "1.5"])
           [step_entry 700 2000 "0.2"; step_entry 100 50 "1.5"]
           (step_entry 700 2000 "0.2") [step_entry 100 50 "1.5"]
           [(VInt 2000, VInt 700, VFloat "0.2"); (VInt 50, VInt 100, VFloat "1.5")]
           (VInt 3000) (holding_stimulus_hoc "3000" "0" "-0.1") (initial (-1)));
    try reflexivity.
  - right. split; [reflexivity|].
    exists holding_example, (VInt 3000), (VInt 0), (VFloat "-0.1").
    split; [reflexivity|]. split; [reflexivity|]. split; [reflexivity|].
    split; reflexivity.
  - repeat constructor.
Defined.

Lemma single_step_is_one_entry_list_witness :
  get_step_hoc no_repr (VDict one_step_dict) (initial (-1))
  = get_step_hoc no_repr (VDict one_step_list_dict) (initial (-1)).
Proof.
  apply (single_step_is_one_entry_list no_repr one_step_dict one_step_list_dict
           [("step", step_entry 700 2000 "0.3")]
           [("step", VList [step_entry 700 2000 "0.3"])]
           [("delay", VInt 700); ("amp", VFloat "0.3"); ("duration", VInt 2000);
            ("totduration", VInt 3000)]
           (initial (-1)));
    reflexivity.
Defined.

Lemma step_fragment_same_in_every_state_witness :
  get_step_hoc no_repr one_step_example (initial (-1))
  = Ok (one_step_text, set_max_steps 1 (initial (-1)))
  /\ get_step_hoc no_repr one_step_example steps_instance
     = Ok (one_step_text, set_max_steps 2 steps_instance).
Proof.
  assert (H : get_step_hoc no_repr one_step_example (initial (-1))
              = Ok (one_step_text, set_max_steps 1 (initial (-1))))
    by (vm_compute; reflexivity).
  split; [exact H|].
  destruct (step_fragment_same_in_every_state no_repr one_step_example (initial (-1))
              one_step_text (set_max_steps 1 (initial (-1))) H) as (_ & _ & Hall).
  exact (Hall steps_instance).
Defined.

Lemma step_without_entries_raises_witness :
  get_holding_hoc no_repr empty_steps_example = Ok EmptyString
  /\ get_step_hoc no_repr empty_steps_example (initial (-1)) = Raise IndexError.
Proof.
  split; [reflexivity|].
  destruct (step_without_entries_raises no_repr empty_steps_example
              (VDict [("step", VList [])]) EmptyString (initial (-1)) eq_refl eq_refl)
    as (Hempty & _).
  exact (Hempty eq_refl).
Defined.

Lemma variable_list_holds_each_name_once_witness :
  Forall2 rec_name [rec_example "dend1"; rec_example "dend2"; rec_example "dend1"]
    ["dend1"; "dend2"; "dend1"]%string
  /\ add_extra_recs no_repr
       (VList [rec_example "dend1"; rec_example "dend2"; rec_example "dend1"])
       (initial (-1))
     = Ok (tt, two_names_instance)
  /\ extra_recs_vars two_names_instance = ", dend1, dend2"%string
  /\ str_split ", " (extra_recs_vars two_names_instance)
     = [EmptyString; "dend1"; "dend2"]%string
  /\ NoDup (str_split ", " (extra_recs_vars two_names_instance)).
Proof.
  assert (Hnames : Forall2 rec_name
                     [rec_example "dend1"; rec_example "dend2"; rec_example "dend1"]
                     ["dend1"; "dend2"; "dend1"]%string)
    by (repeat constructor).
  assert (Hrun : add_extra_recs no_repr
                   (VList [rec_example "dend1"; rec_example "dend2"; rec_example "dend1"])
                   (initial (-1))
                 = Ok (tt, two_names_instance)) by (vm_compute; reflexivity).
  split; [exact Hnames|]. split; [exact Hrun|].
  destruct (variable_list_holds_each_name_once no_repr _ _ (initial (-1))
              [EmptyString] two_names_instance Hnames eq_refl Hrun)
    as (Hvars & Hsplit & Hnodup & _).
  split; [exact Hvars|]. split; [exact Hsplit|].
  apply Hnodup. repeat constructor. intros [].
Defined.

Lemma extra_rec_type_looked_up_late_witness :
  add_extra_rec no_repr (VDict rec_without_type) (initial (-1))
  = Raise (KeyError (VStr "type"))
  /\ add_extra_rec no_repr (VDict rec_without_type) (declared "dend1")
     = Ok (tt, declared "dend1").
Proof.
  split.
  - exact (proj1 (extra_rec_type_looked_up_late no_repr rec_without_type (VStr "dend1")
                    (VStr "apical") (VStr "v") (initial (-1)) eq_refl eq_refl eq_refl)
             eq_refl).
  - exact (proj1 (extra_rec_type_looked_up_late no_repr rec_without_type (VStr "dend1")
                    (VStr "apical") (VStr "v") (declared "dend1") eq_refl eq_refl eq_refl)
             eq_refl).
Defined.

Lemma mtype_only_shows_in_save_recs_witness :
  new_HocStimuliCreator no_repr mixed_example (VStr "L5PC") false (-1) = Ok mixed_instance
  /\ exists self',
      new_HocStimuliCreator no_repr mixed_example (VStr "L23PC") false (-1) = Ok self'
      /\ same_but_save_recs mixed_instance self'.
Proof.
  assert (H : new_HocStimuliCreator no_repr mixed_example (VStr "L5PC") false (-1)
              = Ok mixed_instance) by (vm_compute; reflexivity).
  split; [exact H|].
  exact (mtype_only_shows_in_save_recs no_repr mixed_example (VStr "L5PC") (VStr "L23PC")
           false (-1) mixed_instance H).
Defined.

Lemma construction_succeeds_without_synapses_witness :
  new_HocStimuliCreator no_repr mixed_example (VStr "L5PC") true (-1)
  = Ok mixed_synapses_instance
  /\ n_stims mixed_synapses_instance = 3
  /\ exists self',
      new_HocStimuliCreator no_repr mixed_example (VStr "L5PC") false (-1) = Ok self'
      /\ same_registry mixed_synapses_instance self'
      /\ n_stims self' <= n_stims mixed_synapses_instance.
Proof.
  assert (H : new_HocStimuliCreator no_repr mixed_example (VStr "L5PC") true (-1)
              = Ok mixed_synapses_instance) by (vm_compute; reflexivity).
  split; [exact H|]. split; [reflexivity|].
  exact (construction_succeeds_without_synapses no_repr mixed_example (VStr "L5PC")
           (-1) mixed_synapses_instance H).
Defined.

Lemma add_synapses_only_matters_for_synapse_protocols_witness :
  new_HocStimuliCreator no_repr steps_example (VStr "L5PC") true (-1)
  = new_HocStimuliCreator no_repr steps_example (VStr "L5PC") false (-1).
Proof.
  apply (add_synapses_only_matters_for_synapse_protocols no_repr steps_example
           (VStr "L5PC") (-1)).
  intros item [<-|[<-|[]]]; split; reflexivity.
Defined.

Lemma construction_stops_at_first_error_witness :
  init_loop no_repr [("Ramp", ramp_example)] (VStr "L5PC") false (initial (-1))
  = Ok (tt, ramp_loop_instance)
  /\ init_body no_repr (VStr "L5PC") false ("Step", VDict step_without_step)
       ramp_loop_instance
     = Raise (KeyError (VStr "step"))
  /\ new_HocStimuliCreator no_repr
       ([("Ramp", ramp_example)] ++ ("Step", VDict step_without_step)
          :: [("Untyped", untyped_bad_rec)])
       (VStr "L5PC") false (-1)
     = Raise (KeyError (VStr "step")).
Proof.
  assert (H1 : init_loop no_repr [("Ramp", ramp_example)] (VStr "L5PC") false
                 (initial (-1)) = Ok (tt, ramp_loop_instance))
    by (vm_compute; reflexivity).
  assert (H2 : init_body no_repr (VStr "L5PC") false ("Step", VDict step_without_step)
                 ramp_loop_instance = Raise (KeyError (VStr "step")))
    by (vm_compute; reflexivity).
  split; [exact H1|]. split; [exact H2|].
  exact (construction_stops_at_first_error no_repr [("Ramp", ramp_example)]
           ("Step", VDict step_without_step) [("Untyped", untyped_bad_rec)]
           (VStr "L5PC") false (-1) ramp_loop_instance (KeyError (VStr "step")) H1 H2).
Defined.

Lemma ignored_globals_are_moved_witness :
  move_ignored_globals ["celsius"; "dt"; "v_init"; "celsius"]%string
    global_params_example []
  = ([("gSK_bar", VFloat "0.5")], [("celsius", VInt 34); ("v_init", VInt (-80))])
  /\ dict_get (snd (move_ignored_globals ["celsius"; "dt"; "v_init"; "celsius"]%string
                      global_params_example [])) "celsius"
     = Some (VInt 34)
  /\ dict_get (fst (move_ignored_globals ["celsius"; "dt"; "v_init"; "celsius"]%string
                      global_params_example [])) "gSK_bar"
     = Some (VFloat "0.5").
Proof.
  split; [reflexivity|]. split.
  - exact (proj1 (proj1 (ignored_globals_are_moved
                           ["celsius"; "dt"; "v_init"; "celsius"]%string
                           global_params_example "celsius") eq_refl)).
  - exact (proj1 (proj2 (ignored_globals_are_moved
                           ["celsius"; "dt"; "v_init"; "celsius"]%string
                           global_params_example "gSK_bar") eq_refl)).
Defined.

Lemma create_simul_hoc_returns_count_witness :
  create_simul_hoc no_repr unit string load_example render_example
    "templates" "createsimulation.jinja2" false hoc_paths_example constants_example
    mixed_example (-1)
  = Returns (stims_hoc mixed_instance, 2)
  /\ 2 = List.length (dispatchable_items false mixed_example)
  /\ 2 <= List.length mixed_example.
Proof.
  assert (H : create_simul_hoc no_repr unit string load_example render_example
                "templates" "createsimulation.jinja2" false hoc_paths_example
                constants_example mixed_example (-1)
              = Returns (stims_hoc mixed_instance, 2)) by (vm_compute; reflexivity).
  split; [exact H|].
  destruct (create_simul_hoc_returns_count no_repr unit string load_example
              render_example _ _ _ _ _ _ _ _ _ H) as (Hn & Hle & _).
  split; assumption.
Defined.

Lemma init_only_appends_witness :
  later no_repr (initial (-1)) (declared "dend1")
  /\ grows (initial (-1)) (declared "dend1").
Proof.
  assert (H : later no_repr (initial (-1)) (declared "dend1")).
  { apply (later_extra_rec no_repr (initial (-1)) (initial (-1)) (declared "dend1")
             (rec_example "dend1") (later_refl no_repr (initial (-1)))).
    vm_compute. reflexivity. }
  split; [exact H|].
  exact (init_only_appends no_repr (initial (-1)) (declared "dend1") H).
Defined.

Lemma save_cannot_fail_after_registration_witness :
  register_extra_recs no_repr step_rec_example (initial (-1)) = Ok (tt, declared "dend1")
  /\ exists l entries,
      extra_recordings_of step_rec_example = Ok l
      /\ Forall2 rec_names l entries
      /\ add_save_recordings_hoc no_repr (VStr "L5PC") "Step_200" step_rec_example
           (set_n_stims 1 (initial (-1)))
         = Ok (tt, add_save_recs
                     (save_block no_repr (n_stims (set_n_stims 1 (initial (-1))))
                        (VStr "L5PC") "Step_200" entries)
                     (set_n_stims 1 (initial (-1)))).
Proof.
  assert (H : register_extra_recs no_repr step_rec_example (initial (-1))
              = Ok (tt, declared "dend1")) by (vm_compute; reflexivity).
  split; [exact H|].
  exact (save_cannot_fail_after_registration no_repr step_rec_example (initial (-1))
           (declared "dend1") H (VStr "L5PC") "Step_200"%string
           (set_n_stims 1 (initial (-1)))).
Defined.
